(** * codecontext-cli: the analysis and synthesis pipeline

    A shallow embedding of the TypeScript sources (services/analyzer.ts,
    services/codeParser.ts, services/git.ts, services/aiAnalyzer.ts,
    services/contextGenerator.ts, utils/fileUtils.ts, commands/refresh.ts)
    with the properties the specification states about them.

    Strings are byte strings ([string] of the standard library); the
    JavaScript runtime functions the sources call ([String.prototype.*],
    [path.*], regular expressions, [Array.prototype.sort]) are given
    executable models first, then the sources follow module by module. *)

From Stdlib Require Import ZArith Ascii String List Bool Lia Permutation Sorted.
From stdpp Require Import base gmap strings list.

Local Open Scope string_scope.
Local Open Scope list_scope.

(** ** JavaScript string primitives *)

Module JS.

Definition is_upper (c : ascii) : bool :=
  let n := nat_of_ascii c in (65 <=? n)%nat && (n <=? 90)%nat.
Definition is_lower (c : ascii) : bool :=
  let n := nat_of_ascii c in (97 <=? n)%nat && (n <=? 122)%nat.
Definition is_digit (c : ascii) : bool :=
  let n := nat_of_ascii c in (48 <=? n)%nat && (n <=? 57)%nat.

(** [\w] of a regular expression. *)
Definition is_word (c : ascii) : bool :=
  is_upper c || is_lower c || is_digit c || Ascii.eqb c "_".

(** [\s] of a regular expression, and the characters [trim] removes:
    tab, line feed, vertical tab, form feed, carriage return, space. *)
Definition is_space (c : ascii) : bool :=
  let n := nat_of_ascii c in ((9 <=? n)%nat && (n <=? 13)%nat) || (n =? 32)%nat.

Definition lower_char (c : ascii) : ascii :=
  if is_upper c then ascii_of_nat (nat_of_ascii c + 32) else c.
Definition upper_char (c : ascii) : ascii :=
  if is_lower c then ascii_of_nat (nat_of_ascii c - 32) else c.

Fixpoint map_chars (f : ascii -> ascii) (s : string) : string :=
  match s with
  | EmptyString => EmptyString
  | String c s' => String (f c) (map_chars f s')
  end.

Definition toLowerCase : string -> string := map_chars lower_char.
Definition toUpperCase : string -> string := map_chars upper_char.

(** [s.startsWith(p)] *)
Fixpoint startsWith (s p : string) : bool :=
  match p, s with
  | EmptyString, _ => true
  | String _ _, EmptyString => false
  | String a p', String b s' => Ascii.eqb a b && startsWith s' p'
  end.

(** [s.includes(sub)] *)
Fixpoint includes (s sub : string) : bool :=
  startsWith s sub ||
  match s with
  | EmptyString => false
  | String _ s' => includes s' sub
  end.

Fixpoint rev_string_onto (s acc : string) : string :=
  match s with
  | EmptyString => acc
  | String c s' => rev_string_onto s' (String c acc)
  end.
Definition rev_string (s : string) : string := rev_string_onto s EmptyString.

(** [s.endsWith(p)] *)
Definition endsWith (s p : string) : bool :=
  startsWith (rev_string s) (rev_string p).

Fixpoint drop (n : nat) (s : string) : string :=
  match n, s with
  | O, _ => s
  | S _, EmptyString => EmptyString
  | S n', String _ s' => drop n' s'
  end.

Fixpoint take (n : nat) (s : string) : string :=
  match n, s with
  | O, _ => EmptyString
  | S _, EmptyString => EmptyString
  | S n', String c s' => String c (take n' s')
  end.

(** [s.slice(a)] and [s.substring(0, b)] for non-negative bounds. *)
Definition slice_from (a : nat) (s : string) : string := drop a s.
Definition substring0 (b : nat) (s : string) : string := take b s.

Fixpoint trimStart (s : string) : string :=
  match s with
  | EmptyString => EmptyString
  | String c s' => if is_space c then trimStart s' else s
  end.
Definition trimEnd (s : string) : string := rev_string (trimStart (rev_string s)).
Definition trim (s : string) : string := trimEnd (trimStart s).

(** [s.split(sep)] for a one-character separator: never the empty list,
    the empty string splits into one empty piece. *)
Fixpoint split_on (sep : ascii) (s : string) : list string :=
  match s with
  | EmptyString => [EmptyString]
  | String c s' =>
      match split_on sep s' with
      | [] => [EmptyString]
      | w :: ws =>
          if Ascii.eqb c sep then EmptyString :: w :: ws
          else String c w :: ws
      end
  end.

(** [arr.join(sep)] *)
Fixpoint join (sep : string) (l : list string) : string :=
  match l with
  | [] => EmptyString
  | [x] => x
  | x :: rest => x +:+ sep +:+ join sep rest
  end.

(** [p.split(/\s+/)[0]]: the text before the first run of white space. *)
Fixpoint first_token (s : string) : string :=
  match s with
  | EmptyString => EmptyString
  | String c s' => if is_space c then EmptyString else String c (first_token s')
  end.

Fixpoint filter_chars (keep : ascii -> bool) (s : string) : string :=
  match s with
  | EmptyString => EmptyString
  | String c s' =>
      if keep c then String c (filter_chars keep s') else filter_chars keep s'
  end.

(** [s.replace(pat, '')] with a string pattern: the first occurrence only. *)
Fixpoint remove_first (pat s : string) : string :=
  if startsWith s pat then drop (String.length pat) s
  else match s with
       | EmptyString => EmptyString
       | String c s' => String c (remove_first pat s')
       end.

(** Truthiness of a string: [Boolean(s)], [s || alt]. *)
Definition truthy (s : string) : bool :=
  match s with EmptyString => false | _ => true end.
Definition or_else (s alt : string) : string := if truthy s then s else alt.

(** Decimal rendering of a non-negative integer in a template literal. *)
Definition digit_char (n : nat) : ascii := ascii_of_nat (48 + n).

Fixpoint decimal_aux (fuel n : nat) (acc : string) : string :=
  match fuel with
  | O => acc
  | S fuel' =>
      let acc' := String (digit_char (n mod 10)) acc in
      if (n <? 10)%nat then acc' else decimal_aux fuel' (n / 10) acc'
  end.
Definition decimal (n : nat) : string := decimal_aux (S n) n EmptyString.

Definition string_eqb (a b : string) : bool := String.eqb a b.

(** [arr.includes(x)] on an array of strings. *)
Definition mem (x : string) (l : list string) : bool :=
  existsb (String.eqb x) l.

(** [[...new Set(arr)]]: first occurrences, in insertion order. *)
Fixpoint dedupe_onto (seen : list string) (l : list string) : list string :=
  match l with
  | [] => []
  | x :: rest =>
      if mem x seen then dedupe_onto seen rest
      else x :: dedupe_onto (x :: seen) rest
  end.
Definition dedupe (l : list string) : list string := dedupe_onto [] l.

End JS.

(** ** Node's [path] module (POSIX flavour) *)

Module path.

Definition slash : ascii := "/"%char.

Definition normalize_step (allowAboveRoot : bool) (stack : list string)
    (seg : string) : list string :=
  if String.eqb seg "" || String.eqb seg "." then stack
  else if String.eqb seg ".." then
    match stack with
    | top :: rest =>
        if String.eqb top ".." then
          (if allowAboveRoot then ".." :: stack else stack)
        else rest
    | [] => if allowAboveRoot then [".."] else []
    end
  else seg :: stack.

(** [normalizeString]: resolves [.] and [..] segments and drops empty ones. *)
Definition normalizeString (p : string) (allowAboveRoot : bool) : string :=
  JS.join "/"
    (rev (fold_left (normalize_step allowAboveRoot) (JS.split_on slash p) [])).

Definition normalize (p : string) : string :=
  match p with
  | EmptyString => "."
  | String c _ =>
      let isAbsolute := Ascii.eqb c slash in
      let trailingSeparator := JS.endsWith p "/" in
      let q := normalizeString p (negb isAbsolute) in
      match q with
      | EmptyString =>
          if isAbsolute then "/" else if trailingSeparator then "./" else "."
      | _ =>
          let q' := if trailingSeparator then q +:+ "/" else q in
          if isAbsolute then "/" +:+ q' else q'
      end
  end.

(** [path.join(a, b)] *)
Definition join (a b : string) : string :=
  match List.filter JS.truthy [a; b] with
  | [] => "."
  | parts => normalize (JS.join "/" parts)
  end.

(** [path.basename(p)]: the last non-empty segment. *)
Definition basename (p : string) : string :=
  match List.filter JS.truthy (rev (JS.split_on slash p)) with
  | [] => EmptyString
  | seg :: _ => seg
  end.

(** The part of a segment from its last dot on. *)
Fixpoint last_dot_suffix (s : string) : option string :=
  match s with
  | EmptyString => None
  | String c s' =>
      match last_dot_suffix s' with
      | Some e => Some e
      | None => if Ascii.eqb c "." then Some s else None
      end
  end.

(** [path.extname(p)]: from the last dot of the base name on; empty when
    there is no dot, when the only dot leads the name, or for [..]. *)
Definition extname (p : string) : string :=
  let base := basename p in
  if String.eqb base ".." then EmptyString
  else match base with
       | EmptyString => EmptyString
       | String _ rest =>
           match last_dot_suffix rest with
           | Some e => e
           | None => EmptyString
           end
       end.

(** [path.basename(p, ext)] *)
Definition basename_ext (p ext : string) : string :=
  let base := basename p in
  if negb (JS.truthy ext) then base
  else if String.eqb ext p then EmptyString
  else if JS.endsWith base ext && negb (String.eqb base ext) then
    JS.take (String.length base - String.length ext) base
  else base.

(** The scan of [path.dirname] over the characters after the first, from
    the right: the text left of the first slash that follows a non-slash. *)
Fixpoint dirname_scan (rev_tail : list ascii) (matchedSlash : bool)
  : option (list ascii) :=
  match rev_tail with
  | [] => None
  | c :: rest =>
      if Ascii.eqb c slash then
        (if matchedSlash then dirname_scan rest true else Some rest)
      else dirname_scan rest false
  end.

(** [path.dirname(p)] *)
Definition dirname (p : string) : string :=
  match p with
  | EmptyString => "."
  | String c0 tl =>
      let hasRoot := Ascii.eqb c0 slash in
      match dirname_scan (rev (list_ascii_of_string tl)) true with
      | None => if hasRoot then "/" else "."
      | Some [] => if hasRoot then "//" else String c0 EmptyString
      | Some rest => String c0 (string_of_list_ascii (rev rest))
      end
  end.

End path.

(** ** types.ts *)

Inductive Mode := quick | smart | deep.

Record CodeContextConfig := {
  version : string;
  mode : Mode;
  ignorePatterns : list string;
  analysisFocus : list string;
  outputFormat : string;
  integrations_git : bool;
  integrations_claude : bool
}.

(** [lastModified] is a [Date]; it is kept as milliseconds since the epoch. *)
Record FileAnalysis := {
  fa_path : string;
  description : string;
  importance : Z;
  primaryFunctions : list string;
  lastModified : Z
}.

(** The commit date is a [Date] built from git's text; the text is kept. *)
Record Change := {
  commit : string;
  date : string;
  ch_description : string;
  impact : string;
  files : list string
}.

Inductive DependencyType := dep_import | dep_export | dep_external.

Record Dependency := {
  dep_name : string;
  dep_type : DependencyType;
  dep_from : string;
  dep_to : string
}.

Record DirectoryAnalysis := {
  da_path : string;
  purpose : string;
  architecture : string;
  keyFiles : list FileAnalysis;
  recentChanges : list Change;
  improvements : list string;
  dependencies : list Dependency
}.

(** ** utils/fileUtils.ts: the File Describer *)

(** A JavaScript object literal used as a table, in insertion order. *)
Definition table (V : Type) := list (string * V).

(** [t[key]], when truthy. *)
Fixpoint table_get {V} (t : table V) (key : string) : option V :=
  match t with
  | [] => None
  | (k, v) :: rest => if String.eqb k key then Some v else table_get rest key
  end.

Definition commonFiles : table string :=
  [ ("package.json", "Node.js project manifest with dependencies and scripts");
    ("tsconfig.json", "TypeScript compiler configuration");
    ("webpack.config.js", "Webpack bundler configuration");
    ("babel.config.js", "Babel transpiler configuration");
    (".eslintrc.json", "ESLint linting rules");
    (".gitignore", "Git ignore patterns");
    ("README.md", "Project documentation and setup instructions");
    ("Dockerfile", "Docker container configuration");
    ("docker-compose.yml", "Docker Compose service definitions");
    (".env", "Environment variables (should be git-ignored)");
    ("Makefile", "Build automation commands");
    ("requirements.txt", "Python project dependencies");
    ("go.mod", "Go module definition");
    ("Cargo.toml", "Rust project manifest");
    ("pom.xml", "Maven project configuration");
    ("build.gradle", "Gradle build configuration") ].

Definition extensions : table string :=
  [ (".ts", "TypeScript source file");
    (".tsx", "TypeScript React component");
    (".js", "JavaScript source file");
    (".jsx", "JavaScript React component");
    (".py", "Python source file");
    (".go", "Go source file");
    (".java", "Java source file");
    (".cpp", "C++ source file");
    (".c", "C source file");
    (".rs", "Rust source file");
    (".vue", "Vue.js component");
    (".svelte", "Svelte component");
    (".css", "Stylesheet");
    (".scss", "SASS stylesheet");
    (".html", "HTML template");
    (".json", "JSON data file");
    (".yml", "YAML configuration file");
    (".yaml", "YAML configuration file");
    (".xml", "XML data file");
    (".sql", "SQL database script");
    (".sh", "Shell script");
    (".md", "Markdown documentation");
    (".test.ts", "TypeScript test file");
    (".test.js", "JavaScript test file");
    (".spec.ts", "TypeScript test specification");
    (".spec.js", "JavaScript test specification") ].

(** The first entry of a table whose key satisfies [p]: the [for ... of
    Object.entries(t)] loops that return at the first hit. *)
Definition table_first {V} (p : string -> bool) (t : table V) : option V :=
  match List.find (fun kv => p (fst kv)) t with
  | Some kv => Some (snd kv)
  | None => None
  end.

Definition getFileDescription (fileName ext : string) : string :=
  match table_get commonFiles fileName with
  | Some d => d
  | None =>
      match table_first (JS.endsWith fileName) extensions with
      | Some d => d
      | None => JS.toUpperCase (JS.slice_from 1 ext) +:+ " file"
      end
  end.

Definition importantFiles : list string :=
  [ "index"; "main"; "app"; "server"; "client";
    "package.json"; "tsconfig.json"; "webpack.config";
    "Dockerfile"; "docker-compose"; ".env";
    "README"; "config"; "setup"; "install" ].

Definition isTestName (fileName : string) : bool :=
  JS.includes fileName ".test." || JS.includes fileName ".spec.".

Definition calculateImportance (fileName ext : string) : Z :=
  if existsb (fun important => JS.includes (JS.toLowerCase fileName) important)
       importantFiles
  then 10
  else if isTestName fileName then 3
  else if String.eqb ext ".ts" || String.eqb ext ".tsx"
          || String.eqb ext ".js" || String.eqb ext ".jsx"
  then 7
  else 5.

Definition functionMap : table (list string) :=
  [ ("index", ["Entry point"; "Module exports"]);
    ("app", ["Application initialization"; "Main app component"]);
    ("server", ["Server setup"; "API endpoints"]);
    ("client", ["Client-side entry"; "Browser initialization"]);
    ("config", ["Configuration management"; "Environment setup"]);
    ("router", ["Route definitions"; "Navigation setup"]);
    ("middleware", ["Request processing"; "Authentication/Authorization"]);
    ("controller", ["Request handling"; "Business logic coordination"]);
    ("service", ["Business logic"; "External integrations"]);
    ("model", ["Data structure"; "Database schema"]);
    ("utils", ["Helper functions"; "Common utilities"]);
    ("constants", ["Shared constants"; "Configuration values"]);
    ("types", ["Type definitions"; "Interfaces"]);
    ("hooks", ["Custom React hooks"; "State management"]);
    ("store", ["State management"; "Data persistence"]);
    ("api", ["API client"; "HTTP requests"]);
    ("auth", ["Authentication"; "User management"]);
    ("database", ["Database connection"; "Query execution"]);
    ("logger", ["Logging functionality"; "Error tracking"]);
    ("validator", ["Input validation"; "Data sanitization"]);
    ("parser", ["Data parsing"; "Format conversion"]);
    ("formatter", ["Data formatting"; "Output preparation"]) ].

Definition getPrimaryFunctions (fileName ext : string) : list string :=
  let baseName := JS.toLowerCase (path.basename_ext fileName ext) in
  match table_first (JS.includes baseName) functionMap with
  | Some fs => fs
  | None =>
      if isTestName fileName then ["Unit tests"; "Test cases"]
      else ["General functionality"]
  end.

(** [getFileInfo(filePath)], given the modification time [fs.stat] reports. *)
Definition getFileInfo (filePath : string) (mtime : Z) : FileAnalysis :=
  let ext := path.extname filePath in
  let fileName := path.basename filePath in
  {| fa_path := filePath;
     description := getFileDescription fileName ext;
     importance := calculateImportance fileName ext;
     primaryFunctions := getPrimaryFunctions fileName ext;
     lastModified := mtime |}.

Definition purposes : table string :=
  [ ("src", "Source code directory containing the main application logic");
    ("components", "React/Vue/Angular components for the user interface");
    ("utils", "Utility functions and helper modules");
    ("services", "Service layer for business logic and external integrations");
    ("models", "Data models and database schemas");
    ("controllers", "Request handlers and route controllers");
    ("views", "View templates and UI layouts");
    ("tests", "Test files and test utilities");
    ("config", "Configuration files and environment settings");
    ("scripts", "Build scripts and automation tools");
    ("docs", "Documentation files and guides");
    ("public", "Static assets served directly to users");
    ("assets", "Images, fonts, and other media files");
    ("styles", "CSS, SCSS, or other styling files");
    ("api", "API endpoints and route definitions");
    ("lib", "Third-party libraries or custom library code");
    ("types", "TypeScript type definitions");
    ("interfaces", "Interface definitions");
    ("constants", "Application constants and configuration values");
    ("middleware", "Express/Koa middleware functions");
    ("hooks", "React hooks or other framework hooks");
    ("store", "State management (Redux, Vuex, etc.)");
    ("actions", "Redux/Flux actions");
    ("reducers", "Redux reducers");
    ("mutations", "Vuex mutations");
    ("queries", "Database queries or GraphQL queries");
    ("migrations", "Database migration files");
    ("seeds", "Database seed files") ].

(** [getDirectoryPurpose(dirPath)], given the names [fs.readdir] lists
    (unfiltered: the function reads the directory again by itself). *)
Definition getDirectoryPurpose (dirPath : string) (files : list string) : string :=
  let dirName := path.basename dirPath in
  match table_get purposes dirName with
  | Some p => p
  | None =>
      let fileTypes := List.filter JS.truthy (map path.extname files) in
      let uniqueTypes := JS.dedupe fileTypes in
      if JS.mem ".tsx" uniqueTypes || JS.mem ".jsx" uniqueTypes then
        "Contains React components and UI elements"
      else if JS.mem ".vue" uniqueTypes then "Contains Vue.js components"
      else if JS.mem ".py" uniqueTypes then "Python modules and scripts"
      else if JS.mem ".go" uniqueTypes then "Go language source files"
      else "Contains " +:+ JS.decimal (length files) +:+ " files related to "
             +:+ dirName
  end.

(** ** Regular expressions

    A backtracking matcher for the fragment the sources use: literals,
    character sets, concatenation, ordered alternation, greedy repetition
    and capturing groups. Every expression of the sources starts with a
    literal or a non-empty character set, so no match is empty. *)

Module Regex.

Inductive re :=
| Eps
| Chr (p : ascii -> bool)
| Str (lit : string)
| Cat (a b : re)
| Alt (a b : re)
| Star (a : re)
| Grp (i : nat) (a : re).

Definition Plus (a : re) : re := Cat a (Star a).
Definition Opt (a : re) : re := Alt a Eps.
Fixpoint Seq (l : list re) : re :=
  match l with
  | [] => Eps
  | [a] => a
  | a :: rest => Cat a (Seq rest)
  end.

(** Captures, most recent first. *)
Definition caps := list (nat * string).

Fixpoint cap (i : nat) (c : caps) : option string :=
  match c with
  | [] => None
  | (j, s) :: rest => if Nat.eqb i j then Some s else cap i rest
  end.

(** A capture used as a string: [undefined] reads as the empty string in
    the places the sources use it (after a truthiness test). *)
Definition cap_str (i : nat) (c : caps) : string :=
  match cap i c with Some s => s | None => EmptyString end.

(** [run r s c k]: match [r] at the start of [s], then continue with [k] on
    the rest; [None] backtracks. A repetition never iterates on an empty
    match, so the length of the input bounds its iterations. *)
Fixpoint run {A : Type} (r : re) (s : string) (c : caps)
    (k : string -> caps -> option A) {struct r} : option A :=
  match r with
  | Eps => k s c
  | Chr p =>
      match s with
      | String x s' => if p x then k s' c else None
      | EmptyString => None
      end
  | Str lit =>
      if JS.startsWith s lit then k (JS.drop (String.length lit) s) c else None
  | Cat a b => run a s c (fun s' c' => run b s' c' k)
  | Alt a b =>
      match run a s c k with
      | Some x => Some x
      | None => run b s c k
      end
  | Star a =>
      (fix loop (n : nat) (s : string) (c : caps) {struct n} : option A :=
         match n with
         | O => k s c
         | S n' =>
             match run a s c (fun s' c' =>
                     if (String.length s' <? String.length s)%nat
                     then loop n' s' c' else None) with
             | Some x => Some x
             | None => k s c
             end
         end) (String.length s) s c
  | Grp i a =>
      run a s c (fun s' c' =>
        k s' ((i, JS.take (String.length s - String.length s') s) :: c'))
  end.

(** One match: the matched text, its captures, and the text after it. *)
Definition match_result : Type := string * caps * string.

Definition match_here (r : re) (s : string) : option match_result :=
  run r s [] (fun s' c =>
    Some (JS.take (String.length s - String.length s') s, c, s')).

(** [regex.exec(s)]: the leftmost match. *)
Fixpoint exec (r : re) (s : string) : option match_result :=
  match match_here r s with
  | Some m => Some m
  | None =>
      match s with
      | EmptyString => None
      | String _ s' => exec r s'
      end
  end.

Fixpoint matchAll_fuel (fuel : nat) (r : re) (s : string)
  : list (string * caps) :=
  match fuel with
  | O => []
  | S fuel' =>
      match exec r s with
      | None => []
      | Some (m, c, rest) =>
          (m, c) ::
          (if (String.length rest <? String.length s)%nat
           then matchAll_fuel fuel' r rest else [])
      end
  end.

(** The successive matches of a [/g] expression: [while ((m = re.exec(s)))]
    and the callback of [s.replace(re, fn)]. *)
Definition matchAll (r : re) (s : string) : list (string * caps) :=
  matchAll_fuel (S (String.length s)) r s.

Definition ws : re := Chr JS.is_space.
Definition word : re := Chr JS.is_word.
Definition none_of (cs : string) : re :=
  Chr (fun c => negb (JS.includes cs (String c EmptyString))).
Definition one_of (cs : string) : re :=
  Chr (fun c => JS.includes cs (String c EmptyString)).
Definition dquote : ascii := ascii_of_nat 34.
Definition squote : ascii := ascii_of_nat 39.
Definition is_quote (c : ascii) : bool := Ascii.eqb c squote || Ascii.eqb c dquote.
Definition quote : re := Chr is_quote.
Definition not_quote : re := Chr (fun c => negb (is_quote c)).

End Regex.

(** ** services/codeParser.ts: the Structural Source Analyzer *)

Inductive ImportType := imp_named | imp_default | imp_namespace.

Record ImportInfo := {
  source : string;
  specifiers : list string;
  imp_type : ImportType
}.

Inductive ExportType :=
  exp_function | exp_class | exp_interface | exp_variable | exp_type_alias.

Record ExportInfo := {
  exp_name : string;
  exp_type : ExportType;
  isDefault : bool
}.

Record FunctionInfo := {
  fn_name : string;
  params : list string;
  isAsync : bool;
  fn_isExported : bool
}.

Record ClassInfo := {
  cls_name : string;
  methods : list string;
  cls_isExported : bool
}.

Record InterfaceInfo := {
  if_name : string;
  properties : list string;
  if_isExported : bool
}.

Record ParsedFile := {
  imports : list ImportInfo;
  exports : list ExportInfo;
  functions : list FunctionInfo;
  classes : list ClassInfo;
  interfaces : list InterfaceInfo;
  mainPurpose : string
}.

(** The expressions of the source, each under its text (there the double
    quote is written \x22, and a blank separates a star from a closing
    parenthesis). *)
Module Patterns.
Import Regex.

(** /import\s+(?:type\s+)?(?:(\*\s+as\s+\w+)|(\w+)|({[^}]+}))\s+from\s+['\x22]([^'\x22]+)['\x22]/g *)
Definition importRegex : re :=
  Seq [ Str "import"; Plus ws; Opt (Cat (Str "type") (Plus ws));
        Alt (Grp 1 (Seq [Str "*"; Plus ws; Str "as"; Plus ws; Plus word]))
          (Alt (Grp 2 (Plus word))
               (Grp 3 (Seq [Str "{"; Plus (none_of "}"); Str "}"])));
        Plus ws; Str "from"; Plus ws; quote; Grp 4 (Plus not_quote); quote ].

(** /import\s+(\w+)\s+from\s+['\x22]([^'\x22]+)['\x22]/g *)
Definition defaultImportRegex : re :=
  Seq [ Str "import"; Plus ws; Grp 1 (Plus word); Plus ws; Str "from";
        Plus ws; quote; Grp 2 (Plus not_quote); quote ].

(** /export\s+(?:default\s+)?(?:const|let|var|function|class|interface|type)\s+(\w+)/g *)
Definition exportRegex : re :=
  Seq [ Str "export"; Plus ws; Opt (Cat (Str "default") (Plus ws));
        Alt (Str "const") (Alt (Str "let") (Alt (Str "var")
          (Alt (Str "function") (Alt (Str "class")
            (Alt (Str "interface") (Str "type"))))));
        Plus ws; Grp 1 (Plus word) ].

(** /export\s+default\s+(\w+)/g *)
Definition exportDefaultRegex : re :=
  Seq [ Str "export"; Plus ws; Str "default"; Plus ws; Grp 1 (Plus word) ].

(** /(?:export\s+)?(?:async\s+)?function\s+(\w+)\s*\(([^)]* )\)/g *)
Definition functionRegex : re :=
  Seq [ Opt (Cat (Str "export") (Plus ws)); Opt (Cat (Str "async") (Plus ws));
        Str "function"; Plus ws; Grp 1 (Plus word); Star ws; Str "(";
        Grp 2 (Star (none_of ")")); Str ")" ].

(** /(?:export\s+)?const\s+(\w+)\s*=\s*(?:async\s+)?\([^)]*\)\s*=>/g *)
Definition arrowFunctionRegex : re :=
  Seq [ Opt (Cat (Str "export") (Plus ws)); Str "const"; Plus ws;
        Grp 1 (Plus word); Star ws; Str "="; Star ws;
        Opt (Cat (Str "async") (Plus ws)); Str "("; Star (none_of ")");
        Str ")"; Star ws; Str "=>" ].

(** /(?:export\s+)?class\s+(\w+)(?:\s+extends\s+\w+)?\s*{([^}]+)}/g *)
Definition classRegex : re :=
  Seq [ Opt (Cat (Str "export") (Plus ws)); Str "class"; Plus ws;
        Grp 1 (Plus word);
        Opt (Seq [Plus ws; Str "extends"; Plus ws; Plus word]);
        Star ws; Str "{"; Grp 2 (Plus (none_of "}")); Str "}" ].

(** /(?:async\s+)?(\w+)\s*\([^)]*\)\s*{/g *)
Definition methodRegex : re :=
  Seq [ Opt (Cat (Str "async") (Plus ws)); Grp 1 (Plus word); Star ws;
        Str "("; Star (none_of ")"); Str ")"; Star ws; Str "{" ].

(** /(?:export\s+)?interface\s+(\w+)\s*(?:extends\s+[^{]+)?\s*{([^}]+)}/g *)
Definition interfaceRegex : re :=
  Seq [ Opt (Cat (Str "export") (Plus ws)); Str "interface"; Plus ws;
        Grp 1 (Plus word); Star ws;
        Opt (Seq [Str "extends"; Plus ws; Plus (none_of "{")]);
        Star ws; Str "{"; Grp 2 (Plus (none_of "}")); Str "}" ].

(** /(\w+)\s*[?:]?\s*:/g *)
Definition propRegex : re :=
  Seq [ Grp 1 (Plus word); Star ws; Opt (one_of "?:"); Star ws; Str ":" ].

End Patterns.

Definition is_brace (c : ascii) : bool := Ascii.eqb c "{" || Ascii.eqb c "}".

(** The [while] loop of [parseImports]: one entry per match of
    [importRegex], by the first capture that is set. *)
Definition import_of_match (m : string * Regex.caps) : list ImportInfo :=
  let c := snd m in
  let namespace := Regex.cap_str 1 c in
  let defaultImport := Regex.cap_str 2 c in
  let namedImports := Regex.cap_str 3 c in
  let source := Regex.cap_str 4 c in
  if JS.truthy namespace then
    [ {| source := source;
         specifiers := [JS.remove_first "* as " namespace];
         imp_type := imp_namespace |} ]
  else if JS.truthy defaultImport then
    [ {| source := source; specifiers := [defaultImport];
         imp_type := imp_default |} ]
  else if JS.truthy namedImports then
    let names :=
      List.filter JS.truthy
        (map JS.trim
           (JS.split_on "," (JS.filter_chars (fun ch => negb (is_brace ch))
                               namedImports))) in
    [ {| source := source; specifiers := names; imp_type := imp_named |} ]
  else [].

Definition is_default_import_of (src : string) (imp : ImportInfo) : bool :=
  String.eqb (source imp) src &&
  match imp_type imp with imp_default => true | _ => false end.

(** The callback of [content.replace(defaultImportRegex, ...)]. *)
Definition add_default_import (acc : list ImportInfo) (m : string * Regex.caps)
  : list ImportInfo :=
  let name := Regex.cap_str 1 (snd m) in
  let src := Regex.cap_str 2 (snd m) in
  if existsb (is_default_import_of src) acc then acc
  else acc ++ [ {| source := src; specifiers := [name];
                   imp_type := imp_default |} ].

Definition parseImports (content : string) : list ImportInfo :=
  let first :=
    concat (map import_of_match (Regex.matchAll Patterns.importRegex content)) in
  fold_left add_default_import
    (Regex.matchAll Patterns.defaultImportRegex content) first.

Definition export_of_match (m : string * Regex.caps) : ExportInfo :=
  let fullMatch := fst m in
  {| exp_name := Regex.cap_str 1 (snd m);
     exp_type :=
       if JS.includes fullMatch "function" then exp_function
       else if JS.includes fullMatch "class" then exp_class
       else if JS.includes fullMatch "interface" then exp_interface
       else if JS.includes fullMatch "type" then exp_type_alias
       else exp_variable;
     isDefault := JS.includes fullMatch "default" |}.

Definition add_default_export (acc : list ExportInfo) (m : string * Regex.caps)
  : list ExportInfo :=
  let name := Regex.cap_str 1 (snd m) in
  if existsb (fun e => String.eqb (exp_name e) name && isDefault e) acc then acc
  else acc ++ [ {| exp_name := name; exp_type := exp_variable;
                   isDefault := true |} ].

Definition parseExports (content : string) : list ExportInfo :=
  fold_left add_default_export
    (Regex.matchAll Patterns.exportDefaultRegex content)
    (map export_of_match (Regex.matchAll Patterns.exportRegex content)).

Definition function_of_match (m : string * Regex.caps) : FunctionInfo :=
  let fullMatch := fst m in
  {| fn_name := Regex.cap_str 1 (snd m);
     params :=
       List.filter JS.truthy
         (map (fun p => JS.first_token (JS.trim p))
              (JS.split_on "," (Regex.cap_str 2 (snd m))));
     isAsync := JS.includes fullMatch "async";
     fn_isExported := JS.includes fullMatch "export" |}.

Definition arrow_of_match (m : string * Regex.caps) : FunctionInfo :=
  let fullMatch := fst m in
  {| fn_name := Regex.cap_str 1 (snd m);
     params := [];
     isAsync := JS.includes fullMatch "async";
     fn_isExported := JS.includes fullMatch "export" |}.

Definition parseFunctions (content : string) : list FunctionInfo :=
  map function_of_match (Regex.matchAll Patterns.functionRegex content)
  ++ map arrow_of_match (Regex.matchAll Patterns.arrowFunctionRegex content).

Definition class_of_match (m : string * Regex.caps) : ClassInfo :=
  let body := Regex.cap_str 2 (snd m) in
  {| cls_name := Regex.cap_str 1 (snd m);
     methods :=
       List.filter (fun methodName => negb (String.eqb methodName "constructor"))
         (map (fun mm => Regex.cap_str 1 (snd mm))
              (Regex.matchAll Patterns.methodRegex body));
     cls_isExported := JS.includes (fst m) "export" |}.

Definition parseClasses (content : string) : list ClassInfo :=
  map class_of_match (Regex.matchAll Patterns.classRegex content).

Definition interface_of_match (m : string * Regex.caps) : InterfaceInfo :=
  let body := Regex.cap_str 2 (snd m) in
  {| if_name := Regex.cap_str 1 (snd m);
     properties :=
       map (fun pm => Regex.cap_str 1 (snd pm))
           (Regex.matchAll Patterns.propRegex body);
     if_isExported := JS.includes (fst m) "export" |}.

Definition parseInterfaces (content : string) : list InterfaceInfo :=
  map interface_of_match (Regex.matchAll Patterns.interfaceRegex content).

Definition determinePurpose (parsed : ParsedFile) (fileName : string) : string :=
  let baseName :=
    JS.toLowerCase (path.basename_ext fileName (path.extname fileName)) in
  if JS.includes baseName "test" || JS.includes baseName "spec" then
    "Test suite for unit testing"
  else if String.eqb baseName "index" then
    "Module entry point that exports public API"
  else
    match classes parsed with
    | mainClass :: _ =>
        "Defines " +:+ cls_name mainClass +:+ " class with "
          +:+ JS.decimal (length (methods mainClass)) +:+ " methods"
    | [] =>
        if negb (Nat.eqb (length (interfaces parsed)) 0) then
          "Type definitions including "
            +:+ JS.join ", " (map if_name (interfaces parsed))
        else
          let exportedFuncs := List.filter fn_isExported (functions parsed) in
          if negb (Nat.eqb (length (functions parsed)) 0)
             && negb (Nat.eqb (length exportedFuncs) 0) then
            "Provides " +:+ JS.join ", " (map fn_name exportedFuncs)
              +:+ " functionality"
          else if existsb (fun i => JS.includes (source i) "react")
                    (imports parsed) then "React component"
          else if existsb (fun i => JS.includes (source i) "express")
                    (imports parsed) then "Express server/middleware"
          else "Module implementation"
    end.

Definition sourceExtensions : list string := [".ts"; ".tsx"; ".js"; ".jsx"].

(** The body of the [try] block of [parseSourceFile], on the text read. *)
Definition parseContent (filePath content : string) : ParsedFile :=
  let result :=
    {| imports := parseImports content;
       exports := parseExports content;
       functions := parseFunctions content;
       classes := parseClasses content;
       interfaces := parseInterfaces content;
       mainPurpose := "" |} in
  {| imports := imports result;
     exports := exports result;
     functions := functions result;
     classes := classes result;
     interfaces := interfaces result;
     mainPurpose := determinePurpose result (path.basename filePath) |}.

(** [parseSourceFile(filePath)]: [read] is the outcome of
    [fs.readFile(filePath, 'utf-8')], [None] when it throws. The result
    [None] is the function's [null]. *)
Definition parseSourceFile (filePath : string) (read : option string)
  : option ParsedFile :=
  let ext := path.extname filePath in
  if negb (JS.mem ext sourceExtensions) then None
  else match read with
       | Some content => Some (parseContent filePath content)
       | None => None
       end.

Definition nl : string := String (ascii_of_nat 10) EmptyString.

(** No expression of the parser matches anywhere in the text. *)
Definition noDeclarations (content : string) : bool :=
  forallb (fun r => match Regex.matchAll r content with [] => true | _ => false end)
    [ Patterns.importRegex; Patterns.defaultImportRegex; Patterns.exportRegex;
      Patterns.exportDefaultRegex; Patterns.functionRegex;
      Patterns.arrowFunctionRegex; Patterns.classRegex; Patterns.interfaceRegex ].

(** A Parsed File without declarations. *)
Definition emptyParsed (purpose : string) : ParsedFile :=
  {| imports := []; exports := []; functions := []; classes := [];
     interfaces := []; mainPurpose := purpose |}.

(** The stem of a file name: the base name without its extension. *)
Definition stem (filePath : string) : string :=
  path.basename_ext (path.basename filePath)
    (path.extname (path.basename filePath)).

Definition sample_source : string :=
  "import * as fs from 'fs-extra';
import React from 'react';
import { a, b as c } from './ab';
export default class Widget extends Base {
  constructor(x) { this.x = x; }
  async render(a, b) { return 1; }
  stop() { }
}
export interface Opts { name: string; size?: number }
export async function run(x: number, y) { return x; }
function helper() {}
export const go = async (z) => z;
export default Widget;
".

(** ** [Array.prototype.sort]

    The sort of the language is stable; with a comparator that is
    consistent its result is the one of a stable insertion sort: [x] goes
    before the first later element that the comparator does not put
    before it. *)

Section Sort.
Context {A : Type} (compare : A -> A -> Z).

Fixpoint insert_sorted (x : A) (l : list A) : list A :=
  match l with
  | [] => [x]
  | y :: rest =>
      if (compare x y <=? 0)%Z then x :: l else y :: insert_sorted x rest
  end.

Definition sort (l : list A) : list A := fold_right insert_sorted [] l.
End Sort.

(** ** The environment: file system, clock, git, the AI service *)

Inductive Node :=
| File (content : option string) (mtime : Z)
| Dir
| Dangling.

Record Commit := {
  hash : string;
  c_date : string;
  message : string;
  author_name : string;
  author_email : string
}.

Record StatusResult := {
  modified : list string;
  created : list string;
  renamed : list (string * string)
}.

Inductive ClaudeModel := claude_3_haiku | claude_3_opus.

(** What [client.messages.create] does: it throws, answers with content
    that is not text, or answers with a text; [json] is then what
    [JSON.parse] makes of the text ([None] when it throws), reduced to the
    fields [purpose], [architecture] and [improvements] (empty when the
    field is missing). *)
Inductive Reply :=
| reply_throws
| reply_non_text
| reply_text (text : string) (json : option (string * string * list string)).

(** The answer of the service may differ from one call to the next: it
    depends on the time of the call. *)
Record Anthropic := {
  messages_create : Z -> ClaudeModel -> nat -> string -> Reply
}.

(** A file is [File content mtime] with [content = None] when it cannot be
    read; [Dangling] is an entry on which [fs.stat] throws. [tree] maps a
    directory to its children in the order [fs.readdir] lists them;
    [path.join(dir, child)] designates the child [child] of [dir].
    [git_log] and [git_status] hold what simple-git answers in a working
    tree; where they hold nothing the call fails. [api_client] is the
    client [new AIAnalyzer()] builds when ANTHROPIC_API_KEY is set. *)
Record World := {
  tree : gmap string (list (string * Node));
  now : Z;
  git_log : gmap string (list Commit);
  git_status : gmap string StatusResult;
  api_client : option Anthropic;
  config_file : gmap string CodeContextConfig
}.

Inductive FsError :=
| ENOENT (p : string)
| EISDIR (p : string)
| EACCES (p : string).

Inductive Outcome (A : Type) :=
| Returned (a : A)
| Thrown (e : FsError).
Arguments Returned {A} a.
Arguments Thrown {A} e.

Definition bind {A B} (m : Outcome A) (f : A -> Outcome B) : Outcome B :=
  match m with
  | Returned a => f a
  | Thrown e => Thrown e
  end.

Notation "'let*' x ':=' m 'in' k" := (bind m (fun x => k))
  (at level 10, x name, m at level 100, k at level 200).

Fixpoint assoc {V} (key : string) (l : list (string * V)) : option V :=
  match l with
  | [] => None
  | (k, v) :: rest => if String.eqb k key then Some v else assoc key rest
  end.

Module FS.

Definition readdir (w : World) (dir : string) : Outcome (list string) :=
  match tree w !! dir with
  | Some entries => Returned (map fst entries)
  | None => Thrown (ENOENT dir)
  end.

Definition lookup_child (w : World) (dir child : string) : option Node :=
  match tree w !! dir with
  | Some entries => assoc child entries
  | None => None
  end.

(** [fs.stat(path.join(dir, child))] *)
Definition stat (w : World) (dir child : string) : Outcome Node :=
  match lookup_child w dir child with
  | Some Dangling | None => Thrown (ENOENT (path.join dir child))
  | Some n => Returned n
  end.

Definition isFile (n : Node) : bool :=
  match n with File _ _ => true | _ => false end.
Definition isDirectory (n : Node) : bool :=
  match n with Dir => true | _ => false end.
Definition mtime (n : Node) : Z :=
  match n with File _ t => t | _ => 0%Z end.

(** [fs.readFile(path.join(dir, child), 'utf-8')]; [None] when it throws. *)
Definition readFile (w : World) (dir child : string) : option string :=
  match lookup_child w dir child with
  | Some (File (Some content) _) => Some content
  | _ => None
  end.

(** [fs.pathExists(path.join(dir, child))]: never throws. *)
Definition pathExists (w : World) (dir child : string) : bool :=
  match lookup_child w dir child with
  | Some _ => true
  | None => false
  end.

Fixpoint put {V} (key : string) (v : V) (l : list (string * V))
  : list (string * V) :=
  match l with
  | [] => [(key, v)]
  | (k, v0) :: rest =>
      if String.eqb k key then (k, v) :: rest else (k, v0) :: put key v rest
  end.

Definition set_tree (w : World) (t : gmap string (list (string * Node)))
  : World :=
  {| tree := t; now := (now w + 1)%Z; git_log := git_log w;
     git_status := git_status w; api_client := api_client w;
     config_file := config_file w |}.

(** [fs.writeFile(path.join(dir, child), data)]: replaces the file or adds
    it to the directory, stamped with the current time. *)
Definition writeFile (w : World) (dir child data : string) : Outcome World :=
  match tree w !! dir with
  | None => Thrown (ENOENT (path.join dir child))
  | Some entries =>
      match assoc child entries with
      | Some Dir => Thrown (EISDIR (path.join dir child))
      | _ =>
          Returned
            (set_tree w
               (<[dir := put child (File (Some data) (now w)) entries]>
                  (tree w)))
      end
  end.

End FS.

(** ** services/git.ts *)

Definition getChangedFiles (w : World) (projectPath : string) : list string :=
  match git_status w !! projectPath with
  | Some status => modified status ++ created status ++ map snd (renamed status)
  | None => []
  end.

Definition getRecentCommits (w : World) (projectPath : string) (limit : nat)
  : list Commit :=
  match git_log w !! projectPath with
  | Some all => firstn limit all
  | None => []
  end.

(** ** services/aiAnalyzer.ts *)

Record AIInsights := {
  ai_purpose : string;
  ai_architecture : string;
  ai_improvements : list string
}.

Module AIAnalyzer.

Definition t := option Anthropic.

Definition isAvailable (this : t) : bool :=
  match this with Some _ => true | None => false end.

Definition fileContext (parsedFiles : gmap string ParsedFile)
    (file : FileAnalysis) : string :=
  "File: " +:+ fa_path file +:+ nl +:+ "Type: " +:+ description file +:+ nl +:+
  match parsedFiles !! fa_path file with
  | Some parsed =>
      "Exports: " +:+ JS.join ", " (map exp_name (exports parsed)) +:+ nl +:+
      "Imports: " +:+ JS.join ", " (map source (imports parsed))
  | None => ""
  end.

Definition directoryPrompt (dirPath : string) (files : list FileAnalysis)
    (parsedFiles : gmap string ParsedFile) : string :=
  "Analyze this directory structure and provide insights:" +:+ nl +:+ nl +:+
  "Directory: " +:+ dirPath +:+ nl +:+ nl +:+
  "Files:" +:+ nl +:+
  JS.join (nl +:+ nl) (map (fileContext parsedFiles) (firstn 10 files))
  +:+ nl +:+ nl +:+
  "Please provide:" +:+ nl +:+
  "1. A concise purpose statement (1 sentence)" +:+ nl +:+
  "2. Architecture insights (2-3 sentences about patterns, structure, and design)"
  +:+ nl +:+
  "3. 3-5 specific improvement suggestions based on the code structure"
  +:+ nl +:+ nl +:+
  "Format your response as JSON with keys: purpose, architecture, improvements (array)".

Definition placeholder : AIInsights :=
  {| ai_purpose := "AI-powered analysis available with proper API key";
     ai_architecture := "Standard module structure";
     ai_improvements := [] |}.

(** [analyzeDirectory]: [None] is the [throw] of the first line. *)
Definition analyzeDirectory (this : t) (time : Z) (dirPath : string)
    (files : list FileAnalysis) (parsedFiles : gmap string ParsedFile)
    (m : Mode) : option AIInsights :=
  match this with
  | None => None
  | Some client =>
      let model := match m with deep => claude_3_opus | _ => claude_3_haiku end in
      match messages_create client time model 1000
              (directoryPrompt dirPath files parsedFiles) with
      | reply_text text (Some (p, a, imps)) =>
          Some {| ai_purpose := JS.or_else p "AI analysis unavailable";
                  ai_architecture := JS.or_else a "AI analysis unavailable";
                  ai_improvements := imps |}
      | reply_text text None =>
          Some {| ai_purpose := "AI-powered analysis available with proper API key";
                  ai_architecture := JS.substring0 200 text;
                  ai_improvements := [] |}
      | reply_non_text | reply_throws => Some placeholder
      end
  end.

Definition codeQualityPrompt (filePath content : string) (parsed : ParsedFile)
  : string :=
  "Analyze this code file and provide a one-sentence description of its purpose:"
  +:+ nl +:+ nl +:+
  "File: " +:+ filePath +:+ nl +:+
  "Functions: " +:+ JS.join ", " (map fn_name (functions parsed)) +:+ nl +:+
  "Classes: " +:+ JS.join ", " (map cls_name (classes parsed)) +:+ nl +:+
  "Imports: " +:+ JS.join ", " (map source (firstn 5 (imports parsed)))
  +:+ nl +:+ nl +:+
  "Code snippet (first 30 lines):" +:+ nl +:+
  JS.join nl (firstn 30 (JS.split_on (ascii_of_nat 10) content))
  +:+ nl +:+ nl +:+
  "Provide only a single sentence describing what this file does.".

Definition analyzeCodeQuality (this : t) (time : Z) (filePath content : string)
    (parsed : ParsedFile) : string :=
  match this with
  | None => JS.or_else (mainPurpose parsed) "File analysis"
  | Some client =>
      match messages_create client time claude_3_haiku 100
              (codeQualityPrompt filePath content parsed) with
      | reply_text text _ => JS.trim text
      | _ => mainPurpose parsed
      end
  end.

End AIAnalyzer.

(** ** services/analyzer.ts: the Directory Analyzer *)

Section Analyzer.

(** [ignore().add(patterns).ignores(name)] of the ignore package. *)
Variable ignores : list string -> string -> bool.

(** [generateDocumentation] of services/documentationGenerator.ts. *)
Variable generateDocumentation : DirectoryAnalysis -> CodeContextConfig -> string.

Definition filterFiles (config : CodeContextConfig) (files : list string)
  : list string :=
  List.filter (fun file => negb (JS.startsWith file "."))
    (List.filter (fun file => negb (ignores (ignorePatterns config) file)) files).

Definition is_quick (m : Mode) : bool :=
  match m with quick => true | _ => false end.

(** [`${f.name}(${f.params.join(', ')})`] *)
Definition signature (f : FunctionInfo) : string :=
  fn_name f +:+ "(" +:+ JS.join ", " (params f) +:+ ")".

Definition import_dependency (filePath : string) (imp : ImportInfo)
  : Dependency :=
  {| dep_name := JS.or_else (JS.join ", " (specifiers imp)) (source imp);
     dep_type := dep_import;
     dep_from := source imp;
     dep_to := filePath |}.

Definition export_dependency (filePath : string) (exp : ExportInfo)
  : Dependency :=
  {| dep_name := exp_name exp;
     dep_type := dep_export;
     dep_from := filePath;
     dep_to := "external" |}.

(** What the loop accumulates. *)
Record Scan := {
  fileAnalyses : list FileAnalysis;
  allDependencies : list Dependency;
  parsedFiles : gmap string ParsedFile
}.

Definition empty_scan : Scan :=
  {| fileAnalyses := []; allDependencies := []; parsedFiles := ∅ |}.

(** The [if (parsed)] block: the file's entry after the parse, and the
    dependency edges of the file. *)
Definition enrich (w : World) (config : CodeContextConfig)
    (aiAnalyzer : option AIAnalyzer.t) (dirPath file : string)
    (fileInfo : FileAnalysis) (parsed : ParsedFile)
  : FileAnalysis * list Dependency :=
  let filePath := path.join dirPath file in
  let fallback := JS.or_else (mainPurpose parsed) (description fileInfo) in
  let description' :=
    match aiAnalyzer with
    | Some ai =>
        if AIAnalyzer.isAvailable ai && negb (is_quick (mode config)) then
          match FS.readFile w dirPath file with
          | Some content =>
              AIAnalyzer.analyzeCodeQuality ai (now w) filePath content parsed
          | None => fallback
          end
        else fallback
    | None => fallback
    end in
  let primaryFunctions' :=
    if (0 <? length (functions parsed))%nat then
      firstn 3 (map signature (List.filter fn_isExported (functions parsed)))
    else primaryFunctions fileInfo in
  ( {| fa_path := fa_path fileInfo;
       description := description';
       importance := importance fileInfo;
       primaryFunctions := primaryFunctions';
       lastModified := lastModified fileInfo |},
    map (import_dependency filePath) (imports parsed)
    ++ map (export_dependency filePath) (exports parsed) ).

(** One turn of the [for (const file of filteredFiles)] loop. *)
Definition analyzeFile (w : World) (config : CodeContextConfig)
    (aiAnalyzer : option AIAnalyzer.t) (dirPath : string) (acc : Scan)
    (file : string) : Outcome Scan :=
  let filePath := path.join dirPath file in
  let* st := FS.stat w dirPath file in
  if FS.isFile st then
    let fileInfo := getFileInfo filePath (FS.mtime st) in
    match parseSourceFile filePath (FS.readFile w dirPath file) with
    | Some parsed =>
        let enriched :=
          enrich w config aiAnalyzer dirPath file fileInfo parsed in
        Returned
          {| fileAnalyses := fileAnalyses acc ++ [fst enriched];
             allDependencies := allDependencies acc ++ snd enriched;
             parsedFiles := <[filePath := parsed]> (parsedFiles acc) |}
    | None =>
        Returned
          {| fileAnalyses := fileAnalyses acc ++ [fileInfo];
             allDependencies := allDependencies acc;
             parsedFiles := parsedFiles acc |}
    end
  else Returned acc.

Fixpoint analyzeFiles (w : World) (config : CodeContextConfig)
    (aiAnalyzer : option AIAnalyzer.t) (dirPath : string) (acc : Scan)
    (files : list string) : Outcome Scan :=
  match files with
  | [] => Returned acc
  | file :: rest =>
      let* acc' := analyzeFile w config aiAnalyzer dirPath acc file in
      analyzeFiles w config aiAnalyzer dirPath acc' rest
  end.

(** The [while] loop that looks for the directory holding [.git]; each
    turn replaces [gitRoot] by its parent, [fuel] bounds the turns. *)
Fixpoint findGitRoot (fuel : nat) (w : World) (gitRoot : string) : string :=
  match fuel with
  | O => gitRoot
  | S fuel' =>
      if String.eqb gitRoot (path.dirname gitRoot) then gitRoot
      else if FS.pathExists w gitRoot ".git" then gitRoot
      else findGitRoot fuel' w (path.dirname gitRoot)
  end.

Definition change_of_commit (c : Commit) : Change :=
  {| commit := JS.substring0 7 (hash c);
     date := c_date c;
     ch_description := message c;
     impact := "Code changes";
     files := [] |}.

(** The [try] block that fills [recentChanges]. *)
Definition collectRecentChanges (w : World) (dirPath : string) : list Change :=
  let gitRoot := findGitRoot (String.length dirPath + 2) w dirPath in
  if FS.pathExists w gitRoot ".git" then
    map change_of_commit (getRecentCommits w gitRoot 5)
  else [].

(** [acc[ext] = (acc[ext] || 0) + 1] on an object, keys in insertion order. *)
Fixpoint bump (ext : string) (acc : list (string * nat)) : list (string * nat) :=
  match acc with
  | [] => [(ext, 1%nat)]
  | (k, n) :: rest =>
      if String.eqb k ext then (k, S n) :: rest else (k, n) :: bump ext rest
  end.

Definition hasTests (files : list FileAnalysis) : bool :=
  existsb (fun f => JS.includes (fa_path f) ".test."
                    || JS.includes (fa_path f) ".spec.") files.

Definition generateArchitectureInsights (files : list FileAnalysis)
    (dependencies : list Dependency) : string :=
  let fileTypes :=
    fold_left (fun acc file => bump (path.extname (fa_path file)) acc) files [] in
  let mainType :=
    head (sort (fun a b => (Z.of_nat (snd b) - Z.of_nat (snd a))%Z) fileTypes) in
  let insights1 :=
    match mainType with
    | Some (ext, count) =>
        ["Primarily " +:+ ext +:+ " files (" +:+ JS.decimal count +:+ " files)"]
    | None => []
    end in
  let externalDeps :=
    JS.dedupe
      (map dep_from
         (List.filter
            (fun d => match dep_type d with
                      | dep_import => negb (JS.startsWith (dep_from d) ".")
                      | _ => false
                      end) dependencies)) in
  let insights2 :=
    if (0 <? length externalDeps)%nat then
      ["Uses " +:+ JS.join ", " (firstn 3 externalDeps)
         +:+ (if (3 <? length externalDeps)%nat then " and others" else "")]
    else [] in
  let insights3 := if hasTests files then ["Includes test files"] else [] in
  let hasTypes :=
    existsb (fun f => JS.includes (fa_path f) ".d.ts"
                      || JS.includes (path.basename (fa_path f)) "types") files in
  let insights4 :=
    if hasTypes then ["Has TypeScript type definitions"] else [] in
  JS.or_else (JS.join ". " (insights1 ++ insights2 ++ insights3 ++ insights4))
    "Standard module structure".

Definition generateImprovements (files : list FileAnalysis)
    (_dependencies : list Dependency) : list string :=
  let hasCode :=
    existsb (fun f => JS.mem (path.extname (fa_path f)) sourceExtensions) files in
  let hasReadme :=
    existsb (fun f => String.eqb (JS.toLowerCase (path.basename (fa_path f)))
                        "readme.md") files in
  let hasJS :=
    existsb (fun f => JS.mem (path.extname (fa_path f)) [".js"; ".jsx"]) files in
  let hasTypes := existsb (fun f => JS.includes (fa_path f) ".d.ts") files in
  (if hasCode && negb (hasTests files) then ["Consider adding unit tests"] else [])
  ++ (if negb hasReadme && (5 <? length files)%nat
      then ["Add README.md for better documentation"] else [])
  ++ (if hasJS && negb hasTypes
      then ["Consider adding TypeScript or type definitions"] else []).

(** The comparator [(a, b) => b.importance - a.importance]. *)
Definition by_importance (a b : FileAnalysis) : Z :=
  (importance b - importance a)%Z.

Definition rankKeyFiles (files : list FileAnalysis) : list FileAnalysis :=
  firstn 10 (sort by_importance files).

(** The record [analyzeDirectory] builds, before it is rendered. *)
Definition buildAnalysis (w : World) (dirPath : string)
    (config : CodeContextConfig) : Outcome DirectoryAnalysis :=
  let* files := FS.readdir w dirPath in
  let filteredFiles := filterFiles config files in
  let aiAnalyzer : option AIAnalyzer.t :=
    if is_quick (mode config) then None else Some (api_client w) in
  let* scan := analyzeFiles w config aiAnalyzer dirPath empty_scan filteredFiles in
  let recentChanges := collectRecentChanges w dirPath in
  let* listing := FS.readdir w dirPath in
  let purpose0 := getDirectoryPurpose dirPath listing in
  let architecture0 :=
    generateArchitectureInsights (fileAnalyses scan) (allDependencies scan) in
  let improvements0 :=
    generateImprovements (fileAnalyses scan) (allDependencies scan) in
  let insights :=
    match aiAnalyzer with
    | Some ai =>
        if AIAnalyzer.isAvailable ai && negb (is_quick (mode config)) then
          AIAnalyzer.analyzeDirectory ai (now w) dirPath (fileAnalyses scan)
            (parsedFiles scan) (mode config)
        else None
    | None => None
    end in
  let purpose' :=
    match insights with
    | Some ai => JS.or_else (ai_purpose ai) purpose0
    | None => purpose0
    end in
  let architecture' :=
    match insights with
    | Some ai => JS.or_else (ai_architecture ai) architecture0
    | None => architecture0
    end in
  let improvements' :=
    match insights with
    | Some ai =>
        if (0 <? length (ai_improvements ai))%nat
        then ai_improvements ai else improvements0
    | None => improvements0
    end in
  Returned
    {| da_path := dirPath;
       purpose := purpose';
       architecture := architecture';
       keyFiles := rankKeyFiles (fileAnalyses scan);
       recentChanges := recentChanges;
       improvements := improvements';
       dependencies := allDependencies scan |}.

Definition analyzeDirectory (w : World) (dirPath : string)
    (config : CodeContextConfig) : Outcome (DirectoryAnalysis * World) :=
  let* analysis := buildAnalysis w dirPath config in
  let documentation := generateDocumentation analysis config in
  let* w' := FS.writeFile w dirPath "claude.md" documentation in
  Returned (analysis, w').

End Analyzer.

(** A child name as [fs.readdir] lists them: one segment, not empty, not
    [.] and not [..]. *)
Definition simple_name (child : string) : bool :=
  match JS.split_on path.slash child with
  | [x] => String.eqb x child
  | _ => false
  end
  && negb (String.eqb child "" || String.eqb child "." || String.eqb child "..").



Definition descending (a b : FileAnalysis) : Prop :=
  (importance b <= importance a)%Z.

(** The parent directories the loop of [findGitRoot] goes through. *)
Definition ancestor (k : nat) (dirPath : string) : string :=
  Nat.iter k path.dirname dirPath.

(** The size that bounds the turns of that loop. *)
Definition climb (p : string) : nat :=
  if String.eqb p "." then 1%nat else (String.length p + 2)%nat.


(** The files simple-git reports as changed. *)
Definition reported (status : StatusResult) (f : string) : Prop :=
  In f (modified status) \/ In f (created status)
  \/ exists from, In (from, f) (renamed status).

Definition concat_all (l : list string) : string :=
  fold_right String.append "" l.

(** A File Analysis without its modification time. *)
Definition strip (f : FileAnalysis) : FileAnalysis :=
  {| fa_path := fa_path f;
     description := description f;
     importance := importance f;
     primaryFunctions := primaryFunctions f;
     lastModified := 0 |}.

(** Two scans that differ in modification times only. *)
Definition same_scan (s1 s2 : Scan) : Prop :=
  map strip (fileAnalyses s1) = map strip (fileAnalyses s2)
  /\ allDependencies s1 = allDependencies s2
  /\ parsedFiles s1 = parsedFiles s2.


(** ** The ignore package, on a child name

    [analyzeDirectory] hands the filter the bare names [fs.readdir] lists.
    On a path of one segment a rule applies when its pattern has no slash
    and matches the name as a glob of literal characters, [*] and [?];
    rules are read in order, the last one that applies decides, and a
    rule that starts with [!] includes again. *)

Module Ignore.

Fixpoint glob (pat name : string) {struct pat} : bool :=
  match pat with
  | EmptyString => negb (JS.truthy name)
  | String c pat' =>
      if Ascii.eqb c "*" then
        (fix star (s : string) : bool :=
           glob pat' s ||
           match s with
           | EmptyString => false
           | String _ s' => star s'
           end) name
      else
        match name with
        | EmptyString => false
        | String d name' =>
            (Ascii.eqb c "?" || Ascii.eqb c d) && glob pat' name'
        end
  end.

Definition applies (pat name : string) : bool :=
  negb (JS.includes pat "/") && glob pat name.

Definition step (name : string) (ignored : bool) (rule : string) : bool :=
  match rule with
  | String c pat =>
      if Ascii.eqb c "#" then ignored
      else if Ascii.eqb c "!" then
        (if applies pat name then false else ignored)
      else if applies rule name then true else ignored
  | EmptyString => ignored
  end.

Definition ignores (patterns : list string) (name : string) : bool :=
  fold_left (step name) patterns false.

End Ignore.

(** The patterns [codecontext init] writes to the configuration. *)
Definition defaultIgnorePatterns : list string :=
  ["node_modules/**"; "dist/**"; "build/**"; "*.log"; ".git/**"; "coverage/**"].

Definition defaultConfig (m : Mode) : CodeContextConfig :=
  {| version := "1.0.0";
     mode := m;
     ignorePatterns := defaultIgnorePatterns;
     analysisFocus := ["architecture"; "dependencies"; "recent-changes"];
     outputFormat := "markdown";
     integrations_git := true;
     integrations_claude := true |}.

(** ** The persisted document *)

Module Documentation.

Definition keyFileLine (f : FileAnalysis) : string :=
  "- " +:+ path.basename (fa_path f) +:+ " (importance: "
    +:+ JS.decimal (Z.to_nat (importance f)) +:+ "/10): " +:+ description f
    +:+ " [" +:+ JS.join ", " (primaryFunctions f) +:+ "]".

Definition changeLine (c : Change) : string :=
  "- " +:+ commit c +:+ " (" +:+ date c +:+ "): " +:+ ch_description c
    +:+ " - " +:+ impact c.

Definition dependencyLine (d : Dependency) : string :=
  "- " +:+ dep_name d +:+ " ("
    +:+ match dep_type d with
        | dep_import => "import"
        | dep_export => "export"
        | dep_external => "external"
        end
    +:+ "): " +:+ dep_from d +:+ " -> " +:+ dep_to d.

Definition section (title : string) (lines : list string) : list string :=
  ["## " +:+ title] ++ lines ++ [""].

(** Modelled from the spec: [generateDocumentation] of
    services/documentationGenerator.ts, which is not among the sources. The
    document is Markdown with the sections the specification requires
    (Purpose, Architecture, Key Files in rank order, Recent Changes,
    Improvement Suggestions, Dependencies), most salient first, each
    derived from the field of the record it is named after. *)
Definition generateDocumentation (analysis : DirectoryAnalysis)
    (config : CodeContextConfig) : string :=
  JS.join nl
    (["# " +:+ path.basename (da_path analysis); ""]
     ++ section "Purpose" [purpose analysis]
     ++ section "Architecture" [architecture analysis]
     ++ section "Key Files" (map keyFileLine (keyFiles analysis))
     ++ section "Recent Changes" (map changeLine (recentChanges analysis))
     ++ section "Improvement Suggestions"
          (map (fun s => "- " +:+ s) (improvements analysis))
     ++ section "Dependencies" (map dependencyLine (dependencies analysis))).

End Documentation.

(** ** commands/refresh.ts *)

(** The options commander hands to the command; an option that was not
    given reads as [false], respectively as the empty string. *)
Record RefreshOptions := {
  opt_all : bool;
  opt_path : string
}.

(** [path.resolve(root, p)] for an absolute [root]. *)
Definition resolve (root p : string) : string :=
  let joined := if JS.startsWith p "/" then p else root +:+ "/" +:+ p in
  "/" +:+ path.normalizeString joined false.

(** The directories the change-driven branch of [refreshCommand] visits:
    [new Set(changedFiles.map(file => path.dirname(file)))]. *)
Definition refreshPlan (w : World) (projectRoot : string) : list string :=
  JS.dedupe (map path.dirname (getChangedFiles w projectRoot)).

Section Refresh.

Variable ignores : list string -> string -> bool.
Variable generateDocumentation : DirectoryAnalysis -> CodeContextConfig -> string.

Fixpoint analyzeEach (w : World) (config : CodeContextConfig)
    (dirs : list string) : Outcome World :=
  match dirs with
  | [] => Returned w
  | dir :: rest =>
      let* r := analyzeDirectory ignores generateDocumentation w dir config in
      analyzeEach (snd r) config rest
  end.

(** [refreshCommand(options)] run in [projectRoot]; [Thrown] is the
    [catch] that ends the process with status 1. *)
Definition refreshCommand (w : World) (projectRoot : string)
    (options : RefreshOptions) : Outcome World :=
  match config_file w !! projectRoot with
  | None => Returned w
  | Some config =>
      if opt_all options then
        analyzeEach w config [projectRoot]
      else if JS.truthy (opt_path options) then
        analyzeEach w config [resolve projectRoot (opt_path options)]
      else
        let changedFiles := getChangedFiles w projectRoot in
        if Nat.eqb (length changedFiles) 0 then Returned w
        else
          analyzeEach w config
            (map (path.join projectRoot) (refreshPlan w projectRoot))
  end.

End Refresh.

(** ** services/contextGenerator.ts: the Context Synthesizer *)

Definition readFileOrThrow (w : World) (dir child : string) : Outcome string :=
  match FS.readFile w dir child with
  | Some content => Returned content
  | None => Thrown (EACCES (path.join dir child))
  end.

(** [traverse] of [getFileStructure]; [budget] is [maxDepth - depth + 1],
    so [depth > maxDepth] is [budget = 0] and [depth < maxDepth] is
    [budget > 1]. *)
Fixpoint traverse (budget : nat) (w : World) (currentPath prefix : string)
  : Outcome (list string) :=
  match budget with
  | O => Returned []
  | S budget' =>
      let* items := FS.readdir w currentPath in
      let filtered :=
        List.filter (fun item => negb (JS.startsWith item ".")
                               && negb (String.eqb item "node_modules")) items in
      (fix each (l : list string) : Outcome (list string) :=
         match l with
         | [] => Returned []
         | item :: rest =>
             let isLast := match rest with [] => true | _ => false end in
             let* stats := FS.stat w currentPath item in
             let connector := if isLast then "└── " else "├── " in
             let* below :=
               (if FS.isDirectory stats && (0 <? budget')%nat then
                  traverse budget' w (path.join currentPath item)
                    (prefix +:+ (if isLast then "    " else "│   "))
                else Returned []) in
             let* after := each rest in
             Returned ((prefix +:+ connector +:+ item) :: below ++ after)
         end) filtered
  end.

Definition getFileStructure (w : World) (dirPath : string) (maxDepth : nat)
  : Outcome string :=
  let* tree := traverse maxDepth w dirPath "" in
  Returned (JS.join nl tree).

Definition lines (s : string) : list string := JS.split_on (ascii_of_nat 10) s.

Definition generateDirectoryContext (w : World) (dirPath : string)
  : Outcome string :=
  if FS.pathExists w dirPath "claude.md" then
    let* content := readFileOrThrow w dirPath "claude.md" in
    let* structure := getFileStructure w dirPath 2 in
    Returned ("# Context for " +:+ path.basename dirPath +:+ nl +:+ nl +:+
              content +:+ nl +:+ nl +:+ "## File Structure" +:+ nl +:+
              structure +:+ nl)
  else
    let* structure := getFileStructure w dirPath 2 in
    Returned ("# Context for " +:+ path.basename dirPath +:+ nl +:+ nl +:+
              "No claude.md documentation found. Run 'codecontext refresh' to generate documentation."
              +:+ nl +:+ nl +:+ "## File Structure" +:+ nl +:+ structure +:+ nl).

(** The text one document adds to the project view. *)
Definition summarySection (file content : string) : string :=
  nl +:+ "### " +:+ path.dirname file +:+ nl +:+
  JS.join nl (firstn 10 (lines content)) +:+ nl +:+ "..." +:+ nl +:+ nl.

(** The [for] loop of [generateProjectContext] over the documents kept. *)
Fixpoint appendSummaries (w : World) (projectPath : string) (context : string)
    (files : list string) : Outcome string :=
  match files with
  | [] => Returned context
  | file :: rest =>
      let* content :=
        readFileOrThrow w (path.join projectPath (path.dirname file))
          (path.basename file) in
      appendSummaries w projectPath (context +:+ summarySection file content) rest
  end.

Section Context.

(** [glob(pattern, { cwd, ignore })] of the glob package. *)
Variable glob : World -> string -> string -> list string -> list string.

Definition projectHeader (structure : string) : string :=
  "# Project-Wide Context" +:+ nl +:+ nl +:+ "## Project Structure" +:+ nl
  +:+ structure +:+ nl +:+ nl +:+ "## Directory Summaries" +:+ nl.

Definition generateProjectContext (w : World) (projectPath : string)
  : Outcome string :=
  let claudeFiles :=
    glob w "**/claude.md" projectPath ["node_modules/**"; "dist/**"; "build/**"] in
  let* structure := getFileStructure w projectPath 1 in
  appendSummaries w projectPath (projectHeader structure) (firstn 10 claudeFiles).

Definition generateStandardContext (w : World) (targetPath : string)
  : Outcome string :=
  let parentDir := path.dirname targetPath in
  let currentDir := path.basename targetPath in
  let context0 :=
    "# Working Context" +:+ nl +:+ nl +:+ "## Current Directory: "
    +:+ currentDir +:+ nl in
  let* context1 :=
    (if FS.pathExists w targetPath "claude.md" then
       let* content := readFileOrThrow w targetPath "claude.md" in
       Returned (context0 +:+ content)
     else Returned context0) in
  let context2 := context1 +:+ nl +:+ "## Parent Directory Context" +:+ nl in
  if FS.pathExists w parentDir "claude.md" then
    let* parentContent := readFileOrThrow w parentDir "claude.md" in
    Returned (context2 +:+ JS.join nl (firstn 20 (lines parentContent))
              +:+ nl +:+ "...")
  else Returned context2.

Inductive ContextType := ctx_directory | ctx_project | ctx_standard.

Definition generateContext (w : World) (targetPath : string)
    (config : CodeContextConfig) (type : ContextType) : Outcome string :=
  match type with
  | ctx_directory => generateDirectoryContext w targetPath
  | ctx_project => generateProjectContext w targetPath
  | ctx_standard => generateStandardContext w targetPath
  end.

End Context.

(** ** Sample directories *)

(** A project without version control and without an API key, holding
    one directory [/proj/lib] with the given children. *)
Definition world_at (dir : string) (entries : list (string * Node)) : World :=
  {| tree := {[ dir := entries ]};
     now := 1000;
     git_log := ∅;
     git_status := ∅;
     api_client := None;
     config_file := {[ "/proj" := defaultConfig smart ]} |}.

Definition plain_world (entries : list (string * Node)) : World :=
  world_at "/proj/lib" entries.

(** A directory that has never been analysed. *)
Definition fresh_world : World :=
  world_at "/proj/feature"
    [("run.ts", File (Some "export function run(x) { return x; }") 100)].

(** The same directory, analysed before. *)
Definition documented_world : World :=
  world_at "/proj/feature"
    [ ("run.ts", File (Some "export function run(x) { return x; }") 100);
      ("claude.md", File (Some "# feature") 500) ].

Definition analyzeWithDefaults (w : World) (dir : string)
  : Outcome (DirectoryAnalysis * World) :=
  analyzeDirectory Ignore.ignores Documentation.generateDocumentation
    w dir (defaultConfig smart).

Definition helper_source : string := "function helper(a) { return a; }".

Definition helper_world : World :=
  plain_world [("helper.ts", File (Some helper_source) 100)].

Definition ranking_world : World :=
  plain_world
    [ ("zeta.ts", File (Some "export function z(a, b) { return a; }") 10);
      ("notes.md", File (Some "notes") 20);
      ("vendor", Dir);
      ("index.ts", File (Some "export const x = 1;") 30);
      ("a.test.ts", File (Some "test('a', () => {});") 40);
      ("debug.log", File (Some "log") 50);
      (".hidden.ts", File (Some "const h = 1;") 60);
      ("alpha.ts", File None 70) ].

(** A working tree with two modified files in one directory, one new file
    at the top and one renamed file. *)
Definition changed_world : World :=
  {| tree := {[ "/proj" := [("a.ts", File (Some "const a = 1;") 1)] ]};
     now := 1000;
     git_log := ∅;
     git_status :=
       {[ "/proj" := {| modified := ["src/a.ts"; "src/b.ts"];
                        created := ["c.ts"];
                        renamed := [("old/d.ts", "lib/util/d.ts")] |} ]};
     api_client := None;
     config_file := {[ "/proj" := defaultConfig quick ]} |}.

(** A project of ten documented directories; the search also reports an
    eleventh document, which does not exist. *)
Definition summary_names : list string :=
  ["a"; "b"; "c"; "d"; "e"; "f"; "g"; "h"; "i"; "j"].

(** A document of twelve lines. *)
Definition long_document (name : string) : string :=
  JS.join nl
    (("# " +:+ name)
       :: map (fun k => "line " +:+ JS.decimal k) (seq 2 11)).

Definition summary_world : World :=
  {| tree :=
       list_to_map
         (("/proj", map (fun n => (n, Dir)) summary_names)
            :: map (fun n => (path.join "/proj" n,
                              [("claude.md", File (Some (long_document n)) 1)]))
                 summary_names);
     now := 1000;
     git_log := ∅;
     git_status := ∅;
     api_client := None;
     config_file := {[ "/proj" := defaultConfig smart ]} |}.

Definition summary_glob (w : World) (pattern cwd : string)
    (ignored : list string) : list string :=
  map (fun n => n +:+ "/claude.md") summary_names ++ ["zz/claude.md"].

(** ** Notions used to state further properties of the analysis *)

(** The scores [calculateImportance] can give. *)
Definition importanceScores : list Z := [3; 5; 7; 10]%Z.

(** The bounds of a File Analysis. *)
Definition well_formed_entry (f : FileAnalysis) : Prop :=
  In (importance f) importanceScores
  /\ (length (primaryFunctions f) <= 3)%nat.

(** An edge made for the file [filePath]: an import into the file or an
    export out of it to the sentinel. *)
Definition edge_of (filePath : string) (d : Dependency) : Prop :=
  (dep_type d = dep_import /\ dep_to d = filePath)
  \/ (dep_type d = dep_export /\ dep_from d = filePath
      /\ dep_to d = "external").

Definition well_formed_change (c : Change) : Prop :=
  files c = [] /\ impact c = "Code changes"
  /\ (String.length (commit c) <= 7)%nat.

(** A repository at [/proj] with seven commits, analysed two levels down. *)
Definition sample_commit (n : nat) : Commit :=
  {| hash := "0123456789abcdef0123456789abcdef0123456" +:+ JS.decimal n;
     c_date := "2024-01-0" +:+ JS.decimal n +:+ " 10:00:00 +0000";
     message := "commit " +:+ JS.decimal n;
     author_name := "dev";
     author_email := "dev@example.org" |}.

Definition git_world : World :=
  {| tree :=
       list_to_map
         [ ("/proj", [(".git", Dir); ("src", Dir)]);
           ("/proj/src", [("lib", Dir)]);
           ("/proj/src/lib",
            [ ("widget.tsx", File (Some sample_source) 10);
              ("notes.md", File (Some "notes") 20) ]) ];
     now := 1000;
     git_log := {[ "/proj" := map sample_commit (seq 1 7) ]};
     git_status := ∅;
     api_client := None;
     config_file := {[ "/proj" := defaultConfig quick ]} |}.

(** A directory with an entry that cannot be stat-ed. *)
Definition broken_world : World :=
  plain_world
    [ ("a.ts", File (Some "export const a = 1;") 10);
      ("broken", Dangling);
      ("b.ts", File (Some "export const b = 2;") 20) ].

(** A search that reports one document that exists and one that does not. *)
Definition partial_glob (w : World) (pattern cwd : string)
    (ignored : list string) : list string :=
  ["a/claude.md"; "zz/claude.md"].

(** The child [claude.md] of [dir] is a readable file. *)
Definition documented (w : World) (dir : string) : Prop :=
  exists doc t, FS.lookup_child w dir "claude.md" = Some (File (Some doc) t).

(** A project whose working tree has changes at the top and in [src],
    and a directory [docs] without changes. *)
Definition refresh_world : World :=
  {| tree :=
       list_to_map
         [ ("/proj", [("src", Dir); ("docs", Dir);
                      ("a.ts", File (Some "export const a = 1;") 1)]);
           ("/proj/src", [("b.ts", File (Some "export function b() { }") 2)]);
           ("/proj/docs", [("guide.md", File (Some "# guide") 3)]) ];
     now := 1000;
     git_log := ∅;
     git_status :=
       {[ "/proj" := {| modified := ["src/b.ts"; "a.ts"];
                        created := [];
                        renamed := [] |} ]};
     api_client := None;
     config_file := {[ "/proj" := defaultConfig quick ]} |}.

Definition refreshWithDefaults (w : World) (root : string)
    (options : RefreshOptions) : Outcome World :=
  refreshCommand Ignore.ignores Documentation.generateDocumentation
    w root options.

(** The world with another API client (another ANTHROPIC_API_KEY). *)
Definition with_client (w : World) (client : option Anthropic) : World :=
  {| tree := tree w; now := now w; git_log := git_log w;
     git_status := git_status w; api_client := client;
     config_file := config_file w |}.

(** A service that is down, and one that always answers. *)
Definition failing_service : Anthropic :=
  {| messages_create := fun _ _ _ _ => reply_throws |}.

Definition chatty_service : Anthropic :=
  {| messages_create := fun _ _ _ _ =>
       reply_text "A module." (Some ("Does things", "Layered", ["Refactor"])) |}.

(** The answer of the service is no text. *)
Definition no_text (r : Reply) : Prop :=
  r = reply_throws \/ r = reply_non_text.


(** ** Notions used to state further properties of the parser *)

(** An export the second pass of [parseExports] adds. *)
Definition default_variable (e : ExportInfo) : Prop :=
  isDefault e = true /\ exp_type e = exp_variable.

(** A parameter name as [parseFunctions] keeps them: not empty and free
    of white space. *)
Definition clean_token (p : string) : Prop :=
  p <> "" /\ forall ch, In ch (list_ascii_of_string p) -> JS.is_space ch = false.

(** ** Notions used to state further properties of the file tree *)

(** The entries [getFileStructure] shows. *)
Definition visible (item : string) : bool :=
  negb (JS.startsWith item ".") && negb (String.eqb item "node_modules").

Definition indent_unit (u : string) : Prop := u = "│   " \/ u = "    ".
Definition connector_text (c : string) : Prop := c = "├── " \/ c = "└── ".

(** A line of the tree under [prefix]: indentation of fewer than [depth]
    units, a connector, and the name of a visible entry. *)
Definition tree_line (prefix : string) (depth : nat) (line : string) : Prop :=
  exists units connector item,
    line = prefix +:+ concat_all units +:+ connector +:+ item
    /\ List.Forall indent_unit units
    /\ (length units < depth)%nat
    /\ connector_text connector
    /\ visible item = true.

(** A project with a hidden directory, a dependency cache and two levels
    of sources. *)
Definition nested_world : World :=
  {| tree :=
       list_to_map
         [ ("/proj", [(".git", Dir); ("node_modules", Dir); ("src", Dir);
                      ("README.md", File (Some "# proj") 1)]);
           ("/proj/src", [("lib", Dir); ("index.ts", File (Some "") 2)]);
           ("/proj/src/lib", [("deep.ts", File (Some "") 3)]);
           ("/proj/node_modules", [("pkg", Dir)]) ];
     now := 1000;
     git_log := ∅;
     git_status := ∅;
     api_client := None;
     config_file := {[ "/proj" := defaultConfig quick ]} |}.

(** ** Notions used to state further properties of the heuristics *)

(** The number of files with the extension [e]. *)
Definition count_ext (e : string) (files : list FileAnalysis) : nat :=
  length (List.filter (fun f => String.eqb (path.extname (fa_path f)) e) files).

(** The reduction of [generateArchitectureInsights] that counts the
    extensions, from a table [acc]. *)
Definition countTypes (files : list FileAnalysis) (acc : list (string * nat))
  : list (string * nat) :=
  fold_left (fun acc file => bump (path.extname (fa_path file)) acc) files acc.

Definition by_count (a b : string * nat) : Z :=
  (Z.of_nat (snd b) - Z.of_nat (snd a))%Z.

(** Every extension with its count, and no extension twice. *)
Definition counts_of (files : list FileAnalysis) (types : list (string * nat))
  : Prop :=
  List.NoDup (map fst types)
  /\ forall e, assoc e types
       = if Nat.eqb (count_ext e files) 0 then None
         else Some (count_ext e files).

(** ** services/analyzer.ts: the Project Walker *)

(** [directories.add(dir)] on a [Set], which keeps the order of insertion. *)
Definition set_add (x : string) (s : list string) : list string :=
  if JS.mem x s then s else s ++ [x].

Section Walker.

Variable ignores : list string -> string -> bool.
(** [path.relative(from, to)] *)
Variable relative : string -> string -> string.
Variable generateDocumentation : DirectoryAnalysis -> CodeContextConfig -> string.

(** The loop of [traverse] over the items of [dir], with the set of
    directories found so far; [traverse] is the recursive call. A failing
    [fs.stat] leaves the loop through the [catch]; [None] is a walk that
    has not come to its end within the budget of the recursive call.
    [ig.ignores] is asked about the path of an item relative to the root,
    a path whose segments start with no dot: it answers and does not
    throw. *)
Fixpoint visit (traverse : string -> list string -> option (list string))
    (w : World) (patterns : list string) (rootPath dir : string)
    (items : list string) (directories : list string)
  : option (list string) :=
  match items with
  | [] => Some directories
  | item :: rest =>
      if JS.startsWith item "." then
        visit traverse w patterns rootPath dir rest directories
      else
        let fullPath := path.join dir item in
        let relativePath := relative rootPath fullPath in
        if ignores patterns relativePath then
          visit traverse w patterns rootPath dir rest directories
        else
          match FS.stat w dir item with
          | Thrown _ => Some directories
          | Returned stat =>
              if FS.isDirectory stat then
                match traverse fullPath directories with
                | Some directories' =>
                    visit traverse w patterns rootPath dir rest directories'
                | None => None
                end
              else visit traverse w patterns rootPath dir rest directories
          end
  end.

(** [traverse(dir, rootPath)] of [getDirectories]; [fuel] bounds the depth
    of the recursion. A directory that cannot be listed stays in the set. *)
Fixpoint walk (fuel : nat) (w : World) (patterns : list string)
    (rootPath dir : string) (directories : list string)
  : option (list string) :=
  match fuel with
  | O => None
  | S fuel' =>
      let directories := set_add dir directories in
      match FS.readdir w dir with
      | Thrown _ => Some directories
      | Returned items =>
          visit (walk fuel' w patterns rootPath) w patterns rootPath dir
            items directories
      end
  end.

Definition getDirectories (fuel : nat) (w : World) (patterns : list string)
    (projectPath : string) : option (list string) :=
  walk fuel w patterns projectPath projectPath [].

(** [analyzeProject(projectPath, config)]: [None] when the walk has not
    come to its end within [fuel]. *)
Definition analyzeProject (fuel : nat) (w : World) (projectPath : string)
    (config : CodeContextConfig) : option (Outcome World) :=
  match getDirectories fuel w (ignorePatterns config) projectPath with
  | Some directories =>
      Some (analyzeEach ignores generateDocumentation w config directories)
  | None => None
  end.

End Walker.

(** An item of [parent] that the walk does not skip. *)
Definition kept (ignores : list string -> string -> bool)
    (relative : string -> string -> string) (patterns : list string)
    (rootPath parent item : string) : bool :=
  negb (JS.startsWith item ".")
  && negb (ignores patterns (relative rootPath (path.join parent item))).

(** How a directory comes into the result: it is the root, or a kept item
    of a directory of the result on which [fs.stat] reports a directory. *)
Definition reached (ignores : list string -> string -> bool)
    (relative : string -> string -> string) (w : World)
    (patterns : list string) (rootPath : string) (found : list string)
    (d : string) : Prop :=
  d = rootPath
  \/ exists parent item,
       In parent found /\ d = path.join parent item
       /\ kept ignores relative patterns rootPath parent item = true
       /\ FS.stat w parent item = Returned Dir.

(** No directory twice, and each one reached from the root. *)
Definition tidy (ignores : list string -> string -> bool)
    (relative : string -> string -> string) (w : World)
    (patterns : list string) (rootPath : string) (found : list string)
  : Prop :=
  List.NoDup found
  /\ forall d, In d found -> reached ignores relative w patterns rootPath found d.

(** What a call of [traverse] adds to the directories found so far. *)
Definition shapes (ignores : list string -> string -> bool)
    (relative : string -> string -> string) (w : World)
    (patterns : list string) (rootPath : string)
    (rec : string -> list string -> option (list string)) : Prop :=
  forall dir acc r,
    rec dir acc = Some r ->
    tidy ignores relative w patterns rootPath acc ->
    reached ignores relative w patterns rootPath acc dir ->
    tidy ignores relative w patterns rootPath r
    /\ exists tail, r = set_add dir acc ++ tail.

(** The kept subdirectories of [parent] are found, when [fs.stat] fails on
    none of its kept items. *)
Definition closed (ignores : list string -> string -> bool)
    (relative : string -> string -> string) (w : World)
    (patterns : list string) (rootPath : string) (found : list string)
    (parent : string) : Prop :=
  forall items,
    FS.readdir w parent = Returned items ->
    (forall i e, In i items ->
       kept ignores relative patterns rootPath parent i = true ->
       FS.stat w parent i <> Thrown e) ->
    forall item,
      kept ignores relative patterns rootPath parent item = true ->
      FS.stat w parent item = Returned Dir ->
      In (path.join parent item) found.

Definition completes (ignores : list string -> string -> bool)
    (relative : string -> string -> string) (w : World)
    (patterns : list string) (rootPath : string)
    (rec : string -> list string -> option (list string)) : Prop :=
  forall dir acc r,
    rec dir acc = Some r ->
    incl acc r /\ In dir r
    /\ closed ignores relative w patterns rootPath r dir
    /\ forall p, In p r ->
         In p acc \/ closed ignores relative w patterns rootPath r p.

(** Every path of a listed directory is at most [bound] characters long,
    and the path of a subdirectory is longer than its parent's. *)
Definition deepens (bound : nat) (d : string) (entries : list (string * Node))
  : bool :=
  (String.length d <=? bound)%nat
  && forallb (fun e => negb (FS.isDirectory (snd e))
                       || (String.length d <? String.length (path.join d (fst e)))%nat)
       entries.

Definition well_nested (w : World) (bound : nat) : Prop :=
  map_Forall (fun d entries => deepens bound d entries = true) (tree w).

(** ** Sample instances of the libraries for the walk *)

(** [path.relative(from, to)] for absolute paths: the segments of [to]
    after the common leading segments, behind one [..] for each segment of
    [from] that is left. *)
Definition segments (p : string) : list string :=
  List.filter JS.truthy (JS.split_on path.slash (resolve "/" p)).

Fixpoint strip_common (a b : list string) : list string * list string :=
  match a, b with
  | x :: a', y :: b' => if String.eqb x y then strip_common a' b' else (a, b)
  | _, _ => (a, b)
  end.

Definition path_relative (from to : string) : string :=
  let '(up, down) := strip_common (segments from) (segments to) in
  JS.join "/" (map (fun _ => "..") up ++ down).

(** The rules of [ignore] on a path relative to the root, for the two
    kinds of rule of the default configuration: [dir/**], which holds of
    everything below [dir], and a pattern without a slash, which holds of
    a path when it holds of one of its segments. *)
Definition below (pattern p : string) : bool :=
  JS.endsWith pattern "/**"
  && JS.startsWith p (JS.take (String.length pattern - 2) pattern)
  && (String.length pattern - 2 <? String.length p)%nat.

Definition ignores_path (patterns : list string) (p : string) : bool :=
  existsb (fun pattern => below pattern p) patterns
  || existsb (Ignore.ignores patterns) (JS.split_on path.slash p).

Definition walkWithDefaults (fuel : nat) (w : World) (projectPath : string)
  : option (list string) :=
  getDirectories ignores_path path_relative fuel w defaultIgnorePatterns
    projectPath.

(** A project with a directory the walk cannot list. *)
Definition locked_world : World :=
  {| tree :=
       list_to_map
         [ ("/proj", [("src", Dir); ("locked", Dir);
                      ("a.ts", File (Some "export const a = 1;") 1)]);
           ("/proj/src", [("b.ts", File (Some "export function b() { }") 2)]) ];
     now := 1000;
     git_log := ∅;
     git_status := ∅;
     api_client := None;
     config_file := {[ "/proj" := defaultConfig quick ]} |}.

(** ** Notions used to compare the modes of analysis *)

(** A File Analysis without its description. *)
Definition undescribed (f : FileAnalysis) : FileAnalysis :=
  {| fa_path := fa_path f;
     description := "";
     importance := importance f;
     primaryFunctions := primaryFunctions f;
     lastModified := lastModified f |}.

(** Two scans that differ in descriptions only. *)
Definition same_files (s1 s2 : Scan) : Prop :=
  map undescribed (fileAnalyses s1) = map undescribed (fileAnalyses s2)
  /\ allDependencies s1 = allDependencies s2
  /\ parsedFiles s1 = parsedFiles s2.

(** Two runs that end alike, with results that [R] relates. *)
Definition alike {A} (R : A -> A -> Prop) (o1 o2 : Outcome A) : Prop :=
  match o1, o2 with
  | Returned a1, Returned a2 => R a1 a2
  | Thrown e1, Thrown e2 => e1 = e2
  | _, _ => False
  end.

(** Two records that differ in their texts only: the descriptions of the
    key files, the purpose, the architecture and the improvements. *)
Definition same_structure (a1 a2 : DirectoryAnalysis) : Prop :=
  da_path a1 = da_path a2
  /\ map undescribed (keyFiles a1) = map undescribed (keyFiles a2)
  /\ dependencies a1 = dependencies a2
  /\ recentChanges a1 = recentChanges a2.

(** ** Notions used to state further properties of the imports *)

(** A namespace or default import names one binding; a named import lists
    no empty name. *)
Definition well_formed_import (imp : ImportInfo) : Prop :=
  match imp_type imp with
  | imp_named => List.Forall (fun s => s <> "") (specifiers imp)
  | _ => length (specifiers imp) = 1%nat
  end.

Definition default_from (src : string) (imp : ImportInfo) : Prop :=
  source imp = src /\ imp_type imp = imp_default.
Example dirname_examples :
  map path.dirname ["src/a.ts"; "a.ts"; "/a"; "a/b/"; "/"; ""; "//a"; "a/b/c.ts"]
  = ["src"; "."; "/"; "a"; "/"; "."; "//"; "a/b"].
Proof. reflexivity. Qed.

Example extname_examples :
  map path.extname ["index.ts"; ".bashrc"; "a.test.ts"; "Makefile"; ".."; "a."; "/x/y.d.ts"; "..c"]
  = [".ts"; ""; ".ts"; ""; ""; "."; ".ts"; ".c"].
Proof. reflexivity. Qed.

Example join_examples :
  map (fun '(a, b) => path.join a b)
      [("/proj", "a.ts"); ("/", "x"); (".", "x"); ("a/", "b"); ("a/../b", "c"); ("", "")]
  = ["/proj/a.ts"; "/x"; "x"; "a/b"; "b/c"; "."].
Proof. reflexivity. Qed.

Example basename_examples :
  map path.basename ["/proj/a.ts"; "a/b/"; "/"; "x"] = ["a.ts"; "b"; ""; "x"]
  /\ path.basename_ext "index.ts" ".ts" = "index"
  /\ path.basename_ext ".env" "" = ".env".
Proof. repeat split; reflexivity. Qed.

Example getFileInfo_index :
  getFileInfo "/proj/lib/index.ts" 0
  = {| fa_path := "/proj/lib/index.ts";
       description := "TypeScript source file";
       importance := 10;
       primaryFunctions := ["Entry point"; "Module exports"];
       lastModified := 0 |}.
Proof. reflexivity. Qed.

Example calculateImportance_examples :
  map (fun n => calculateImportance n (path.extname n))
      ["index.ts"; "app.test.ts"; "util.test.ts"; "util.ts"; "notes.md";
       "package.json"; "claude.md"; "README.md"; "Dockerfile"]
  = [10; 10; 3; 7; 5; 10; 5; 5; 5]%Z.
Proof. reflexivity. Qed.

Example getDirectoryPurpose_examples :
  getDirectoryPurpose "/proj/utils" ["a.py"] = "Utility functions and helper modules"
  /\ getDirectoryPurpose "/proj/foo" ["a.ts"; "b.md"] = "Contains 2 files related to foo"
  /\ getDirectoryPurpose "/proj/foo" ["a.ts"; "b.tsx"] = "Contains React components and UI elements".
Proof. repeat split; reflexivity. Qed.

Example parse_sample :
  parseSourceFile "/p/widget.tsx" (Some sample_source)
  = Some
      {| imports :=
           [ {| source := "fs-extra"; specifiers := ["fs"]; imp_type := imp_namespace |};
             {| source := "react"; specifiers := ["React"]; imp_type := imp_default |};
             {| source := "./ab"; specifiers := ["a"; "b as c"]; imp_type := imp_named |} ];
         exports :=
           [ {| exp_name := "Widget"; exp_type := exp_class; isDefault := true |};
             {| exp_name := "Opts"; exp_type := exp_interface; isDefault := false |};
             {| exp_name := "go"; exp_type := exp_variable; isDefault := false |};
             {| exp_name := "class"; exp_type := exp_variable; isDefault := true |} ];
         functions :=
           [ {| fn_name := "run"; params := ["x:"; "y"]; isAsync := true; fn_isExported := true |};
             {| fn_name := "helper"; params := []; isAsync := false; fn_isExported := false |};
             {| fn_name := "go"; params := []; isAsync := true; fn_isExported := true |} ];
         classes :=
           [ {| cls_name := "Widget"; methods := []; cls_isExported := false |} ];
         interfaces :=
           [ {| if_name := "Opts"; properties := ["name"; "size"]; if_isExported := true |} ];
         mainPurpose := "Defines Widget class with 0 methods" |}.
Proof. vm_compute. reflexivity. Qed.

(** * Strings and paths *)

Lemma append_nil_l (s : string) : "" +:+ s = s.
Proof. reflexivity. Qed.

Lemma append_cons (c : ascii) (a b : string) :
  String c a +:+ b = String c (a +:+ b).
Proof. reflexivity. Qed.

Ltac app_simpl := rewrite ?append_cons, ?append_nil_l.

Lemma append_assoc (a b c : string) : (a +:+ b) +:+ c = a +:+ (b +:+ c).
Proof. induction a as [|x a IH]; app_simpl; congruence. Qed.

Lemma append_empty_r (a : string) : a +:+ "" = a.
Proof. induction a as [|x a IH]; app_simpl; congruence. Qed.

Lemma split_on_nonempty (sep : ascii) (s : string) : JS.split_on sep s <> [].
Proof.
  destruct s as [|c s]; simpl; [discriminate|].
  destruct (JS.split_on sep s); [discriminate|].
  destruct (Ascii.eqb c sep); discriminate.
Qed.

Lemma split_on_app_sep (sep : ascii) (a b : string) :
  JS.split_on sep (a +:+ String sep b)
  = JS.split_on sep a ++ JS.split_on sep b.
Proof.
  induction a as [|c a IH]; app_simpl; simpl.
  - rewrite Ascii.eqb_refl.
    destruct (JS.split_on sep b) eqn:E; [|reflexivity].
    now apply split_on_nonempty in E.
  - rewrite IH.
    destruct (JS.split_on sep a) as [|w ws] eqn:E;
      [now apply split_on_nonempty in E|].
    simpl. destruct (Ascii.eqb c sep); reflexivity.
Qed.

Lemma join_snoc (sep : string) (l : list string) (c : string) :
  JS.join sep (l ++ [c])
  = match l with
    | [] => c
    | _ => JS.join sep l +:+ sep +:+ c
    end.
Proof.
  induction l as [|x l IH]; [reflexivity|].
  destruct l as [|y l]; [reflexivity|].
  change (JS.join sep ((x :: y :: l) ++ [c]))
    with (x +:+ sep +:+ JS.join sep ((y :: l) ++ [c])).
  rewrite IH.
  change (JS.join sep (x :: y :: l)) with (x +:+ sep +:+ JS.join sep (y :: l)).
  now rewrite !append_assoc.
Qed.

Lemma simple_name_split (child : string) :
  simple_name child = true -> JS.split_on path.slash child = [child].
Proof.
  unfold simple_name. rewrite andb_true_iff. intros [H _].
  destruct (JS.split_on path.slash child) as [|x [|y l]]; try discriminate.
  apply String.eqb_eq in H. now subst.
Qed.

Lemma simple_name_step (child : string) (b : bool) (stack : list string) :
  simple_name child = true ->
  path.normalize_step b stack child = child :: stack.
Proof.
  unfold simple_name. rewrite andb_true_iff, negb_true_iff, !orb_false_iff.
  intros (_ & (H1 & H2) & H3). unfold path.normalize_step.
  now rewrite H1, H2, H3.
Qed.

Lemma simple_name_truthy (child : string) :
  simple_name child = true -> JS.truthy child = true.
Proof.
  unfold simple_name. rewrite andb_true_iff, negb_true_iff, !orb_false_iff.
  intros (_ & (H1 & _) & _). now destruct child.
Qed.

(** The normal form of a path that ends in a child name ends in that name. *)
Lemma normalizeString_child (pre child : string) (b : bool) :
  simple_name child = true ->
  (pre = "" \/ exists d, pre = d +:+ "/") ->
  exists pre', (pre' = "" \/ exists d, pre' = d +:+ "/")
    /\ path.normalizeString (pre +:+ child) b = pre' +:+ child.
Proof.
  intros Hc Hpre. unfold path.normalizeString.
  assert (Hsplit : exists S, JS.split_on path.slash (pre +:+ child) = S ++ [child]).
  { destruct Hpre as [->|[d ->]].
    - exists []. simpl. now apply simple_name_split.
    - exists (JS.split_on path.slash d). rewrite append_assoc. app_simpl.
      change (String "/" child) with (String path.slash child).
      rewrite split_on_app_sep. now rewrite (simple_name_split _ Hc). }
  destruct Hsplit as [S ->].
  rewrite fold_left_app. simpl. rewrite (simple_name_step _ _ _ Hc).
  simpl. rewrite join_snoc.
  destruct (rev (fold_left (path.normalize_step b) S [])) as [|x l].
  - exists "". split; [now left|reflexivity].
  - exists (JS.join "/" (x :: l) +:+ "/"). split; [right; eauto|].
    now rewrite append_assoc.
Qed.

Lemma basename_child (pre child post : string) :
  simple_name child = true ->
  (pre = "" \/ exists d, pre = d +:+ "/") ->
  (post = "" \/ post = "/") ->
  path.basename (pre +:+ child +:+ post) = child.
Proof.
  intros Hc Hpre Hpost. unfold path.basename.
  assert (Htail : JS.split_on path.slash (child +:+ post) = [child]
                  \/ JS.split_on path.slash (child +:+ post) = [child; ""]).
  { destruct Hpost as [->| ->].
    - left. rewrite append_empty_r. now apply simple_name_split.
    - right. change "/" with (String path.slash ""). rewrite split_on_app_sep.
      now rewrite (simple_name_split _ Hc). }
  assert (Hsplit : exists S,
             JS.split_on path.slash (pre +:+ child +:+ post) = S ++ [child]
             \/ JS.split_on path.slash (pre +:+ child +:+ post) = S ++ [child; ""]).
  { destruct Hpre as [->|[d ->]].
    - exists []. simpl. exact Htail.
    - exists (JS.split_on path.slash d). rewrite append_assoc. app_simpl.
      change (String "/" (child +:+ post)) with (String path.slash (child +:+ post)).
      rewrite split_on_app_sep. destruct Htail as [-> | ->]; [now left|now right]. }
  destruct Hsplit as [S [-> | ->]]; rewrite rev_app_distr; simpl;
    now rewrite (simple_name_truthy _ Hc).
Qed.

Lemma normalize_child (pre child : string) :
  simple_name child = true ->
  (pre = "" \/ exists d, pre = d +:+ "/") ->
  path.basename (path.normalize (pre +:+ child)) = child.
Proof.
  intros Hc Hpre.
  assert (Hne : exists c rest, pre +:+ child = String c rest).
  { pose proof (simple_name_truthy _ Hc) as Ht.
    destruct pre as [|c pre]; simpl.
    - destruct child; [discriminate|eauto].
    - eauto. }
  destruct Hne as (c & rest & E). unfold path.normalize. rewrite E, <- E.
  destruct (normalizeString_child pre child (negb (Ascii.eqb c path.slash)) Hc Hpre)
    as (pre' & Hpre' & ->).
  assert (Hq : exists c' rest', pre' +:+ child = String c' rest').
  { pose proof (simple_name_truthy _ Hc) as Ht.
    destruct pre' as [|c' pre']; simpl.
    - destruct child; [discriminate|eauto].
    - eauto. }
  destruct Hq as (c' & rest' & E'). rewrite E', <- E'.
  destruct (JS.endsWith (pre +:+ child) "/"), (Ascii.eqb c path.slash).
  - rewrite append_assoc.
    change ("/" +:+ pre' +:+ child +:+ "/") with (("/" +:+ pre') +:+ child +:+ "/").
    apply basename_child; [assumption| |now right].
    right. destruct Hpre' as [->|[d ->]]; [now exists ""|].
    exists ("/" +:+ d). reflexivity.
  - rewrite append_assoc. apply basename_child; [assumption..|now right].
  - change ("/" +:+ pre' +:+ child) with (("/" +:+ pre') +:+ child).
    rewrite <- (append_empty_r child) at 1. rewrite <- append_assoc, append_assoc.
    apply basename_child; [assumption| |now left].
    right. destruct Hpre' as [->|[d ->]]; [now exists ""|].
    exists ("/" +:+ d). reflexivity.
  - rewrite <- (append_empty_r child) at 1. rewrite <- append_assoc, append_assoc.
    apply basename_child; [assumption..|now left].
Qed.

(** [path.basename(path.join(dir, child))] is [child]. *)
Lemma basename_join (dir child : string) :
  simple_name child = true ->
  path.basename (path.join dir child) = child.
Proof.
  intros Hc. unfold path.join. simpl.
  rewrite (simple_name_truthy _ Hc).
  destruct dir as [|c dir]; simpl JS.truthy; cbv iota.
  - simpl. apply (normalize_child "" child Hc). now left.
  - change (JS.join "/" [String c dir; child])
      with (String c dir +:+ "/" +:+ child).
    rewrite <- append_assoc. apply normalize_child; [assumption|].
    right. now exists (String c dir).
Qed.

Lemma basename_simple (child : string) :
  simple_name child = true -> path.basename child = child.
Proof.
  intros Hc. unfold path.basename. rewrite (simple_name_split _ Hc). simpl.
  now rewrite (simple_name_truthy _ Hc).
Qed.

Lemma extname_join (dir child : string) :
  simple_name child = true ->
  path.extname (path.join dir child) = path.extname child.
Proof.
  intros Hc. unfold path.extname.
  now rewrite (basename_join _ _ Hc), (basename_simple _ Hc).
Qed.


Lemma parseSourceFile_not_source (filePath : string) (read : option string) :
  JS.mem (path.extname filePath) sourceExtensions = false ->
  parseSourceFile filePath read = None.
Proof. intros H. unfold parseSourceFile. now rewrite H. Qed.


(** * The File Describer *)

Lemma calculateImportance_keyword (fileName ext : string) :
  existsb (fun important => JS.includes (JS.toLowerCase fileName) important)
    importantFiles = true ->
  calculateImportance fileName ext = 10%Z.
Proof. intros H. unfold calculateImportance. now rewrite H. Qed.

Lemma calculateImportance_other (fileName ext : string) :
  existsb (fun important => JS.includes (JS.toLowerCase fileName) important)
    importantFiles = false ->
  calculateImportance fileName ext
  = if isTestName fileName then 3%Z
    else if JS.mem ext sourceExtensions then 7%Z else 5%Z.
Proof.
  intros H. unfold calculateImportance. rewrite H.
  destruct (isTestName fileName); [reflexivity|].
  unfold JS.mem, sourceExtensions. simpl.
  rewrite !(String.eqb_sym ext). now rewrite orb_false_r, !orb_assoc.
Qed.

(** C5: the file name README.md contains the importance keyword README
    (compared without regard to case, also compared exactly), and the
    score the File Describer gives it is 5, not 10: the file name is put
    in lower case and the keyword is not, so the keywords README and
    Dockerfile never apply. *)
Theorem calculateImportance_README :
  In "README" importantFiles
  /\ JS.includes "README.md" "README" = true
  /\ JS.includes (JS.toLowerCase "README.md") (JS.toLowerCase "README") = true
  /\ calculateImportance "README.md" (path.extname "README.md") = 5%Z
  /\ calculateImportance "Dockerfile" (path.extname "Dockerfile") = 5%Z.
Proof.
  split; [unfold importantFiles; simpl; tauto|].
  repeat split; vm_compute; reflexivity.
Qed.

(** * The Structural Source Analyzer *)

Lemma noDeclarations_parse (filePath content : string) :
  noDeclarations content = true ->
  parseContent filePath content
  = emptyParsed (determinePurpose (emptyParsed "") (path.basename filePath)).
Proof.
  unfold noDeclarations. simpl. rewrite !andb_true_iff.
  intros (Hi & Hd & He & Hed & Hf & Ha & Hc & Hn & _).
  unfold parseContent, parseImports, parseExports, parseFunctions,
    parseClasses, parseInterfaces.
  destruct (Regex.matchAll Patterns.importRegex content); [|discriminate].
  destruct (Regex.matchAll Patterns.defaultImportRegex content); [|discriminate].
  destruct (Regex.matchAll Patterns.exportRegex content); [|discriminate].
  destruct (Regex.matchAll Patterns.exportDefaultRegex content); [|discriminate].
  destruct (Regex.matchAll Patterns.functionRegex content); [|discriminate].
  destruct (Regex.matchAll Patterns.arrowFunctionRegex content); [|discriminate].
  destruct (Regex.matchAll Patterns.classRegex content); [|discriminate].
  destruct (Regex.matchAll Patterns.interfaceRegex content); [|discriminate].
  reflexivity.
Qed.

(** C4, as amended: a readable source file with an allow-listed extension
    and no match of any expression of the parser, whose stem put in lower
    case is not index and contains neither test nor spec, parses to a
    Parsed File with five empty sequences and the purpose
    Module implementation. *)
Theorem parse_no_declarations (filePath content : string) :
  JS.mem (path.extname filePath) sourceExtensions = true ->
  noDeclarations content = true ->
  JS.toLowerCase (stem filePath) <> "index" ->
  JS.includes (JS.toLowerCase (stem filePath)) "test" = false ->
  JS.includes (JS.toLowerCase (stem filePath)) "spec" = false ->
  parseSourceFile filePath (Some content)
  = Some (emptyParsed "Module implementation").
Proof.
  intros Hext Hno Hidx Htest Hspec.
  unfold parseSourceFile. rewrite Hext. simpl.
  rewrite (noDeclarations_parse _ _ Hno). f_equal. f_equal.
  unfold determinePurpose. fold (stem filePath).
  rewrite Htest, Hspec. simpl.
  destruct (String.eqb_spec (JS.toLowerCase (stem filePath)) "index");
    [contradiction|reflexivity].
Qed.

Lemma parse_no_declarations_witness :
  parseSourceFile "/proj/lib/util.ts" (Some "const x = 1;")
  = Some (emptyParsed "Module implementation").
Proof.
  apply (parse_no_declarations "/proj/lib/util.ts" "const x = 1;").
  - reflexivity.
  - vm_compute; reflexivity.
  - vm_compute; discriminate.
  - vm_compute; reflexivity.
  - vm_compute; reflexivity.
Defined.

(** C4, as stated, fails: Index.ts has an allow-listed extension, its text
    has no declaration, its stem Index is not index and contains neither
    test nor spec, and its purpose is the entry-point one. *)
Lemma parse_no_declarations_case_counterexample :
  JS.mem (path.extname "/proj/lib/Index.ts") sourceExtensions = true
  /\ noDeclarations "const x = 1;" = true
  /\ stem "/proj/lib/Index.ts" = "Index"
  /\ "Index" <> "index"
  /\ JS.includes "Index" "test" = false
  /\ JS.includes "Index" "spec" = false
  /\ parseSourceFile "/proj/lib/Index.ts" (Some "const x = 1;")
     = Some (emptyParsed "Module entry point that exports public API")
  /\ parseSourceFile "/proj/lib/Index.ts" (Some "const x = 1;")
     <> Some (emptyParsed "Module implementation").
Proof.
  repeat split; try (vm_compute; reflexivity); vm_compute; discriminate.
Qed.

(** * The Directory Analyzer: primary functions *)

Lemma enrich_primaryFunctions w config ai dir file fileInfo parsed :
  primaryFunctions (fst (enrich w config ai dir file fileInfo parsed))
  = match functions parsed with
    | [] => primaryFunctions fileInfo
    | _ => firstn 3 (map signature (List.filter fn_isExported (functions parsed)))
    end.
Proof. unfold enrich. simpl. now destruct (functions parsed). Qed.

(** Exported functions replace the guess. *)
Lemma enrich_exported_override w config ai dir file fileInfo parsed :
  List.filter fn_isExported (functions parsed) <> [] ->
  primaryFunctions (fst (enrich w config ai dir file fileInfo parsed))
  = firstn 3 (map signature (List.filter fn_isExported (functions parsed))).
Proof.
  intros H. rewrite enrich_primaryFunctions.
  destruct (functions parsed); [now contradiction H|reflexivity].
Qed.

(** The guess stays when the file declares no function at all. *)
Lemma enrich_no_function_keeps w config ai dir file fileInfo parsed :
  functions parsed = [] ->
  primaryFunctions (fst (enrich w config ai dir file fileInfo parsed))
  = primaryFunctions fileInfo.
Proof. intros H. now rewrite enrich_primaryFunctions, H. Qed.

(** C3: the file helper.ts declares one function and exports none; the
    File Describer guesses General functionality, and the File Analysis
    the directory analysis keeps for it has no primary function at all. *)
Theorem private_functions_erase_guess :
  parseFunctions helper_source
  = [ {| fn_name := "helper"; params := ["a"]; isAsync := false;
         fn_isExported := false |} ]
  /\ primaryFunctions (getFileInfo "/proj/lib/helper.ts" 100)
     = ["General functionality"]
  /\ exists analysis,
       buildAnalysis Ignore.ignores helper_world "/proj/lib" (defaultConfig quick)
       = Returned analysis
       /\ map (fun f => (fa_path f, primaryFunctions f)) (keyFiles analysis)
          = [("/proj/lib/helper.ts", [])].
Proof.
  split; [vm_compute; reflexivity|].
  split; [vm_compute; reflexivity|].
  eexists. split; [vm_compute; reflexivity|].
  vm_compute; reflexivity.
Qed.

(** * Ranking: the stable sort by importance *)

Lemma insert_sorted_perm {A} (cmp : A -> A -> Z) (x : A) (l : list A) :
  Permutation (insert_sorted cmp x l) (x :: l).
Proof.
  induction l as [|y l IH]; simpl; [reflexivity|].
  destruct (cmp x y <=? 0)%Z; [reflexivity|].
  rewrite IH. apply perm_swap.
Qed.

Lemma sort_perm {A} (cmp : A -> A -> Z) (l : list A) :
  Permutation (sort cmp l) l.
Proof.
  induction l as [|x l IH]; simpl; [reflexivity|].
  rewrite insert_sorted_perm. now constructor.
Qed.

Lemma insert_sorted_descending (x : FileAnalysis) (l : list FileAnalysis) :
  StronglySorted descending l ->
  StronglySorted descending (insert_sorted by_importance x l).
Proof.
  induction 1 as [|y l Hl IH Hy]; simpl.
  - repeat constructor.
  - unfold by_importance at 1. destruct (Z.leb_spec (importance y - importance x) 0).
    + constructor; [now constructor|].
      constructor; [unfold descending; lia|].
      eapply List.Forall_impl; [|exact Hy]. unfold descending. intros; lia.
    + constructor; [assumption|].
      rewrite (List.Forall_forall (descending y)). intros z Hz.
      apply (Permutation_in _ (insert_sorted_perm by_importance x l)) in Hz.
      destruct Hz as [<-|Hz]; [unfold descending; lia|].
      now apply (proj1 (List.Forall_forall _ _) Hy).
Qed.

Lemma sort_descending (l : list FileAnalysis) :
  StronglySorted descending (sort by_importance l).
Proof.
  induction l as [|x l IH]; simpl; [constructor|].
  now apply insert_sorted_descending.
Qed.



Lemma In_firstn_in {A} (n : nat) (l : list A) (x : A) :
  In x (firstn n l) -> In x l.
Proof.
  intros H. rewrite <- (firstn_skipn n l). apply in_or_app. now left.
Qed.

Lemma firstn_strongly_sorted {A} (R : A -> A -> Prop) (n : nat) (l : list A) :
  StronglySorted R l -> StronglySorted R (firstn n l).
Proof.
  intros H. revert n. induction H as [|x l Hl IH Hx]; intros [|n]; simpl;
    try constructor; [apply IH|].
  rewrite List.Forall_forall in *. intros y Hy. apply Hx.
  now apply (In_firstn_in n l).
Qed.



Lemma filterFiles_In ignores config names file :
  In file (filterFiles ignores config names) ->
  In file names
  /\ ignores (ignorePatterns config) file = false
  /\ JS.startsWith file "." = false.
Proof.
  unfold filterFiles. rewrite !List.filter_In, !negb_true_iff. tauto.
Qed.

(** The parts of [analyzeDirectory]: the record, then the write. *)
Lemma analyzeDirectory_inv ignores gen w dir config a w' :
  analyzeDirectory ignores gen w dir config = Returned (a, w') ->
  buildAnalysis ignores w dir config = Returned a
  /\ FS.writeFile w dir "claude.md" (gen a config) = Returned w'.
Proof.
  unfold analyzeDirectory.
  destruct (buildAnalysis ignores w dir config) as [a0|e]; simpl; [|discriminate].
  destruct (FS.writeFile w dir "claude.md" (gen a0 config)) as [w0|e] eqn:E;
    simpl; [|discriminate].
  intros [= <- <-]. now split.
Qed.

Lemma buildAnalysis_inv ignores w dir config a :
  buildAnalysis ignores w dir config = Returned a ->
  exists names scan,
    FS.readdir w dir = Returned names
    /\ analyzeFiles w config
         (if is_quick (mode config) then None else Some (api_client w))
         dir empty_scan (filterFiles ignores config names) = Returned scan
    /\ keyFiles a = rankKeyFiles (fileAnalyses scan)
    /\ recentChanges a = collectRecentChanges w dir
    /\ dependencies a = allDependencies scan
    /\ da_path a = dir.
Proof.
  unfold buildAnalysis.
  destruct (FS.readdir w dir) as [names|e] eqn:Hn; simpl; [|discriminate].
  destruct (analyzeFiles _ _ _ _ _ _) as [scan|e] eqn:Hs; simpl; [|discriminate].
  intros [= <-]. exists names, scan. simpl. repeat split; reflexivity || assumption.
Qed.



Example ranking_example :
  exists a,
    buildAnalysis Ignore.ignores ranking_world "/proj/lib" (defaultConfig quick)
    = Returned a
    /\ map (fun f => (fa_path f, importance f)) (keyFiles a)
       = [ ("/proj/lib/index.ts", 10); ("/proj/lib/zeta.ts", 7);
           ("/proj/lib/alpha.ts", 7); ("/proj/lib/notes.md", 5);
           ("/proj/lib/a.test.ts", 3) ]%Z.
Proof. eexists. split; vm_compute; reflexivity. Qed.

(** * Files that are not parsed *)



(** * Version control *)

Lemma length_string_of_list_ascii (l : list ascii) :
  String.length (string_of_list_ascii l) = length l.
Proof. induction l; simpl; congruence. Qed.

Lemma length_list_ascii_of_string (s : string) :
  length (list_ascii_of_string s) = String.length s.
Proof. induction s; simpl; congruence. Qed.

Lemma dirname_scan_length (l : list ascii) : forall b rest,
  path.dirname_scan l b = Some rest ->
  (length rest + (if b then 2 else 1) <= length l)%nat.
Proof.
  induction l as [|c l IH]; intros b rest; simpl; [discriminate|].
  destruct (Ascii.eqb c path.slash).
  - destruct b.
    + intros H. apply IH in H. lia.
    + intros [= <-]. lia.
  - intros H. apply IH in H. destruct b; lia.
Qed.

(** A step to the parent shortens the path, or reaches the dot. *)
Lemma dirname_shorter (p : string) :
  path.dirname p <> p ->
  path.dirname p = "."
  \/ (String.length (path.dirname p) < String.length p)%nat.
Proof.
  destruct p as [|c0 tl]; [now left|].
  unfold path.dirname.
  destruct (path.dirname_scan (rev (list_ascii_of_string tl)) true)
    as [rest|] eqn:E.
  - apply dirname_scan_length in E.
    rewrite List.length_rev, length_list_ascii_of_string in E.
    intros _. right. destruct rest as [|r rest].
    + destruct (Ascii.eqb c0 path.slash); simpl in *; lia.
    + cbn [String.length].
      rewrite length_string_of_list_ascii, List.length_rev.
      simpl in *. lia.
  - destruct (Ascii.eqb_spec c0 path.slash) as [->|]; [|now left].
    intros Hne. right. destruct tl; [now contradiction Hne|simpl; lia].
Qed.

Lemma climb_decreases (p : string) :
  path.dirname p <> p -> (climb (path.dirname p) < climb p)%nat.
Proof.
  intros Hne. unfold climb.
  destruct (String.eqb_spec p ".") as [->|Hp]; [now contradiction Hne|].
  destruct (dirname_shorter p Hne) as [E | Hlt].
  - rewrite E. simpl. lia.
  - destruct (String.eqb (path.dirname p) "."); lia.
Qed.

(** The loop ends by itself: with the fuel [analyzeDirectory] gives it,
    it stops at a directory that is its own parent or that holds [.git]. *)
Lemma findGitRoot_exit (w : World) (fuel : nat) : forall gitRoot,
  (climb gitRoot <= fuel)%nat ->
  let r := findGitRoot fuel w gitRoot in
  r = path.dirname r \/ FS.pathExists w r ".git" = true.
Proof.
  induction fuel as [|fuel IH]; intros gitRoot Hf; simpl.
  - unfold climb in Hf. destruct (String.eqb gitRoot "."); lia.
  - destruct (String.eqb_spec gitRoot (path.dirname gitRoot)) as [E|Hne];
      [now left|].
    destruct (FS.pathExists w gitRoot ".git") eqn:Hg; [now right|].
    apply IH. assert (path.dirname gitRoot <> gitRoot) as Hne' by congruence.
    apply climb_decreases in Hne'. lia.
Qed.










(** * The change-driven refresh *)

Lemma mem_In (x : string) (l : list string) : JS.mem x l = true <-> In x l.
Proof.
  unfold JS.mem. rewrite existsb_exists. split.
  - intros (y & Hy & E). apply String.eqb_eq in E. now subst.
  - intros H. exists x. split; [assumption|apply String.eqb_refl].
Qed.

Lemma dedupe_onto_In (l : list string) : forall seen x,
  In x (JS.dedupe_onto seen l) <-> In x l /\ ~ In x seen.
Proof.
  induction l as [|y l IH]; intros seen x; simpl; [tauto|].
  destruct (JS.mem y seen) eqn:E.
  - rewrite IH. apply mem_In in E. split; [tauto|].
    intros [[->|H] Hs]; tauto.
  - assert (~ In y seen) as Hy by (rewrite <- mem_In; congruence).
    simpl. rewrite IH. simpl. split.
    + intros [->|(H & Hs)]; tauto.
    + intros [[->|H] Hs]; [now left|].
      destruct (string_dec y x) as [->|Hne]; [now left|right; tauto].
Qed.

Lemma dedupe_onto_NoDup (l : list string) : forall seen,
  List.NoDup (JS.dedupe_onto seen l).
Proof.
  induction l as [|y l IH]; intros seen; simpl; [constructor|].
  destruct (JS.mem y seen); [apply IH|].
  constructor; [|apply IH].
  rewrite dedupe_onto_In. simpl. tauto.
Qed.

Lemma getChangedFiles_reported (w : World) (root : string)
    (status : StatusResult) (f : string) :
  git_status w !! root = Some status ->
  In f (getChangedFiles w root) <-> reported status f.
Proof.
  intros H. unfold getChangedFiles, reported. rewrite H, !in_app_iff, in_map_iff.
  split.
  - intros [?|[?|((from & to) & <- & ?)]]; eauto.
  - intros [?|[?|(from & ?)]]; [tauto|tauto|].
    right; right. now exists (from, f).
Qed.

(** C6: the directories the change-driven refresh visits are, without
    repetition, exactly the parent directories of the files git reports as
    modified, created or renamed (under the new name), each analysed under
    the project root; when nothing is reported the plan is empty and the
    command leaves everything as it is. *)
Theorem refreshPlan_spec ignores gen (w : World) (root : string)
    (config : CodeContextConfig) (status : StatusResult) :
  config_file w !! root = Some config ->
  git_status w !! root = Some status ->
  List.NoDup (refreshPlan w root)
  /\ (forall d, In d (refreshPlan w root)
        <-> exists f, reported status f /\ d = path.dirname f)
  /\ refreshCommand ignores gen w root {| opt_all := false; opt_path := "" |}
     = (if Nat.eqb (length (getChangedFiles w root)) 0 then Returned w
        else analyzeEach ignores gen w config
               (map (path.join root) (refreshPlan w root)))
  /\ ((forall f, ~ reported status f) ->
      refreshPlan w root = []
      /\ refreshCommand ignores gen w root
           {| opt_all := false; opt_path := "" |} = Returned w).
Proof.
  intros Hc Hs. unfold refreshPlan, JS.dedupe.
  split; [apply dedupe_onto_NoDup|].
  split.
  { intros d. rewrite dedupe_onto_In, in_map_iff. split.
    - intros [(f & <- & Hf) _]. exists f.
      now rewrite <- (getChangedFiles_reported w root status f Hs).
    - intros (f & Hf & ->). split; [|simpl; tauto].
      exists f. now rewrite (getChangedFiles_reported w root status f Hs). }
  split.
  { unfold refreshCommand. rewrite Hc. reflexivity. }
  intros Hnone.
  assert (getChangedFiles w root = []) as E.
  { destruct (getChangedFiles w root) as [|f l] eqn:E; [reflexivity|].
    exfalso. apply (Hnone f).
    rewrite <- (getChangedFiles_reported w root status f Hs), E. now left. }
  unfold refreshCommand. rewrite Hc, E. now split.
Qed.

Lemma refreshPlan_spec_witness :
  List.NoDup (refreshPlan changed_world "/proj")
  /\ refreshPlan changed_world "/proj" = ["src"; "."; "lib/util"].
Proof.
  split; [|vm_compute; reflexivity].
  apply (refreshPlan_spec Ignore.ignores Documentation.generateDocumentation
           changed_world "/proj" (defaultConfig quick)
           {| modified := ["src/a.ts"; "src/b.ts"];
              created := ["c.ts"];
              renamed := [("old/d.ts", "lib/util/d.ts")] |}).
  - vm_compute; reflexivity.
  - vm_compute; reflexivity.
Defined.

(** * The project view *)

Lemma appendSummaries_spec (w : World) (root : string) (files : list string) :
  forall (docs : list string) (context : string),
  Forall2 (fun file content =>
             FS.readFile w (path.join root (path.dirname file))
               (path.basename file) = Some content) files docs ->
  appendSummaries w root context files
  = Returned (context +:+ concat_all (map (fun fd => summarySection (fst fd) (snd fd))
                                         (combine files docs))).
Proof.
  induction files as [|file rest IH]; intros docs context H;
    inversion H as [|? content ? docs' Hr Hrest]; subst.
  - simpl. now rewrite append_empty_r.
  - simpl. unfold readFileOrThrow. rewrite Hr. simpl.
    rewrite (IH _ _ Hrest). now rewrite append_assoc.
Qed.

(** C9: the project view is the header with the depth-1 tree followed, for
    the first ten documents the search yields and no other, by one section
    each: the relative name of the document's directory, the first ten
    lines of the document, and the ellipsis line. A search result that has
    the same first ten documents gives the same view. *)
Theorem project_view_first_ten glob (w : World) (root structure : string)
    (docs : list string) :
  getFileStructure w root 1 = Returned structure ->
  Forall2 (fun file content =>
             FS.readFile w (path.join root (path.dirname file))
               (path.basename file) = Some content)
    (firstn 10 (glob w "**/claude.md" root ["node_modules/**"; "dist/**"; "build/**"]))
    docs ->
  (length docs <= 10)%nat
  /\ generateProjectContext glob w root
     = Returned
         (projectHeader structure
          +:+ concat_all
                (map (fun fd =>
                        nl +:+ "### " +:+ path.dirname (fst fd) +:+ nl +:+
                        JS.join nl (firstn 10 (lines (snd fd))) +:+ nl +:+
                        "..." +:+ nl +:+ nl)
                   (combine
                      (firstn 10 (glob w "**/claude.md" root
                                    ["node_modules/**"; "dist/**"; "build/**"]))
                      docs)))
  /\ (forall glob',
        firstn 10 (glob' w "**/claude.md" root ["node_modules/**"; "dist/**"; "build/**"])
        = firstn 10 (glob w "**/claude.md" root ["node_modules/**"; "dist/**"; "build/**"]) ->
        generateProjectContext glob' w root = generateProjectContext glob w root).
Proof.
  intros Hs Hdocs. split.
  { apply Forall2_length in Hdocs. rewrite <- Hdocs, List.length_firstn. lia. }
  split.
  { unfold generateProjectContext. rewrite Hs. simpl.
    now rewrite (appendSummaries_spec _ _ _ _ _ Hdocs). }
  intros glob' E. unfold generateProjectContext. now rewrite E.
Qed.

(** * The document a directory analysis writes *)

Lemma assoc_put_eq {V} (k : string) (v : V) (l : list (string * V)) :
  assoc k (FS.put k v l) = Some v.
Proof.
  induction l as [|[k0 v0] l IH]; simpl.
  - now rewrite String.eqb_refl.
  - destruct (String.eqb k0 k) eqn:E; simpl; rewrite E; [reflexivity|exact IH].
Qed.

Lemma assoc_put_ne {V} (k k' : string) (v : V) (l : list (string * V)) :
  k' <> k -> assoc k' (FS.put k v l) = assoc k' l.
Proof.
  intros Hne. induction l as [|[k0 v0] l IH]; simpl.
  - destruct (String.eqb_spec k k'); [congruence|reflexivity].
  - destruct (String.eqb_spec k0 k) as [->|Hk]; simpl.
    + destruct (String.eqb_spec k k'); [congruence|reflexivity].
    + now rewrite IH.
Qed.

Lemma put_names_present {V} (k : string) (v v0 : V) (l : list (string * V)) :
  assoc k l = Some v0 -> map fst (FS.put k v l) = map fst l.
Proof.
  induction l as [|[k1 v1] l IH]; simpl; [discriminate|].
  destruct (String.eqb k1 k); simpl; [reflexivity|].
  intros H. now rewrite IH.
Qed.


Lemma writeFile_inv (w w' : World) (dir child data : string) :
  FS.writeFile w dir child data = Returned w' ->
  exists entries,
    tree w !! dir = Some entries
    /\ assoc child entries <> Some Dir
    /\ w' = FS.set_tree w
              (<[dir := FS.put child (File (Some data) (now w)) entries]> (tree w)).
Proof.
  unfold FS.writeFile. destruct (tree w !! dir) as [entries|]; [|discriminate].
  intros H. exists entries. split; [reflexivity|].
  destruct (assoc child entries) as [[c t| |]|]; try discriminate;
    injection H as <-; (split; [discriminate|reflexivity]).
Qed.

Section AfterWrite.
Variables (w : World) (dir child data : string)
          (entries : list (string * Node)).
Hypothesis Hdir : tree w !! dir = Some entries.

Let w' : World :=
  FS.set_tree w
    (<[dir := FS.put child (File (Some data) (now w)) entries]> (tree w)).

Lemma written_other_dir (d : string) :
  d <> dir -> tree w' !! d = tree w !! d.
Proof. intros Hne. simpl. now rewrite lookup_insert_ne. Qed.

Lemma written_other_child (d c : string) :
  c <> child -> FS.lookup_child w' d c = FS.lookup_child w d c.
Proof.
  intros Hne. unfold FS.lookup_child. simpl.
  destruct (decide (d = dir)) as [->|Hd].
  - rewrite lookup_insert_eq, Hdir. now apply assoc_put_ne.
  - now rewrite lookup_insert_ne.
Qed.

Lemma written_child :
  FS.lookup_child w' dir child = Some (File (Some data) (now w)).
Proof.
  unfold FS.lookup_child. simpl. rewrite lookup_insert_eq. apply assoc_put_eq.
Qed.

Lemma written_readdir :
  FS.readdir w' dir
  = Returned (map fst (FS.put child (File (Some data) (now w)) entries)).
Proof. unfold FS.readdir. simpl. now rewrite lookup_insert_eq. Qed.

Lemma written_pathExists (d c : string) :
  c <> child -> FS.pathExists w' d c = FS.pathExists w d c.
Proof.
  intros Hne. unfold FS.pathExists. now rewrite written_other_child.
Qed.
End AfterWrite.

Lemma claude_md_not_source (dir : string) (read : option string) :
  parseSourceFile (path.join dir "claude.md") read = None.
Proof.
  apply parseSourceFile_not_source. now rewrite extname_join.
Qed.






(** Without the AI collaborator the record is the heuristic one. *)
Lemma buildAnalysis_no_ai ignores w dir config :
  is_quick (mode config) = true
    \/ AIAnalyzer.isAvailable (api_client w) = false ->
  buildAnalysis ignores w dir config
  = (let* names := FS.readdir w dir in
     let* scan :=
       analyzeFiles w config
         (if is_quick (mode config) then None else Some (api_client w))
         dir empty_scan (filterFiles ignores config names) in
     Returned
       {| da_path := dir;
          purpose := getDirectoryPurpose dir names;
          architecture :=
            generateArchitectureInsights (fileAnalyses scan) (allDependencies scan);
          keyFiles := rankKeyFiles (fileAnalyses scan);
          recentChanges := collectRecentChanges w dir;
          improvements :=
            generateImprovements (fileAnalyses scan) (allDependencies scan);
          dependencies := allDependencies scan |}).
Proof.
  intros Hoff. unfold buildAnalysis.
  destruct (FS.readdir w dir) as [names|e]; simpl; [|reflexivity].
  destruct (analyzeFiles _ _ _ _ _ _) as [scan|e]; simpl; [|reflexivity].
  destruct (is_quick (mode config)); [reflexivity|].
  destruct Hoff as [Hq|Hoff]; [discriminate|]. now rewrite Hoff.
Qed.



(** * Analysing a directory again *)

Lemma insert_sorted_strip (x : FileAnalysis) (l : list FileAnalysis) :
  map strip (insert_sorted by_importance x l)
  = insert_sorted by_importance (strip x) (map strip l).
Proof.
  induction l as [|y l IH]; [reflexivity|].
  simpl. change (by_importance (strip x) (strip y)) with (by_importance x y).
  destruct (by_importance x y <=? 0)%Z; simpl; [reflexivity|now rewrite IH].
Qed.

Lemma sort_strip (l : list FileAnalysis) :
  map strip (sort by_importance l) = sort by_importance (map strip l).
Proof.
  induction l as [|x l IH]; [reflexivity|].
  simpl. now rewrite insert_sorted_strip, IH.
Qed.

Lemma rankKeyFiles_strip (l : list FileAnalysis) :
  map strip (rankKeyFiles l) = rankKeyFiles (map strip l).
Proof. unfold rankKeyFiles. now rewrite <- List.firstn_map, sort_strip. Qed.

Lemma existsb_strip (p : FileAnalysis -> bool) (l : list FileAnalysis) :
  (forall f, p (strip f) = p f) -> existsb p (map strip l) = existsb p l.
Proof.
  intros Hp. induction l as [|x l IH]; [reflexivity|].
  simpl. now rewrite Hp, IH.
Qed.

Lemma fold_left_strip {B} (g : B -> FileAnalysis -> B) (l : list FileAnalysis) :
  (forall b f, g b (strip f) = g b f) ->
  forall b, fold_left g (map strip l) b = fold_left g l b.
Proof.
  intros Hg. induction l as [|x l IH]; intros b; [reflexivity|].
  simpl. now rewrite Hg, IH.
Qed.

Lemma hasTests_strip (l : list FileAnalysis) :
  hasTests (map strip l) = hasTests l.
Proof. unfold hasTests. now apply existsb_strip. Qed.

(** The heuristics and the rendering do not read modification times. *)
Lemma generateArchitectureInsights_strip l deps :
  generateArchitectureInsights (map strip l) deps
  = generateArchitectureInsights l deps.
Proof.
  unfold generateArchitectureInsights.
  rewrite hasTests_strip, (fold_left_strip _ l) by reflexivity.
  now rewrite existsb_strip by reflexivity.
Qed.

Lemma generateImprovements_strip l deps :
  generateImprovements (map strip l) deps = generateImprovements l deps.
Proof.
  unfold generateImprovements.
  rewrite hasTests_strip, List.length_map.
  now rewrite !existsb_strip by reflexivity.
Qed.

Lemma keyFileLines_strip (l : list FileAnalysis) :
  map Documentation.keyFileLine (map strip l) = map Documentation.keyFileLine l.
Proof. rewrite List.map_map. now apply map_ext. Qed.

Lemma by_strip {B} (h : list FileAnalysis -> B) (l1 l2 : list FileAnalysis) :
  (forall l, h (map strip l) = h l) ->
  map strip l1 = map strip l2 -> h l1 = h l2.
Proof. intros Hh E. now rewrite <- (Hh l1), <- (Hh l2), E. Qed.

Lemma enrich_no_ai w w' config ai dir file fileInfo parsed :
  (forall a, ai = Some a -> AIAnalyzer.isAvailable a = false) ->
  enrich w config ai dir file fileInfo parsed
  = enrich w' config ai dir file fileInfo parsed.
Proof.
  intros Hoff. unfold enrich. destruct ai as [a|]; [|reflexivity].
  now rewrite (Hoff a eq_refl).
Qed.

Section Reanalysis.
Variables (w : World) (dir data : string) (entries : list (string * Node)).
Hypothesis Hdir : tree w !! dir = Some entries.
Hypothesis Hdoc : assoc "claude.md" entries <> Some Dir.

Let w1 : World :=
  FS.set_tree w
    (<[dir := FS.put "claude.md" (File (Some data) (now w)) entries]> (tree w)).

Variables (config : CodeContextConfig) (ai : option AIAnalyzer.t).
Hypothesis Hoff : forall a, ai = Some a -> AIAnalyzer.isAvailable a = false.

Lemma analyzeFile_after_write acc1 acc file s :
  same_scan acc1 acc ->
  analyzeFile w config ai dir acc file = Returned s ->
  exists s1,
    analyzeFile w1 config ai dir acc1 file = Returned s1 /\ same_scan s1 s.
Proof.
  intros Hsame. unfold w1. destruct (string_dec file "claude.md") as [->|Hne].
  - unfold analyzeFile, FS.stat.
    rewrite (written_child w dir "claude.md" data entries).
    unfold FS.lookup_child at 1. rewrite Hdir.
    destruct (assoc "claude.md" entries) as [[c t| |]|]; simpl;
      try discriminate; [|now contradiction Hdoc].
    rewrite !claude_md_not_source. intros [= <-]. eexists. split; [reflexivity|].
    destruct Hsame as (Hf & Hd & Hp). unfold same_scan. simpl.
    rewrite !map_app, Hf. now repeat split.
  - unfold analyzeFile, FS.stat, FS.readFile.
    rewrite (written_other_child w dir "claude.md" data entries Hdir dir file Hne).
    destruct (FS.lookup_child w dir file) as [[c t| |]|];
      cbn [bind FS.isFile FS.mtime]; try discriminate.
    + destruct (parseSourceFile _ _) as [parsed|].
      * rewrite (enrich_no_ai
                   (FS.set_tree w
                      (<[dir := FS.put "claude.md" (File (Some data) (now w))
                                  entries]> (tree w))) w) by exact Hoff.
        intros [= <-]. eexists. split; [reflexivity|].
        destruct Hsame as (Hf & Hd & Hp). unfold same_scan. simpl.
        rewrite !map_app, Hf, Hd, Hp. now repeat split.
      * intros [= <-]. eexists. split; [reflexivity|].
        destruct Hsame as (Hf & Hd & Hp). unfold same_scan. simpl.
        rewrite !map_app, Hf. now repeat split.
    + intros [= <-]. eexists. split; [reflexivity|exact Hsame].
Qed.

Lemma analyzeFiles_after_write files : forall acc1 acc s,
  same_scan acc1 acc ->
  analyzeFiles w config ai dir acc files = Returned s ->
  exists s1,
    analyzeFiles w1 config ai dir acc1 files = Returned s1 /\ same_scan s1 s.
Proof.
  induction files as [|file rest IH]; intros acc1 acc s Hsame; simpl.
  - intros [= <-]. eauto.
  - destruct (analyzeFile w config ai dir acc file) as [acc'|e] eqn:E;
      simpl; [|discriminate].
    destruct (analyzeFile_after_write acc1 acc file acc' Hsame E)
      as (acc1' & -> & Hsame').
    simpl. now apply IH.
Qed.

Lemma findGitRoot_after_write fuel : forall gitRoot,
  findGitRoot fuel w1 gitRoot = findGitRoot fuel w gitRoot.
Proof.
  unfold w1. induction fuel as [|fuel IH]; intros gitRoot; simpl;
    [reflexivity|].
  rewrite (written_pathExists w dir "claude.md" data entries Hdir)
    by discriminate.
  now rewrite IH.
Qed.

Lemma collectRecentChanges_after_write :
  collectRecentChanges w1 dir = collectRecentChanges w dir.
Proof.
  unfold collectRecentChanges. rewrite findGitRoot_after_write. unfold w1.
  rewrite (written_pathExists w dir "claude.md" data entries Hdir)
    by discriminate.
  reflexivity.
Qed.
End Reanalysis.

Lemma same_scan_refl (s : Scan) : same_scan s s.
Proof. now repeat split. Qed.

(** The document reads a scan only up to modification times. *)
Lemma document_same_scan (s1 s : Scan) (dir p : string) (rc : list Change)
    (config : CodeContextConfig) :
  same_scan s1 s ->
  Documentation.generateDocumentation
    {| da_path := dir; purpose := p;
       architecture :=
         generateArchitectureInsights (fileAnalyses s1) (allDependencies s1);
       keyFiles := rankKeyFiles (fileAnalyses s1);
       recentChanges := rc;
       improvements := generateImprovements (fileAnalyses s1) (allDependencies s1);
       dependencies := allDependencies s1 |} config
  = Documentation.generateDocumentation
      {| da_path := dir; purpose := p;
         architecture :=
           generateArchitectureInsights (fileAnalyses s) (allDependencies s);
         keyFiles := rankKeyFiles (fileAnalyses s);
         recentChanges := rc;
         improvements := generateImprovements (fileAnalyses s) (allDependencies s);
         dependencies := allDependencies s |} config.
Proof.
  intros (Hf & Hd & _). unfold Documentation.generateDocumentation.
  cbn [da_path purpose architecture keyFiles recentChanges improvements
       dependencies].
  rewrite Hd.
  rewrite (by_strip (fun l => generateArchitectureInsights l (allDependencies s))
             _ _ (fun l => generateArchitectureInsights_strip l _) Hf).
  rewrite (by_strip (fun l => generateImprovements l (allDependencies s))
             _ _ (fun l => generateImprovements_strip l _) Hf).
  rewrite (by_strip (fun l => map Documentation.keyFileLine (rankKeyFiles l))
             (fileAnalyses s1) (fileAnalyses s)); [reflexivity| |exact Hf].
  intros l. now rewrite <- rankKeyFiles_strip, keyFileLines_strip.
Qed.

(** C2, as amended: when the directory already holds its [claude.md] as
    the previous analysis starts and no AI collaborator is configured,
    analysing the directory again, nothing else having changed, returns
    and writes a document identical to the one the previous analysis
    wrote. *)
Theorem reanalysis_same_document ignores w dir config a1 w1 :
  AIAnalyzer.isAvailable (api_client w) = false ->
  FS.pathExists w dir "claude.md" = true ->
  analyzeDirectory ignores Documentation.generateDocumentation w dir config
  = Returned (a1, w1) ->
  exists a2 w2 doc,
    analyzeDirectory ignores Documentation.generateDocumentation w1 dir config
    = Returned (a2, w2)
    /\ doc = Documentation.generateDocumentation a1 config
    /\ FS.readFile w1 dir "claude.md" = Some doc
    /\ FS.readFile w2 dir "claude.md" = Some doc.
Proof.
  intros Hoff Hex H. apply analyzeDirectory_inv in H as [Hb Hw].
  apply writeFile_inv in Hw as (entries & Hdir & Hnd & ->).
  assert (Hpresent : exists n0, assoc "claude.md" entries = Some n0).
  { revert Hex. unfold FS.pathExists, FS.lookup_child. rewrite Hdir.
    destruct (assoc "claude.md" entries); [eauto|discriminate]. }
  destruct Hpresent as [n0 Hn0].
  rewrite buildAnalysis_no_ai in Hb by (right; exact Hoff).
  unfold FS.readdir in Hb. rewrite Hdir in Hb. cbn [bind] in Hb.
  destruct (analyzeFiles w config _ dir empty_scan _) as [scan|e] eqn:Hs;
    cbn [bind] in Hb; [|discriminate].
  injection Hb as <-.
  set (doc1 := Documentation.generateDocumentation _ config).
  assert (Hai : forall a,
             (if is_quick (mode config) then None else Some (api_client w))
             = Some a -> AIAnalyzer.isAvailable a = false).
  { intros a. destruct (is_quick (mode config)); [discriminate|].
    now intros [= <-]. }
  destruct (analyzeFiles_after_write w dir doc1 entries Hdir Hnd config _ Hai
              _ empty_scan empty_scan scan (same_scan_refl _) Hs)
    as (scan1 & Hs1 & Hsame).
  unfold analyzeDirectory.
  rewrite buildAnalysis_no_ai by (right; exact Hoff).
  rewrite written_readdir, (put_names_present _ _ n0 _ Hn0). cbn [bind].
  match goal with
  | |- context [analyzeFiles ?W ?c ?ai ?d ?e ?f] =>
      replace (analyzeFiles W c ai d e f) with (Returned scan1)
        by (symmetry; exact Hs1)
  end.
  cbn [bind].
  rewrite (collectRecentChanges_after_write w dir doc1 entries Hdir).
  rewrite (document_same_scan scan1 scan _ _ _ _ Hsame). fold doc1.
  unfold FS.writeFile. cbn [tree FS.set_tree].
  rewrite lookup_insert_eq, assoc_put_eq. cbn [bind].
  do 3 eexists. split; [reflexivity|]. split; [reflexivity|].
  unfold FS.readFile.
  rewrite (written_child w dir "claude.md" doc1 entries).
  split; [reflexivity|].
  now rewrite written_child.
Qed.

Lemma reanalysis_same_document_witness :
  exists a1 w1 a2 w2 doc,
    analyzeWithDefaults documented_world "/proj/feature" = Returned (a1, w1)
    /\ analyzeWithDefaults w1 "/proj/feature" = Returned (a2, w2)
    /\ FS.readFile w1 "/proj/feature" "claude.md" = Some doc
    /\ FS.readFile w2 "/proj/feature" "claude.md" = Some doc.
Proof.
  assert (H1 : exists r,
             analyzeWithDefaults documented_world "/proj/feature" = Returned r)
    by (vm_compute; eexists; reflexivity).
  destruct H1 as [[a1 w1] H1].
  assert (Hex : FS.pathExists documented_world "/proj/feature" "claude.md" = true)
    by (vm_compute; reflexivity).
  destruct (reanalysis_same_document Ignore.ignores documented_world
              "/proj/feature" (defaultConfig smart) a1 w1 eq_refl Hex H1)
    as (a2 & w2 & doc & H2 & _ & Hd1 & Hd2).
  exists a1, w1, a2, w2, doc. now repeat split.
Defined.

(** C2, as stated, fails: the directory /proj/feature holds one source
    file and has never been analysed, no AI collaborator is configured;
    the first analysis writes a document, and analysing again, nothing
    else having changed, writes a different one, which counts and ranks
    the first document. *)
Lemma reanalysis_counterexample :
  exists a1 w1 a2 w2 doc1 doc2,
    AIAnalyzer.isAvailable (api_client fresh_world) = false
    /\ analyzeWithDefaults fresh_world "/proj/feature" = Returned (a1, w1)
    /\ analyzeWithDefaults w1 "/proj/feature" = Returned (a2, w2)
    /\ FS.readFile w1 "/proj/feature" "claude.md" = Some doc1
    /\ FS.readFile w2 "/proj/feature" "claude.md" = Some doc2
    /\ doc1 <> doc2
    /\ purpose a1 = "Contains 1 files related to feature"
    /\ purpose a2 = "Contains 2 files related to feature"
    /\ map fa_path (keyFiles a1) = ["/proj/feature/run.ts"]
    /\ map fa_path (keyFiles a2)
       = ["/proj/feature/run.ts"; "/proj/feature/claude.md"].
Proof.
  do 6 eexists.
  split; [reflexivity|].
  split; [vm_compute; reflexivity|].
  split; [vm_compute; reflexivity|].
  split; [vm_compute; reflexivity|].
  split; [vm_compute; reflexivity|].
  split; [vm_compute; discriminate|].
  repeat split; vm_compute; reflexivity.
Qed.

Lemma project_view_first_ten_witness :
  exists text,
    generateProjectContext summary_glob summary_world "/proj" = Returned text
    /\ (length (map long_document summary_names) <= 10)%nat.
Proof.
  assert (Hs : exists s, getFileStructure summary_world "/proj" 1 = Returned s)
    by (vm_compute; eexists; reflexivity).
  destruct Hs as [structure Hs].
  assert (Hdocs :
    Forall2 (fun file content =>
               FS.readFile summary_world
                 (path.join "/proj" (path.dirname file)) (path.basename file)
               = Some content)
      (firstn 10 (summary_glob summary_world "**/claude.md" "/proj"
                    ["node_modules/**"; "dist/**"; "build/**"]))
      (map long_document summary_names)).
  { vm_compute. repeat (constructor; [reflexivity|]). constructor. }
  destruct (project_view_first_ten summary_glob summary_world "/proj" structure
              (map long_document summary_names) Hs Hdocs) as (Hl & Hg & _).
  eexists. split; [exact Hg|exact Hl].
Defined.

Example project_view_example :
  generateProjectContext
    (fun _ _ _ _ => ["claude.md"])
    (world_at "/proj" [("claude.md", File (Some "# proj
one
two") 1); ("src", Dir)]) "/proj"
  = Returned "# Project-Wide Context

## Project Structure
├── claude.md
└── src

## Directory Summaries

### .
# proj
one
two
...

".
Proof. vm_compute. reflexivity. Qed.

(** * Further properties: what every directory analysis keeps *)

Lemma calculateImportance_scores (fileName ext : string) :
  In (calculateImportance fileName ext) importanceScores.
Proof.
  unfold calculateImportance, importanceScores.
  destruct (existsb _ importantFiles); [simpl; tauto|].
  destruct (isTestName fileName); [simpl; tauto|].
  destruct (_ || _); simpl; tauto.
Qed.

Lemma table_first_Forall {V} (Q : V -> Prop) (p : string -> bool)
    (t : table V) (v : V) :
  List.Forall (fun kv => Q (snd kv)) t ->
  table_first p t = Some v -> Q v.
Proof.
  intros Hall. unfold table_first.
  destruct (List.find (fun kv => p (fst kv)) t) as [kv|] eqn:E; [|discriminate].
  intros [= <-]. apply List.find_some in E as [Hin _].
  now apply (proj1 (List.Forall_forall _ _) Hall).
Qed.

Lemma getPrimaryFunctions_length (fileName ext : string) :
  (1 <= length (getPrimaryFunctions fileName ext) <= 2)%nat.
Proof.
  unfold getPrimaryFunctions.
  destruct (table_first _ functionMap) as [fs|] eqn:E.
  - apply (table_first_Forall (fun fs => (1 <= length fs <= 2)%nat)) in E;
      [exact E|].
    unfold functionMap. repeat constructor.
  - destruct (isTestName fileName); simpl; lia.
Qed.

Lemma getFileInfo_well_formed (filePath : string) (t : Z) :
  well_formed_entry (getFileInfo filePath t).
Proof.
  split; simpl.
  - apply calculateImportance_scores.
  - pose proof (getPrimaryFunctions_length (path.basename filePath)
                  (path.extname filePath)). lia.
Qed.

Lemma enrich_well_formed w config ai dir file fileInfo parsed :
  well_formed_entry fileInfo ->
  well_formed_entry (fst (enrich w config ai dir file fileInfo parsed)).
Proof.
  intros [Hi Hp]. split; [exact Hi|].
  rewrite enrich_primaryFunctions. destruct (functions parsed); [exact Hp|].
  rewrite List.length_firstn. lia.
Qed.

(** A property of the entries that the File Describer establishes and
    the enrichment keeps holds of every entry of the scan. *)
Lemma analyzeFiles_Forall (P : FileAnalysis -> Prop) w config ai dir files :
  (forall filePath t, P (getFileInfo filePath t)) ->
  (forall file fileInfo parsed,
     P fileInfo -> P (fst (enrich w config ai dir file fileInfo parsed))) ->
  forall acc s,
    List.Forall P (fileAnalyses acc) ->
    analyzeFiles w config ai dir acc files = Returned s ->
    List.Forall P (fileAnalyses s).
Proof.
  intros Hinfo Henrich.
  induction files as [|file rest IH]; intros acc s Hacc;
    cbn [analyzeFiles bind].
  - now intros [= <-].
  - destruct (analyzeFile w config ai dir acc file) as [acc'|e] eqn:E;
      cbn [bind]; [|discriminate].
    apply IH. revert E. unfold analyzeFile.
    destruct (FS.stat w dir file) as [st|e]; cbn [bind]; [|discriminate].
    destruct (FS.isFile st); [|now intros [= <-]].
    destruct (parseSourceFile _ _); intros [= <-]; cbn [fileAnalyses];
      apply List.Forall_app; (split; [exact Hacc|]); constructor;
      try constructor.
    + exact (Henrich file (getFileInfo (path.join dir file) (FS.mtime st)) p
               (Hinfo _ _)).
    + apply Hinfo.
Qed.

Lemma rankKeyFiles_In (fas : list FileAnalysis) (k : FileAnalysis) :
  In k (rankKeyFiles fas) -> In k fas.
Proof.
  unfold rankKeyFiles. intros H. apply In_firstn_in in H.
  now apply (Permutation_in _ (sort_perm by_importance fas)).
Qed.

(** X1: every key file of a directory analysis, whatever the mode and the
    AI collaborator, has an importance among 3, 5, 7 and 10 and at most
    three primary functions. *)
Theorem keyFiles_well_formed ignores w dir config a :
  buildAnalysis ignores w dir config = Returned a ->
  List.Forall well_formed_entry (keyFiles a).
Proof.
  intros H. apply buildAnalysis_inv in H as (names & scan & _ & Hs & Hk & _).
  rewrite Hk. apply List.Forall_forall. intros k Hin.
  apply rankKeyFiles_In in Hin.
  assert (Hall : List.Forall well_formed_entry (fileAnalyses scan)).
  { apply (analyzeFiles_Forall well_formed_entry w config _ dir _
             getFileInfo_well_formed
             (fun f fi p H => enrich_well_formed w config _ dir f fi p H)
             empty_scan scan (List.Forall_nil _) Hs). }
  now apply (proj1 (List.Forall_forall _ _) Hall).
Qed.

Lemma keyFiles_well_formed_witness :
  exists a,
    buildAnalysis Ignore.ignores ranking_world "/proj/lib" (defaultConfig deep)
    = Returned a
    /\ List.Forall well_formed_entry (keyFiles a).
Proof.
  assert (H : exists a,
             buildAnalysis Ignore.ignores ranking_world "/proj/lib"
               (defaultConfig deep) = Returned a)
    by (vm_compute; eexists; reflexivity).
  destruct H as [a H]. exists a. split; [exact H|].
  exact (keyFiles_well_formed _ _ _ _ _ H).
Defined.

Lemma analyzeFile_edges w config ai dir acc file s (names : list string) :
  In file names ->
  analyzeFile w config ai dir acc file = Returned s ->
  (forall d, In d (allDependencies acc) ->
     exists f, In f names
       /\ JS.mem (path.extname (path.join dir f)) sourceExtensions = true
       /\ edge_of (path.join dir f) d) ->
  forall d, In d (allDependencies s) ->
    exists f, In f names
      /\ JS.mem (path.extname (path.join dir f)) sourceExtensions = true
      /\ edge_of (path.join dir f) d.
Proof.
  intros Hfile. unfold analyzeFile.
  destruct (FS.stat w dir file) as [st|e]; simpl; [|discriminate].
  destruct (FS.isFile st); [|now intros [= <-]].
  destruct (parseSourceFile _ _) as [parsed|] eqn:Hp; intros [= <-] Hacc d;
    simpl; [|now apply Hacc].
  assert (Hext : JS.mem (path.extname (path.join dir file)) sourceExtensions = true).
  { revert Hp. unfold parseSourceFile.
    destruct (JS.mem _ sourceExtensions); [reflexivity|discriminate]. }
  rewrite !in_app_iff, !in_map_iff.
  intros [Hd|[(imp & <- & _)|(exp & <- & _)]]; [now apply Hacc| |];
    exists file; (split; [exact Hfile|]); (split; [exact Hext|]).
  - left. now split.
  - right. now repeat split.
Qed.

Lemma analyzeFiles_edges w config ai dir (names : list string) files :
  (forall f, In f files -> In f names) ->
  forall acc s,
    analyzeFiles w config ai dir acc files = Returned s ->
    (forall d, In d (allDependencies acc) ->
       exists f, In f names
         /\ JS.mem (path.extname (path.join dir f)) sourceExtensions = true
         /\ edge_of (path.join dir f) d) ->
    forall d, In d (allDependencies s) ->
      exists f, In f names
        /\ JS.mem (path.extname (path.join dir f)) sourceExtensions = true
        /\ edge_of (path.join dir f) d.
Proof.
  induction files as [|file rest IH]; intros Hsub acc s; simpl.
  - now intros [= <-].
  - destruct (analyzeFile w config ai dir acc file) as [acc'|e] eqn:E;
      simpl; [|discriminate].
    intros H Hacc. apply (IH (fun f Hf => Hsub f (or_intror Hf)) acc' s H).
    apply (analyzeFile_edges _ _ _ _ _ _ _ names (Hsub file (or_introl eq_refl)) E Hacc).
Qed.

(** X2: every dependency edge of a directory analysis belongs to a listed
    child with an allow-listed source extension, and is either an import
    edge into that file or an export edge from that file to the sentinel
    external; no edge has the kind external. *)
Theorem dependencies_are_file_edges ignores w dir config a :
  buildAnalysis ignores w dir config = Returned a ->
  exists names,
    FS.readdir w dir = Returned names
    /\ forall d, In d (dependencies a) ->
         dep_type d <> dep_external
         /\ exists file,
              In file names
              /\ JS.mem (path.extname (path.join dir file)) sourceExtensions = true
              /\ edge_of (path.join dir file) d.
Proof.
  intros H. apply buildAnalysis_inv in H as (names & scan & Hn & Hs & _ & _ & Hd & _).
  exists names. split; [exact Hn|]. rewrite Hd. intros d Hin.
  destruct (analyzeFiles_edges w config _ dir names _
              (fun f Hf => proj1 (filterFiles_In _ _ _ _ Hf))
              empty_scan scan Hs (fun d (F : In d []) => match F with end) d Hin)
    as (file & Hf & Hext & Hedge).
  split; [|now exists file].
  destruct Hedge as [[-> _]|[-> _]]; discriminate.
Qed.

Lemma dependencies_are_file_edges_witness :
  exists a,
    buildAnalysis Ignore.ignores git_world "/proj/src/lib" (defaultConfig quick)
    = Returned a
    /\ (length (dependencies a) = 7)%nat
    /\ forall d, In d (dependencies a) -> dep_type d <> dep_external.
Proof.
  assert (H : exists a,
             buildAnalysis Ignore.ignores git_world "/proj/src/lib"
               (defaultConfig quick) = Returned a
             /\ length (dependencies a) = 7%nat)
    by (vm_compute; eexists; split; reflexivity).
  destruct H as (a & H & Hlen). exists a. split; [exact H|]. split; [exact Hlen|].
  destruct (dependencies_are_file_edges _ _ _ _ _ H) as (names & _ & Hall).
  intros d Hd. exact (proj1 (Hall d Hd)).
Defined.

Lemma length_take_le (n : nat) (s : string) :
  (String.length (JS.take n s) <= n)%nat.
Proof.
  revert s. induction n as [|n IH]; intros [|c s]; simpl; try lia.
  specialize (IH s). lia.
Qed.

Lemma collectRecentChanges_bounds (w : World) (dir : string) :
  (length (collectRecentChanges w dir) <= 5)%nat
  /\ List.Forall well_formed_change (collectRecentChanges w dir).
Proof.
  unfold collectRecentChanges.
  destruct (FS.pathExists w _ ".git"); [|split; [simpl; lia|constructor]].
  unfold getRecentCommits. split.
  - rewrite List.length_map. destruct (git_log w !! _); [|simpl; lia].
    rewrite List.length_firstn. lia.
  - apply List.Forall_forall. intros c Hc. apply in_map_iff in Hc as (x & <- & _).
    repeat split. exact (length_take_le 7 (hash x)).
Qed.

(** X3: the recent changes of a directory analysis are at most five; each
    has an empty file list, the impact Code changes and a commit
    identifier of at most seven characters. When git answers for no
    directory, there are none. *)
Theorem recentChanges_bounds ignores w dir config a :
  buildAnalysis ignores w dir config = Returned a ->
  (length (recentChanges a) <= 5)%nat
  /\ List.Forall well_formed_change (recentChanges a)
  /\ ((forall root, git_log w !! root = None) -> recentChanges a = []).
Proof.
  intros H. apply buildAnalysis_inv in H as (_ & _ & _ & _ & _ & Hr & _).
  rewrite Hr. destruct (collectRecentChanges_bounds w dir) as [Hl Hf].
  split; [exact Hl|]. split; [exact Hf|].
  intros Hnone. unfold collectRecentChanges, getRecentCommits.
  rewrite Hnone. now destruct (FS.pathExists w _ ".git").
Qed.

Lemma recentChanges_bounds_witness :
  exists a,
    buildAnalysis Ignore.ignores git_world "/proj/src/lib" (defaultConfig quick)
    = Returned a
    /\ map commit (recentChanges a)
       = ["0123456"; "0123456"; "0123456"; "0123456"; "0123456"]
    /\ map ch_description (recentChanges a)
       = ["commit 1"; "commit 2"; "commit 3"; "commit 4"; "commit 5"]
    /\ (length (recentChanges a) <= 5)%nat.
Proof.
  assert (H : exists a,
             buildAnalysis Ignore.ignores git_world "/proj/src/lib"
               (defaultConfig quick) = Returned a
             /\ map commit (recentChanges a)
                = ["0123456"; "0123456"; "0123456"; "0123456"; "0123456"]
             /\ map ch_description (recentChanges a)
                = ["commit 1"; "commit 2"; "commit 3"; "commit 4"; "commit 5"])
    by (vm_compute; eexists; repeat split; reflexivity).
  destruct H as (a & H & Hc & Hd). exists a.
  split; [exact H|]. split; [exact Hc|]. split; [exact Hd|].
  exact (proj1 (recentChanges_bounds _ _ _ _ _ H)).
Defined.

(** * Further properties: ranking again *)

Lemma sort_sorted (l : list FileAnalysis) :
  StronglySorted descending l -> sort by_importance l = l.
Proof.
  induction 1 as [|x l Hl IH Hx]; [reflexivity|].
  simpl. rewrite IH. destruct l as [|y l']; [reflexivity|].
  simpl. inversion Hx as [|? ? Hxy _]; subst. unfold descending in Hxy.
  unfold by_importance. destruct (Z.leb_spec (importance y - importance x) 0);
    [reflexivity|lia].
Qed.

(** X4: ranking is idempotent: ranking the key files of an analysis again
    gives the same list, in the same order. *)
Theorem rankKeyFiles_idempotent (fas : list FileAnalysis) :
  rankKeyFiles (rankKeyFiles fas) = rankKeyFiles fas.
Proof.
  unfold rankKeyFiles.
  rewrite (sort_sorted (firstn 10 (sort by_importance fas))).
  - rewrite List.firstn_firstn. reflexivity.
  - apply firstn_strongly_sorted, sort_descending.
Qed.

(** * Further properties: the excerpts of the context views *)

Lemma join_cons_char (sep : string) (c : ascii) (w : string) (ws : list string) :
  JS.join sep (String c w :: ws) = String c (JS.join sep (w :: ws)).
Proof. destruct ws; reflexivity. Qed.

Lemma join_cons_empty (c : ascii) (l : list string) :
  l <> [] ->
  JS.join (String c "") ("" :: l) = String c (JS.join (String c "") l).
Proof. destruct l; [congruence|reflexivity]. Qed.

(** Splitting at a character and joining with it gives the text back. *)
Lemma join_split_on (sep : ascii) (s : string) :
  JS.join (String sep "") (JS.split_on sep s) = s.
Proof.
  induction s as [|c s IH]; [reflexivity|].
  simpl. destruct (JS.split_on sep s) as [|w ws] eqn:E;
    [now apply split_on_nonempty in E|].
  destruct (Ascii.eqb_spec c sep) as [->|Hne].
  - rewrite join_cons_empty by discriminate. now rewrite IH.
  - rewrite join_cons_char. now rewrite IH.
Qed.

Lemma startsWith_cons (c : ascii) (s p : string) :
  JS.startsWith (String c s) (String c p) = JS.startsWith s p.
Proof. simpl. now rewrite Ascii.eqb_refl. Qed.

Lemma startsWith_empty (s : string) : JS.startsWith s "" = true.
Proof. now destruct s. Qed.

(** The first pieces of a text, joined again, are a prefix of the text. *)
Lemma join_firstn_split_prefix (sep : ascii) (s : string) : forall n,
  JS.startsWith s (JS.join (String sep "") (firstn n (JS.split_on sep s))) = true.
Proof.
  induction s as [|c s IH]; intros n.
  - destruct n as [|[|n]]; reflexivity.
  - destruct n as [|n]; [reflexivity|].
    cbn [JS.split_on]. destruct (JS.split_on sep s) as [|w ws] eqn:E;
      [now apply split_on_nonempty in E|].
    destruct (Ascii.eqb_spec c sep) as [->|Hne].
    + cbn [firstn]. destruct (firstn n (w :: ws)) as [|x l] eqn:F;
        [reflexivity|].
      rewrite join_cons_empty by discriminate. rewrite startsWith_cons.
      rewrite <- F. apply IH.
    + cbn [firstn]. rewrite join_cons_char, startsWith_cons.
      exact (IH (S n)).
Qed.

(** X5: the excerpt a context view takes from a document (its first
    lines, joined again) is always a prefix of the document; a document
    of at most ten lines enters the project view whole, and is still
    followed by the ellipsis line. *)
Theorem excerpt_is_prefix (file content : string) (n : nat) :
  JS.startsWith content (JS.join nl (firstn n (lines content))) = true
  /\ ((length (lines content) <= 10)%nat ->
      summarySection file content
      = nl +:+ "### " +:+ path.dirname file +:+ nl +:+ content +:+ nl
        +:+ "..." +:+ nl +:+ nl).
Proof.
  split; [apply join_firstn_split_prefix|].
  intros Hlen. unfold summarySection.
  rewrite firstn_all2 by exact Hlen.
  unfold lines, nl. now rewrite join_split_on.
Qed.

Lemma appendSummaries_unreadable (w : World) (root file : string)
    (files : list string) : forall context,
  In file files ->
  FS.readFile w (path.join root (path.dirname file)) (path.basename file) = None ->
  exists e, appendSummaries w root context files = Thrown e.
Proof.
  induction files as [|f rest IH]; intros context Hin Hr; [contradiction|].
  simpl. unfold readFileOrThrow.
  destruct (FS.readFile w (path.join root (path.dirname f)) (path.basename f))
    as [content|] eqn:E; cbn [bind]; [|eauto].
  destruct Hin as [->|Hin]; [congruence|]. now apply IH.
Qed.

(** X6: when one of the first ten documents the search yields cannot be
    read, the project view fails as a whole: no partial text is
    returned. *)
Theorem project_view_unreadable glob (w : World) (root structure file : string) :
  getFileStructure w root 1 = Returned structure ->
  In file (firstn 10 (glob w "**/claude.md" root
                        ["node_modules/**"; "dist/**"; "build/**"])) ->
  FS.readFile w (path.join root (path.dirname file)) (path.basename file) = None ->
  exists e, generateProjectContext glob w root = Thrown e.
Proof.
  intros Hs Hin Hr. unfold generateProjectContext. rewrite Hs. cbn [bind].
  now apply (appendSummaries_unreadable w root file).
Qed.

Lemma project_view_unreadable_witness :
  exists e, generateProjectContext partial_glob summary_world "/proj" = Thrown e.
Proof.
  assert (Hs : exists s, getFileStructure summary_world "/proj" 1 = Returned s)
    by (vm_compute; eexists; reflexivity).
  destruct Hs as [structure Hs].
  apply (project_view_unreadable partial_glob summary_world "/proj" structure
           "zz/claude.md" Hs).
  - vm_compute. tauto.
  - vm_compute. reflexivity.
Defined.

(** * Further properties: entries that cannot be stat-ed *)

Lemma analyzeFiles_dangling w config ai dir file files : forall acc,
  In file files ->
  FS.lookup_child w dir file = Some Dangling ->
  exists e, analyzeFiles w config ai dir acc files = Thrown e.
Proof.
  induction files as [|f rest IH]; intros acc Hin Hl; [contradiction|].
  cbn [analyzeFiles].
  destruct (analyzeFile w config ai dir acc f) as [acc'|e] eqn:E;
    cbn [bind]; [|eauto].
  destruct Hin as [->|Hin]; [|now apply IH].
  revert E. unfold analyzeFile, FS.stat. rewrite Hl. discriminate.
Qed.

(** X7: a kept child of the directory on which [fs.stat] fails makes the
    whole directory analysis fail: no record is returned and no document
    is written. *)
Theorem dangling_child_aborts ignores gen w dir config entries file :
  tree w !! dir = Some entries ->
  In file (filterFiles ignores config (map fst entries)) ->
  assoc file entries = Some Dangling ->
  exists e, analyzeDirectory ignores gen w dir config = Thrown e.
Proof.
  intros Ht Hin Hd. unfold analyzeDirectory, buildAnalysis, FS.readdir.
  rewrite Ht. cbn [bind].
  destruct (analyzeFiles_dangling w config
              (if is_quick (mode config) then None else Some (api_client w))
              dir file _ empty_scan Hin) as [e He].
  { unfold FS.lookup_child. now rewrite Ht. }
  match goal with
  | |- context [analyzeFiles ?W ?c ?ai ?d ?a ?f] =>
      replace (analyzeFiles W c ai d a f) with (@Thrown Scan e)
        by (symmetry; exact He)
  end.
  cbn [bind]. eauto.
Qed.

Lemma dangling_child_aborts_witness :
  exists e,
    analyzeDirectory Ignore.ignores Documentation.generateDocumentation
      broken_world "/proj/lib" (defaultConfig quick) = Thrown e.
Proof.
  apply (dangling_child_aborts Ignore.ignores Documentation.generateDocumentation
           broken_world "/proj/lib" (defaultConfig quick)
           [ ("a.ts", File (Some "export const a = 1;") 10);
             ("broken", Dangling);
             ("b.ts", File (Some "export const b = 2;") 20) ] "broken").
  - vm_compute; reflexivity.
  - vm_compute. tauto.
  - reflexivity.
Defined.

(** * Further properties: what a refresh touches *)

(** One analysis changes one child, [claude.md] of its directory. *)
Lemma analyzeDirectory_frame ignores gen w dir config a w' :
  analyzeDirectory ignores gen w dir config = Returned (a, w') ->
  (forall d, d <> dir -> tree w' !! d = tree w !! d)
  /\ (forall d c, c <> "claude.md" ->
        FS.lookup_child w' d c = FS.lookup_child w d c)
  /\ documented w' dir
  /\ git_log w' = git_log w /\ git_status w' = git_status w
  /\ api_client w' = api_client w /\ config_file w' = config_file w.
Proof.
  intros H. apply analyzeDirectory_inv in H as [_ Hw].
  apply writeFile_inv in Hw as (entries & Hdir & _ & ->).
  split; [intros d Hd; now apply written_other_dir|].
  split; [intros d c Hc; now apply written_other_child|].
  split; [|now repeat split].
  exists (gen a config), (now w). apply written_child.
Qed.

Lemma analyzeDirectory_keeps_documented ignores gen w dir config a w' d :
  analyzeDirectory ignores gen w dir config = Returned (a, w') ->
  documented w d -> documented w' d.
Proof.
  intros H Hd. pose proof (analyzeDirectory_frame _ _ _ _ _ _ _ H)
    as (Hother & _ & Hdoc & _).
  destruct (string_dec d dir) as [->|Hne]; [exact Hdoc|].
  destruct Hd as (doc & t & Hd). exists doc, t.
  unfold FS.lookup_child in *. now rewrite (Hother d Hne).
Qed.

Lemma analyzeEach_frame ignores gen config (dirs : list string) : forall w w',
  analyzeEach ignores gen w config dirs = Returned w' ->
  (forall d, ~ In d dirs -> tree w' !! d = tree w !! d)
  /\ (forall d c, c <> "claude.md" ->
        FS.lookup_child w' d c = FS.lookup_child w d c)
  /\ (forall d, documented w d -> documented w' d)
  /\ (forall d, In d dirs -> documented w' d)
  /\ git_log w' = git_log w /\ git_status w' = git_status w
  /\ api_client w' = api_client w /\ config_file w' = config_file w.
Proof.
  induction dirs as [|dir rest IH]; intros w w'; cbn [analyzeEach].
  - intros [= <-]. repeat split; try tauto. contradiction.
  - destruct (analyzeDirectory ignores gen w dir config) as [[a w1]|e] eqn:E;
      cbn [bind snd]; [|discriminate].
    intros H. apply IH in H as (Ht & Hc & Hk & Hd & Hg & Hs & Ha & Hf).
    pose proof (analyzeDirectory_frame _ _ _ _ _ _ _ E)
      as (Ht1 & Hc1 & Hd1 & Hg1 & Hs1 & Ha1 & Hf1).
    split.
    { intros d Hn. rewrite Ht by (intros F; apply Hn; now right).
      apply Ht1. intros ->. apply Hn. now left. }
    split; [intros d c Hne; now rewrite Hc, Hc1|].
    split.
    { intros d Hdoc. apply Hk.
      now apply (analyzeDirectory_keeps_documented _ _ _ _ _ _ _ d E). }
    split.
    { intros d [<-|Hin]; [now apply Hk|now apply Hd]. }
    repeat split; congruence.
Qed.

(** X8: a refresh with --all or --path analyses one directory, the
    project root or the resolved path: afterwards that directory holds its
    document, the listing of every other directory (the subdirectories of
    the root too) is as before, and no file other than a [claude.md] has
    changed. *)
Theorem refresh_explicit_scope ignores gen w root config options w' :
  config_file w !! root = Some config ->
  opt_all options = true \/ JS.truthy (opt_path options) = true ->
  refreshCommand ignores gen w root options = Returned w' ->
  let target :=
    if opt_all options then root else resolve root (opt_path options) in
  documented w' target
  /\ (forall d, d <> target -> tree w' !! d = tree w !! d)
  /\ (forall d c, c <> "claude.md" ->
        FS.lookup_child w' d c = FS.lookup_child w d c).
Proof.
  intros Hc Hopt. unfold refreshCommand. rewrite Hc.
  assert (Hone : forall target,
            analyzeEach ignores gen w config [target] = Returned w' ->
            documented w' target
            /\ (forall d, d <> target -> tree w' !! d = tree w !! d)
            /\ (forall d c, c <> "claude.md" ->
                  FS.lookup_child w' d c = FS.lookup_child w d c)).
  { intros target H. apply analyzeEach_frame in H as (Ht & Hch & _ & Hd & _).
    split; [apply Hd; now left|]. split; [|exact Hch].
    intros d Hne. apply Ht. intros [<-|[]]. congruence. }
  destruct (opt_all options); [exact (Hone root)|].
  destruct Hopt as [Hopt|Hopt]; [discriminate|]. rewrite Hopt.
  exact (Hone _).
Qed.

Lemma refresh_explicit_scope_witness :
  exists w',
    refreshWithDefaults refresh_world "/proj" {| opt_all := true; opt_path := "" |}
    = Returned w'
    /\ documented w' "/proj"
    /\ tree w' !! "/proj/src" = tree refresh_world !! "/proj/src".
Proof.
  assert (H : exists w',
             refreshWithDefaults refresh_world "/proj"
               {| opt_all := true; opt_path := "" |} = Returned w')
    by (vm_compute; eexists; reflexivity).
  destruct H as [w' H]. exists w'. split; [exact H|].
  destruct (refresh_explicit_scope Ignore.ignores
              Documentation.generateDocumentation refresh_world "/proj"
              (defaultConfig quick) {| opt_all := true; opt_path := "" |} w'
              eq_refl (or_introl eq_refl) H) as (Hd & Ht & _).
  split; [exact Hd|]. apply Ht. discriminate.
Defined.

(** X9: a change-driven refresh that succeeds leaves every directory
    outside its plan with the listing it had, leaves every file other
    than a [claude.md] as it was, and leaves a document in each directory
    of the plan. *)
Theorem refresh_changed_scope ignores gen w root config w' :
  config_file w !! root = Some config ->
  refreshCommand ignores gen w root {| opt_all := false; opt_path := "" |}
  = Returned w' ->
  (forall d, ~ In d (map (path.join root) (refreshPlan w root)) ->
     tree w' !! d = tree w !! d)
  /\ (forall d c, c <> "claude.md" ->
        FS.lookup_child w' d c = FS.lookup_child w d c)
  /\ (forall d, In d (map (path.join root) (refreshPlan w root)) ->
        documented w' d).
Proof.
  intros Hc. unfold refreshCommand. rewrite Hc. cbn [opt_all opt_path JS.truthy].
  destruct (getChangedFiles w root) as [|f l] eqn:E.
  - intros [= <-]. unfold refreshPlan. rewrite E.
    repeat split; try tauto. intros d [].
  - cbn [length Nat.eqb]. intros H.
    apply analyzeEach_frame in H as (Ht & Hch & _ & Hd & _). now repeat split.
Qed.

Lemma refresh_changed_scope_witness :
  exists w',
    refreshWithDefaults refresh_world "/proj" {| opt_all := false; opt_path := "" |}
    = Returned w'
    /\ map (path.join "/proj") (refreshPlan refresh_world "/proj")
       = ["/proj/src"; "/proj"]
    /\ documented w' "/proj/src" /\ documented w' "/proj"
    /\ tree w' !! "/proj/docs" = tree refresh_world !! "/proj/docs".
Proof.
  assert (H : exists w',
             refreshWithDefaults refresh_world "/proj"
               {| opt_all := false; opt_path := "" |} = Returned w')
    by (vm_compute; eexists; reflexivity).
  destruct H as [w' H]. exists w'. split; [exact H|].
  assert (Hplan : map (path.join "/proj") (refreshPlan refresh_world "/proj")
                  = ["/proj/src"; "/proj"]) by (vm_compute; reflexivity).
  split; [exact Hplan|].
  destruct (refresh_changed_scope Ignore.ignores
              Documentation.generateDocumentation refresh_world "/proj"
              (defaultConfig quick) w' eq_refl H) as (Ht & _ & Hd).
  rewrite Hplan in Ht, Hd.
  split; [apply Hd; simpl; tauto|]. split; [apply Hd; simpl; tauto|].
  apply Ht. simpl. intros [F|[F|[]]]; discriminate.
Defined.

(** * Further properties: the AI collaborator *)

(** X10: in smart or deep mode with an API key, when the call of the
    service for the directory throws or answers without text, the analysis
    still returns, and its purpose and architecture are the placeholder
    texts of the AI analyzer, not the heuristic ones; the improvements
    are the heuristic ones. *)
Theorem ai_failure_placeholder ignores w dir config client a :
  api_client w = Some client ->
  is_quick (mode config) = false ->
  (forall model prompt,
     no_text (messages_create client (now w) model 1000 prompt)) ->
  buildAnalysis ignores w dir config = Returned a ->
  purpose a = "AI-powered analysis available with proper API key"
  /\ architecture a = "Standard module structure"
  /\ exists names scan,
       FS.readdir w dir = Returned names
       /\ analyzeFiles w config (Some (Some client)) dir empty_scan
            (filterFiles ignores config names) = Returned scan
       /\ improvements a
          = generateImprovements (fileAnalyses scan) (allDependencies scan).
Proof.
  intros Hc Hq Hdown. unfold buildAnalysis. rewrite Hq, Hc.
  destruct (FS.readdir w dir) as [names|e] eqn:Hn; cbn [bind]; [|discriminate].
  destruct (analyzeFiles w config (Some (Some client)) dir empty_scan _)
    as [scan|e] eqn:Hs; cbn [bind]; [|discriminate].
  cbn [AIAnalyzer.isAvailable negb andb AIAnalyzer.analyzeDirectory].
  intros [= <-]. cbn [purpose architecture improvements].
  destruct (Hdown (match mode config with deep => claude_3_opus | _ => claude_3_haiku end)
              (AIAnalyzer.directoryPrompt dir (fileAnalyses scan) (parsedFiles scan)))
    as [-> | ->]; (split; [reflexivity|]); (split; [reflexivity|]);
    exists names, scan; now repeat split.
Qed.

Lemma ai_failure_placeholder_witness :
  exists a,
    buildAnalysis Ignore.ignores
      (with_client ranking_world (Some failing_service)) "/proj/lib"
      (defaultConfig smart) = Returned a
    /\ purpose a = "AI-powered analysis available with proper API key"
    /\ architecture a = "Standard module structure".
Proof.
  assert (H : exists a,
             buildAnalysis Ignore.ignores
               (with_client ranking_world (Some failing_service)) "/proj/lib"
               (defaultConfig smart) = Returned a)
    by (vm_compute; eexists; reflexivity).
  destruct H as [a H]. exists a. split; [exact H|].
  destruct (ai_failure_placeholder Ignore.ignores
              (with_client ranking_world (Some failing_service)) "/proj/lib"
              (defaultConfig smart) failing_service a eq_refl eq_refl
              (fun _ _ => or_introl eq_refl) H) as (Hp & Ha & _).
  now split.
Defined.

Lemma analyzeFiles_same_tree w1 w2 config dir files : forall acc,
  tree w1 = tree w2 ->
  analyzeFiles w1 config None dir acc files
  = analyzeFiles w2 config None dir acc files.
Proof.
  intros acc Ht. revert acc.
  induction files as [|file rest IH]; intros acc; [reflexivity|].
  cbn [analyzeFiles].
  assert (E : analyzeFile w1 config None dir acc file
              = analyzeFile w2 config None dir acc file).
  { unfold analyzeFile, FS.stat, FS.readFile, FS.lookup_child, enrich.
    now rewrite Ht. }
  rewrite E. destruct (analyzeFile w2 config None dir acc file); cbn [bind];
    [apply IH|reflexivity].
Qed.

Lemma findGitRoot_same_tree w1 w2 fuel : forall gitRoot,
  tree w1 = tree w2 ->
  findGitRoot fuel w1 gitRoot = findGitRoot fuel w2 gitRoot.
Proof.
  intros gitRoot Ht. revert gitRoot.
  induction fuel as [|fuel IH]; intros gitRoot; [reflexivity|].
  cbn [findGitRoot]. unfold FS.pathExists, FS.lookup_child.
  now rewrite Ht, IH.
Qed.

Lemma collectRecentChanges_same_tree w1 w2 dir :
  tree w1 = tree w2 -> git_log w1 = git_log w2 ->
  collectRecentChanges w1 dir = collectRecentChanges w2 dir.
Proof.
  intros Ht Hg. unfold collectRecentChanges, getRecentCommits.
  rewrite (findGitRoot_same_tree w1 w2 _ _ Ht).
  unfold FS.pathExists, FS.lookup_child. now rewrite Ht, Hg.
Qed.

(** X11: in quick mode the analysis never consults the AI collaborator:
    the record is the same whatever API client the environment holds. *)
Theorem quick_mode_ignores_client ignores w client dir config :
  mode config = quick ->
  buildAnalysis ignores (with_client w client) dir config
  = buildAnalysis ignores w dir config.
Proof.
  intros Hq.
  assert (Hquick : is_quick (mode config) = true) by now rewrite Hq.
  rewrite !buildAnalysis_no_ai by (left; exact Hquick).
  rewrite Hquick. unfold FS.readdir. cbn [tree with_client].
  destruct (tree w !! dir) as [entries|]; cbn [bind]; [|reflexivity].
  rewrite (analyzeFiles_same_tree (with_client w client) w) by reflexivity.
  destruct (analyzeFiles w config None dir empty_scan _); cbn [bind];
    [|reflexivity].
  now rewrite (collectRecentChanges_same_tree (with_client w client) w).
Qed.

Lemma quick_mode_ignores_client_witness :
  buildAnalysis Ignore.ignores
    (with_client ranking_world (Some chatty_service)) "/proj/lib"
    (defaultConfig quick)
  = buildAnalysis Ignore.ignores ranking_world "/proj/lib" (defaultConfig quick).
Proof.
  apply (quick_mode_ignores_client Ignore.ignores ranking_world
           (Some chatty_service) "/proj/lib" (defaultConfig quick)).
  reflexivity.
Defined.

(** * Further properties: the description of test files *)

Lemma rev_string_onto_app (s acc : string) :
  JS.rev_string_onto s acc = JS.rev_string s +:+ acc.
Proof.
  revert acc. unfold JS.rev_string.
  induction s as [|c s IH]; intros acc; [reflexivity|].
  cbn [JS.rev_string_onto]. rewrite IH, (IH (String c "")).
  now rewrite append_assoc.
Qed.

Lemma rev_string_app (a b : string) :
  JS.rev_string (a +:+ b) = JS.rev_string b +:+ JS.rev_string a.
Proof.
  induction a as [|c a IH]; app_simpl.
  - now rewrite append_empty_r.
  - unfold JS.rev_string in *. cbn [JS.rev_string_onto].
    rewrite !(rev_string_onto_app _ (String c "")).
    unfold JS.rev_string. now rewrite IH, append_assoc.
Qed.

Lemma length_append (a b : string) :
  String.length (a +:+ b) = (String.length a + String.length b)%nat.
Proof. induction a as [|c a IH]; app_simpl; simpl; congruence. Qed.

Lemma length_rev_string (s : string) :
  String.length (JS.rev_string s) = String.length s.
Proof.
  induction s as [|c s IH]; [reflexivity|].
  change (String c s) with (String c "" +:+ s) at 1.
  rewrite rev_string_app, length_append, IH. simpl. lia.
Qed.

Lemma startsWith_app_short (x y p : string) :
  (String.length p <= String.length x)%nat ->
  JS.startsWith (x +:+ y) p = JS.startsWith x p.
Proof.
  revert p. induction x as [|c x IH]; intros [|d p] H;
    try (now rewrite !startsWith_empty); try (simpl in H; lia).
  app_simpl. cbn [JS.startsWith]. destruct (Ascii.eqb d c); [|reflexivity].
  apply IH. simpl in H. lia.
Qed.

Lemma startsWith_app_self (p y : string) : JS.startsWith (p +:+ y) p = true.
Proof.
  induction p as [|c p IH]; app_simpl; [apply startsWith_empty|].
  simpl. now rewrite Ascii.eqb_refl.
Qed.

Lemma endsWith_app_short (a b p : string) :
  (String.length p <= String.length b)%nat ->
  JS.endsWith (a +:+ b) p = JS.endsWith b p.
Proof.
  intros H. unfold JS.endsWith. rewrite rev_string_app.
  apply startsWith_app_short. now rewrite !length_rev_string.
Qed.

Lemma endsWith_app_self (a b : string) : JS.endsWith (a +:+ b) b = true.
Proof.
  unfold JS.endsWith. rewrite rev_string_app. apply startsWith_app_self.
Qed.

Lemma table_get_none_by_suffix {V} (t : table V) (key suffix : string) :
  List.Forall (fun kv => JS.endsWith (fst kv) suffix = false) t ->
  JS.endsWith key suffix = true ->
  table_get t key = None.
Proof.
  intros Hall Hkey. induction Hall as [|[k v] t Hk _ IH]; [reflexivity|].
  simpl in *. destruct (String.eqb_spec k key) as [->|_]; [congruence|exact IH].
Qed.

Lemma commonFiles_no_test_suffix (suffix : string) :
  In suffix [".test.ts"; ".spec.ts"; ".test.js"; ".spec.js"] ->
  List.Forall (fun kv => JS.endsWith (fst kv) suffix = false) commonFiles.
Proof.
  intros H. simpl in H.
  repeat (destruct H as [<-|H]; [unfold commonFiles; repeat constructor|]).
  contradiction.
Qed.

(** X12: a test file is described as a plain source file: a name that
    ends in .test.ts or .spec.ts gets the description TypeScript source
    file and a name that ends in .test.js or .spec.js gets JavaScript
    source file, because the extension table is searched in order and the
    entries .ts and .js come before the entries for test files. *)
Theorem test_files_described_as_source (base ext : string) :
  getFileDescription (base +:+ ".test.ts") ext = "TypeScript source file"
  /\ getFileDescription (base +:+ ".spec.ts") ext = "TypeScript source file"
  /\ getFileDescription (base +:+ ".test.js") ext = "JavaScript source file"
  /\ getFileDescription (base +:+ ".spec.js") ext = "JavaScript source file".
Proof.
  assert (Hcommon : forall suffix,
            In suffix [".test.ts"; ".spec.ts"; ".test.js"; ".spec.js"] ->
            table_get commonFiles (base +:+ suffix) = None).
  { intros suffix Hin.
    apply (table_get_none_by_suffix commonFiles _ suffix
             (commonFiles_no_test_suffix suffix Hin) (endsWith_app_self base suffix)). }
  repeat split; unfold getFileDescription;
    rewrite Hcommon by (simpl; tauto);
    unfold table_first, extensions; cbn [List.find fst];
    repeat (rewrite endsWith_app_short by (simpl; lia));
    reflexivity.
Qed.

(** * Further properties: a directory without children *)



(** * Further properties: the Structural Source Analyzer *)

Lemma NoDup_snoc {A} (l : list A) (x : A) :
  List.NoDup l -> ~ In x l -> List.NoDup (l ++ [x]).
Proof.
  intros Hl Hx. induction Hl as [|y l Hy Hl IH]; simpl.
  - constructor; [tauto|constructor].
  - constructor.
    + rewrite in_app_iff. simpl. intros [H|[->|[]]]; [tauto|].
      apply Hx. now left.
    + apply IH. intros H. apply Hx. now right.
Qed.

Lemma add_default_export_cases acc m :
  let name := Regex.cap_str 1 (snd m) in
  (add_default_export acc m = acc
   /\ exists e, In e acc /\ exp_name e = name /\ isDefault e = true)
  \/ (add_default_export acc m
      = acc ++ [ {| exp_name := name; exp_type := exp_variable;
                    isDefault := true |} ]
      /\ forall e, In e acc -> exp_name e = name -> isDefault e = false).
Proof.
  intros name. unfold add_default_export. fold name.
  destruct (existsb _ acc) eqn:E.
  - left. split; [reflexivity|].
    apply existsb_exists in E as (e & Hin & He).
    apply andb_true_iff in He as [Hn Hd]. apply String.eqb_eq in Hn.
    now exists e.
  - right. split; [reflexivity|]. intros e Hin Hn.
    destruct (isDefault e) eqn:Hd; [|reflexivity].
    assert (existsb (fun e0 => String.eqb (exp_name e0) name && isDefault e0) acc
            = true) as F.
    { apply existsb_exists. exists e. split; [exact Hin|].
      rewrite Hn, String.eqb_refl. exact Hd. }
    congruence.
Qed.

(** The second pass of [parseExports] only appends; what it appends are
    default exports of distinct names that were not default exports
    before, and every match ends up as a default export. *)
Lemma fold_default_exports (ms : list (string * Regex.caps)) : forall acc,
  exists extra,
    fold_left add_default_export ms acc = acc ++ extra
    /\ List.Forall default_variable extra
    /\ List.NoDup (map exp_name extra)
    /\ (forall e e0, In e extra -> In e0 acc -> exp_name e0 = exp_name e ->
          isDefault e0 = false)
    /\ (forall m, In m ms ->
          exists e, In e (acc ++ extra)
            /\ exp_name e = Regex.cap_str 1 (snd m) /\ isDefault e = true).
Proof.
  induction ms as [|m ms IH]; intros acc; cbn [fold_left].
  - exists []. rewrite app_nil_r. repeat split; try constructor; intros; contradiction.
  - destruct (add_default_export_cases acc m) as [[-> (e1 & Hin1 & Hn1 & Hd1)]|[-> Hnew]].
    + destruct (IH acc) as (extra & -> & Hf & Hnd & Hfresh & Hall).
      exists extra. repeat split; try assumption.
      intros m' [<-|Hm']; [|now apply Hall].
      exists e1. rewrite in_app_iff. now repeat split; [left|..].
    + set (new := {| exp_name := Regex.cap_str 1 (snd m);
                     exp_type := exp_variable; isDefault := true |}) in *.
      destruct (IH (acc ++ [new])) as (extra & -> & Hf & Hnd & Hfresh & Hall).
      exists (new :: extra). rewrite <- app_assoc. split; [reflexivity|].
      split; [constructor; [now split|exact Hf]|].
      split.
      { cbn [map]. constructor; [|exact Hnd].
        intros Hin. apply in_map_iff in Hin as (e & He & Hin).
        assert (isDefault new = false) as F; [|discriminate].
        apply (Hfresh e new Hin); [|now rewrite He].
        rewrite in_app_iff. right. now left. }
      split.
      { intros e e0 [<-|Hin] Hin0 Hname.
        - now apply Hnew.
        - apply (Hfresh e e0 Hin); [|exact Hname].
          rewrite in_app_iff. now left. }
      intros m' [<-|Hm'].
      * exists new. rewrite in_app_iff. split; [right; now left|now split].
      * destruct (Hall m' Hm') as (e & Hin & He).
        exists e. split; [|exact He]. now rewrite <- app_assoc in Hin.
Qed.

(** X14: [parseExports] keeps the declaration-level exports first, in the
    order of the text; what follows are default exports of kind variable,
    one per name at most, and every name the expression for
    [export default] finds is present as a default export. *)
Theorem parseExports_defaults (content : string) :
  exists extra,
    parseExports content
    = map export_of_match (Regex.matchAll Patterns.exportRegex content) ++ extra
    /\ List.Forall default_variable extra
    /\ List.NoDup (map exp_name extra)
    /\ (forall m, In m (Regex.matchAll Patterns.exportDefaultRegex content) ->
          exists e, In e (parseExports content)
            /\ exp_name e = Regex.cap_str 1 (snd m) /\ isDefault e = true).
Proof.
  unfold parseExports.
  destruct (fold_default_exports
              (Regex.matchAll Patterns.exportDefaultRegex content)
              (map export_of_match (Regex.matchAll Patterns.exportRegex content)))
    as (extra & -> & Hf & Hnd & _ & Hall).
  exists extra. now repeat split.
Qed.

Lemma first_token_no_space (s : string) (ch : ascii) :
  In ch (list_ascii_of_string (JS.first_token s)) -> JS.is_space ch = false.
Proof.
  induction s as [|c s IH]; simpl; [tauto|].
  destruct (JS.is_space c) eqn:E; simpl; [tauto|].
  intros [<-|H]; [exact E|now apply IH].
Qed.

(** X15: the names the parser keeps are clean: no class lists a method
    named constructor, and every parameter of every function is a
    non-empty token without white space (a function found by the arrow
    expression has none). *)
Theorem parsed_names_clean (content : string) :
  (forall c, In c (parseClasses content) -> ~ In "constructor" (methods c))
  /\ (forall f p, In f (parseFunctions content) -> In p (params f) ->
        clean_token p).
Proof.
  split.
  - unfold parseClasses. intros c Hc Hin.
    apply in_map_iff in Hc as (m & <- & _). cbn [methods class_of_match] in Hin.
    apply List.filter_In in Hin as [_ Hne]. discriminate.
  - unfold parseFunctions. intros f p Hf Hp.
    apply in_app_iff in Hf as [Hf|Hf]; apply in_map_iff in Hf as (m & <- & _);
      cbn [params function_of_match arrow_of_match] in Hp; [|contradiction].
    apply List.filter_In in Hp as [Hp Ht]. apply in_map_iff in Hp as (q & <- & _).
    split.
    + intros E. rewrite E in Ht. discriminate.
    + intros ch. apply first_token_no_space.
Qed.

(** * Further properties: the file tree *)

Lemma tree_line_deeper (prefix unit line : string) (depth : nat) :
  indent_unit unit ->
  tree_line (prefix +:+ unit) depth line ->
  tree_line prefix (S depth) line.
Proof.
  intros Hu (units & connector & item & -> & Hunits & Hlen & Hc & Hv).
  exists (unit :: units), connector, item.
  split; [cbn [concat_all fold_right]; now rewrite !append_assoc|].
  split; [now constructor|]. split; [simpl; lia|]. now split.
Qed.

Lemma traverse_lines (budget : nat) (w : World) : forall dir prefix lines,
  traverse budget w dir prefix = Returned lines ->
  List.Forall (tree_line prefix budget) lines.
Proof.
  induction budget as [|b IH]; intros dir prefix lines; cbn [traverse].
  - intros [= <-]. constructor.
  - destruct (FS.readdir w dir) as [items|e]; cbn [bind]; [|discriminate].
    set (filtered := List.filter _ items).
    assert (Hvis : List.Forall (fun item => visible item = true) filtered).
    { apply List.Forall_forall. intros item Hin.
      now apply List.filter_In in Hin as [_ Hin]. }
    clearbody filtered. revert lines.
    induction Hvis as [|item rest Hitem _ IHrest]; intros lines.
    + intros [= <-]. constructor.
    + destruct (FS.stat w dir item) as [stats|e]; cbn [bind]; [|discriminate].
      destruct (FS.isDirectory stats && (0 <? b)%nat).
      * destruct (traverse b w _ _) as [below|e] eqn:Hbelow; cbn [bind];
          [|discriminate].
        match goal with
        | |- context [bind ?X _] =>
            destruct X as [after|e] eqn:Hafter; cbn [bind]; [|discriminate]
        end.
        intros [= <-]. constructor; [|apply List.Forall_app; split].
        -- exists [], (if match rest with [] => true | _ => false end
                       then "└── " else "├── "), item.
           split; [reflexivity|]. split; [constructor|]. split; [simpl; lia|].
           split; [|exact Hitem].
           destruct rest; [now right|now left].
        -- apply IH in Hbelow. eapply List.Forall_impl; [|exact Hbelow].
           intros line. apply tree_line_deeper.
           destruct rest; [now right|now left].
        -- now apply IHrest.
      * cbn [bind].
        match goal with
        | |- context [bind ?X _] =>
            destruct X as [after|e] eqn:Hafter; cbn [bind]; [|discriminate]
        end.
        intros [= <-]. constructor; [|now apply IHrest].
        exists [], (if match rest with [] => true | _ => false end
                    then "└── " else "├── "), item.
        split; [reflexivity|]. split; [constructor|]. split; [simpl; lia|].
        split; [|exact Hitem].
        destruct rest; [now right|now left].
Qed.

(** X16: every line of a file tree is the indentation, a connector and
    the name of an entry that is neither a dotfile nor [node_modules], and
    its indentation has fewer units than the depth asked for: nothing
    below that depth is shown. *)
Theorem file_tree_lines (w : World) (dir text : string) (maxDepth : nat) :
  getFileStructure w dir maxDepth = Returned text ->
  exists lines,
    text = JS.join nl lines
    /\ List.Forall (tree_line "" maxDepth) lines.
Proof.
  unfold getFileStructure.
  destruct (traverse maxDepth w dir "") as [lines|e] eqn:E; cbn [bind];
    [|discriminate].
  intros [= <-]. exists lines. split; [reflexivity|].
  now apply (traverse_lines maxDepth w dir "").
Qed.

Lemma file_tree_lines_witness :
  exists text lines,
    getFileStructure nested_world "/proj" 2 = Returned text
    /\ text = JS.join nl lines
    /\ List.Forall (tree_line "" 2) lines.
Proof.
  assert (H : exists text, getFileStructure nested_world "/proj" 2 = Returned text)
    by (vm_compute; eexists; reflexivity).
  destruct H as [text H].
  destruct (file_tree_lines nested_world "/proj" text 2 H) as (lines & Hj & Hl).
  exists text, lines. now repeat split.
Defined.

Example file_tree_example :
  getFileStructure nested_world "/proj" 2
  = Returned (JS.join nl ["├── src"; "│   ├── lib"; "│   └── index.ts";
                          "└── README.md"]).
Proof. vm_compute. reflexivity. Qed.

(** * Further properties: the dominant extension *)

Lemma assoc_bump (e x : string) (acc : list (string * nat)) :
  assoc e (bump x acc)
  = if String.eqb x e
    then Some (S (match assoc e acc with Some n => n | None => 0%nat end))
    else assoc e acc.
Proof.
  induction acc as [|[k n] acc IH]; cbn [bump assoc].
  - destruct (String.eqb x e); reflexivity.
  - destruct (String.eqb_spec k x) as [->|Hk]; cbn [assoc].
    + destruct (String.eqb x e); reflexivity.
    + destruct (String.eqb_spec k e) as [->|Hke].
      * destruct (String.eqb_spec x e); [congruence|reflexivity].
      * exact IH.
Qed.

Lemma bump_keys (x k : string) (acc : list (string * nat)) :
  In k (map fst (bump x acc)) -> k = x \/ In k (map fst acc).
Proof.
  induction acc as [|[k0 n] acc IH]; cbn [bump map fst In].
  - intros [<-|[]]. now left.
  - destruct (String.eqb_spec k0 x) as [->|Hk]; cbn [map fst In]; [tauto|].
    intros [->|H]; [tauto|]. apply IH in H. tauto.
Qed.

Lemma bump_NoDup (x : string) (acc : list (string * nat)) :
  List.NoDup (map fst acc) -> List.NoDup (map fst (bump x acc)).
Proof.
  induction acc as [|[k n] acc IH]; cbn [bump map fst]; intros H.
  - constructor; [tauto|constructor].
  - inversion H as [|? ? Hk Hacc]; subst.
    destruct (String.eqb_spec k x) as [->|Hne]; cbn [map fst];
      [now constructor|].
    constructor; [|now apply IH].
    intros Hin. apply bump_keys in Hin as [->|Hin]; tauto.
Qed.

Lemma count_ext_snoc (e : string) (files : list FileAnalysis) (f : FileAnalysis) :
  count_ext e (files ++ [f])
  = (count_ext e files
     + if String.eqb (path.extname (fa_path f)) e then 1 else 0)%nat.
Proof.
  unfold count_ext. rewrite List.filter_app, List.length_app. simpl.
  now destruct (String.eqb (path.extname (fa_path f)) e).
Qed.

Lemma countTypes_counts (rest : list FileAnalysis) : forall done acc,
  counts_of done acc -> counts_of (done ++ rest) (countTypes rest acc).
Proof.
  induction rest as [|f rest IH]; intros done acc Hacc.
  - now rewrite app_nil_r.
  - cbn [countTypes fold_left].
    change (done ++ f :: rest) with (done ++ [f] ++ rest). rewrite app_assoc.
    apply IH. destruct Hacc as [Hnd Hassoc]. split; [now apply bump_NoDup|].
    intros e. rewrite assoc_bump, count_ext_snoc, Hassoc.
    destruct (String.eqb (path.extname (fa_path f)) e).
    + destruct (Nat.eqb_spec (count_ext e done + 1) 0) as [|_]; [lia|].
      destruct (Nat.eqb_spec (count_ext e done) 0) as [->|_];
        [reflexivity|f_equal; lia].
    + now rewrite Nat.add_0_r.
Qed.

Lemma assoc_In {V} (k : string) (v : V) (l : list (string * V)) :
  List.NoDup (map fst l) -> In (k, v) l -> assoc k l = Some v.
Proof.
  induction l as [|[k0 v0] l IH]; cbn [map fst assoc]; [contradiction|].
  intros H [E|Hin]; inversion H as [|? ? Hk Hl]; subst.
  - injection E as -> ->. now rewrite String.eqb_refl.
  - destruct (String.eqb_spec k0 k) as [->|_]; [|now apply IH].
    exfalso. apply Hk. apply in_map_iff. now exists (k, v).
Qed.

Lemma assoc_Some_In {V} (k : string) (v : V) (l : list (string * V)) :
  assoc k l = Some v -> In (k, v) l.
Proof.
  induction l as [|[k0 v0] l IH]; cbn [assoc]; [discriminate|].
  destruct (String.eqb_spec k0 k) as [->|_]; [intros [= ->]; now left|].
  intros H. right. now apply IH.
Qed.

(** The head of the sorted table has the greatest count. *)
Lemma head_sort_by_count (l : list (string * nat)) (h : string * nat) :
  head (sort by_count l) = Some h ->
  In h l /\ forall y, In y l -> (snd y <= snd h)%nat.
Proof.
  revert h. induction l as [|x l IH]; intros h; [discriminate|].
  cbn [sort fold_right]. fold (sort by_count l).
  destruct (sort by_count l) as [|y s] eqn:E.
  - cbn [insert_sorted head]. intros [= <-].
    assert (l = []) as ->.
    { apply Permutation_nil. symmetry.
      pose proof (sort_perm by_count l) as Hp. now rewrite E in Hp. }
    split; [now left|]. intros y [<-|[]]. lia.
  - destruct (IH y eq_refl) as [Hy Hmax].
    cbn [insert_sorted]. unfold by_count at 1.
    destruct (Z.leb_spec (Z.of_nat (snd y) - Z.of_nat (snd x)) 0);
      cbn [head]; intros [= <-].
    + split; [now left|]. intros z [<-|Hz]; [lia|].
      specialize (Hmax z Hz). lia.
    + split; [now right|]. intros z [<-|Hz]; [lia|now apply Hmax].
Qed.

(** X17: for a directory with at least one file the architecture text
    starts with the sentence that names one extension with its number of
    files; that number is the number of files with the extension, and no
    extension has more files. *)
Theorem dominant_extension (files : list FileAnalysis) (deps : list Dependency) :
  files <> [] ->
  exists ext n,
    JS.startsWith (generateArchitectureInsights files deps)
      ("Primarily " +:+ ext +:+ " files (" +:+ JS.decimal n +:+ " files)") = true
    /\ n = count_ext ext files
    /\ (1 <= n)%nat
    /\ forall e, (count_ext e files <= n)%nat.
Proof.
  intros Hne. unfold generateArchitectureInsights.
  fold (countTypes files []). fold by_count.
  assert (Hcounts : counts_of files (countTypes files [])).
  { apply (countTypes_counts files [] []). split; [constructor|].
    intros e. reflexivity. }
  destruct Hcounts as [Hnd Hassoc].
  destruct (head (sort by_count (countTypes files []))) as [[ext n]|] eqn:Hh.
  - destruct (head_sort_by_count _ _ Hh) as [Hin Hmax].
    pose proof (assoc_In _ _ _ Hnd Hin) as Hext. rewrite Hassoc in Hext.
    destruct (Nat.eqb_spec (count_ext ext files) 0) as [|Hpos]; [discriminate|].
    injection Hext as Hn.
    exists ext, n. split; [|split; [now symmetry|split; [lia|]]].
    + set (line := "Primarily " +:+ ext +:+ " files (" +:+ JS.decimal n +:+ " files)").
      match goal with
      | |- context [JS.join ". " ([line] ++ ?rest)] =>
          assert (Hj : exists tail, JS.join ". " ([line] ++ rest) = line +:+ tail)
            by (destruct rest; [exists ""; simpl; now rewrite append_empty_r
                               |eexists; reflexivity]);
          destruct Hj as [tail ->]
      end.
      unfold JS.or_else. unfold line at 1. app_simpl. cbn [JS.truthy].
      fold line. apply startsWith_app_self.
    + intros e. destruct (Nat.eqb_spec (count_ext e files) 0) as [->|He]; [lia|].
      specialize (Hassoc e).
      destruct (Nat.eqb_spec (count_ext e files) 0); [contradiction|].
      apply assoc_Some_In in Hassoc. specialize (Hmax _ Hassoc). simpl in Hmax. lia.
  - exfalso. destruct files as [|f files]; [congruence|].
    specialize (Hassoc (path.extname (fa_path f))).
    assert (sort by_count (countTypes (f :: files) []) = []) as Hs
      by (destruct (sort by_count _); [reflexivity|discriminate]).
    assert (countTypes (f :: files) [] = []) as Hc.
    { apply Permutation_nil. symmetry.
      pose proof (sort_perm by_count (countTypes (f :: files) [])) as Hp.
      now rewrite Hs in Hp. }
    rewrite Hc in Hassoc. unfold count_ext in Hassoc. cbn [List.filter assoc] in Hassoc.
    rewrite String.eqb_refl in Hassoc. discriminate.
Qed.

Lemma dominant_extension_witness :
  exists ext n,
    JS.startsWith
      (generateArchitectureInsights
         [getFileInfo "/p/a.md" 0; getFileInfo "/p/b.ts" 0; getFileInfo "/p/c.ts" 0] [])
      ("Primarily " +:+ ext +:+ " files (" +:+ JS.decimal n +:+ " files)") = true
    /\ (1 <= n)%nat.
Proof.
  destruct (dominant_extension
              [getFileInfo "/p/a.md" 0; getFileInfo "/p/b.ts" 0;
               getFileInfo "/p/c.ts" 0] []) as (ext & n & H & _ & Hn & _).
  - discriminate.
  - exists ext, n. now split.
Defined.

(** * Further properties: the Project Walker *)

Lemma set_add_In (x : string) (s : list string) : In x (set_add x s).
Proof.
  unfold set_add. destruct (JS.mem x s) eqn:E.
  - now apply mem_In.
  - apply in_app_iff. right. now left.
Qed.

Lemma set_add_extends (x : string) (s : list string) :
  exists tail, set_add x s = s ++ tail.
Proof.
  unfold set_add. destruct (JS.mem x s).
  - exists []. now rewrite app_nil_r.
  - now exists [x].
Qed.

Lemma set_add_inv (x y : string) (s : list string) :
  In y (set_add x s) -> y = x \/ In y s.
Proof.
  unfold set_add. destruct (JS.mem x s); [tauto|].
  rewrite in_app_iff. simpl. intuition.
Qed.

Lemma set_add_NoDup (x : string) (s : list string) :
  List.NoDup s -> List.NoDup (set_add x s).
Proof.
  intros H. unfold set_add. destruct (JS.mem x s) eqn:E; [assumption|].
  apply NoDup_snoc; [assumption|]. intros Hin. apply mem_In in Hin. congruence.
Qed.

Lemma stat_directory (w : World) (dir item : string) (n : Node) :
  FS.stat w dir item = Returned n -> FS.isDirectory n = true ->
  FS.stat w dir item = Returned Dir.
Proof. intros H Hd. destruct n; try discriminate. exact H. Qed.

Section WalkerFacts.

Variable ignores : list string -> string -> bool.
Variable relative : string -> string -> string.
Variable w : World.
Variable patterns : list string.
Variable root : string.

Lemma reached_grows (found found' : list string) (d : string) :
  incl found found' ->
  reached ignores relative w patterns root found d ->
  reached ignores relative w patterns root found' d.
Proof.
  intros Hi [->|(parent & item & Hp & H)]; [now left|].
  right. exists parent, item. split; [now apply Hi|exact H].
Qed.

Lemma visit_cases rec dir item rest acc r :
  visit ignores relative rec w patterns root dir (item :: rest) acc = Some r ->
  (kept ignores relative patterns root dir item = false
   /\ visit ignores relative rec w patterns root dir rest acc = Some r)
  \/ (kept ignores relative patterns root dir item = true
      /\ ((exists e, FS.stat w dir item = Thrown e /\ r = acc)
          \/ (exists n, FS.stat w dir item = Returned n
                /\ FS.isDirectory n = false
                /\ visit ignores relative rec w patterns root dir rest acc = Some r)
          \/ (exists r1, FS.stat w dir item = Returned Dir
                /\ rec (path.join dir item) acc = Some r1
                /\ visit ignores relative rec w patterns root dir rest r1 = Some r))).
Proof.
  unfold kept. cbn [visit].
  destruct (JS.startsWith item "."); cbn [negb andb]; [now left|].
  destruct (ignores patterns (relative root (path.join dir item)));
    cbn [negb]; [now left|].
  intros H. right. split; [reflexivity|].
  destruct (FS.stat w dir item) as [n|e] eqn:Hs.
  - destruct (FS.isDirectory n) eqn:Hd.
    + right. right.
      destruct (rec (path.join dir item) acc) as [r1|] eqn:Hr; [|discriminate].
      exists r1. split; [|now split].
      destruct n; try discriminate. reflexivity.
    + right. left. exists n. now repeat split.
  - left. exists e. split; [reflexivity|]. now injection H as <-.
Qed.

Lemma visit_shape rec dir :
  shapes ignores relative w patterns root rec ->
  forall items acc r,
    visit ignores relative rec w patterns root dir items acc = Some r ->
    tidy ignores relative w patterns root acc -> In dir acc ->
    tidy ignores relative w patterns root r /\ exists tail, r = acc ++ tail.
Proof.
  intros Hrec. induction items as [|item rest IH]; intros acc r H Ht Hin.
  - injection H as <-. split; [assumption|]. exists []. now rewrite app_nil_r.
  - apply visit_cases in H
      as [[_ H]|[Hk [(e & _ & ->)|[(n & _ & _ & H)|(r1 & Hs & Hr & H)]]]].
    + now apply IH.
    + split; [assumption|]. exists []. now rewrite app_nil_r.
    + now apply IH.
    + destruct (Hrec _ _ _ Hr Ht) as (Ht1 & tail1 & E1).
      { right. exists dir, item. now repeat split. }
      destruct (set_add_extends (path.join dir item) acc) as [t0 E0].
      rewrite E0 in E1.
      destruct (IH r1 r H Ht1) as (Htr & tail & E).
      { rewrite E1. rewrite !in_app_iff. tauto. }
      split; [assumption|]. exists (t0 ++ tail1 ++ tail).
      rewrite E, E1. now rewrite <- !app_assoc.
Qed.

Lemma walk_shape (fuel : nat) :
  shapes ignores relative w patterns root
    (walk ignores relative fuel w patterns root).
Proof.
  induction fuel as [|fuel IH]; intros dir acc r H Ht Hd; [discriminate|].
  cbn [walk] in H.
  assert (Ht' : tidy ignores relative w patterns root (set_add dir acc)).
  { destruct Ht as [Hnd Hr]. split; [now apply set_add_NoDup|].
    destruct (set_add_extends dir acc) as [t0 E0].
    assert (Hi : incl acc (set_add dir acc))
      by (rewrite E0; intros x Hx; apply in_app_iff; now left).
    intros d Hin. apply (reached_grows acc); [assumption|].
    apply set_add_inv in Hin as [->|Hin]; [assumption|now apply Hr]. }
  destruct (FS.readdir w dir) as [items|e].
  - destruct (visit_shape _ dir IH items _ r H Ht' (set_add_In _ _))
      as (Htr & tail & E).
    split; [assumption|now exists tail].
  - injection H as <-. split; [assumption|]. exists []. now rewrite app_nil_r.
Qed.

Lemma visit_mono rec1 rec2 dir :
  (forall d acc r, rec1 d acc = Some r -> rec2 d acc = Some r) ->
  forall items acc r,
    visit ignores relative rec1 w patterns root dir items acc = Some r ->
    visit ignores relative rec2 w patterns root dir items acc = Some r.
Proof.
  intros Hrec.
  induction items as [|item rest IH]; intros acc r; cbn [visit]; [tauto|].
  destruct (JS.startsWith item "."); [apply IH|].
  destruct (ignores patterns (relative root (path.join dir item))); [apply IH|].
  destruct (FS.stat w dir item) as [n|e]; [|tauto].
  destruct (FS.isDirectory n); [|apply IH].
  destruct (rec1 (path.join dir item) acc) as [r1|] eqn:E; [|discriminate].
  rewrite (Hrec _ _ _ E). apply IH.
Qed.

Lemma walk_mono (fuel : nat) : forall fuel' dir acc r,
  (fuel <= fuel')%nat ->
  walk ignores relative fuel w patterns root dir acc = Some r ->
  walk ignores relative fuel' w patterns root dir acc = Some r.
Proof.
  induction fuel as [|fuel IH]; intros fuel' dir acc r Hle H; [discriminate|].
  destruct fuel' as [|fuel']; [lia|].
  cbn [walk] in *.
  destruct (FS.readdir w dir) as [items|e]; [|assumption].
  revert H. apply visit_mono. intros d a r'. apply IH. lia.
Qed.

Lemma visit_ends rec dir :
  forall items,
    (forall item acc, In item items -> FS.stat w dir item = Returned Dir ->
       exists r, rec (path.join dir item) acc = Some r) ->
    forall acc, exists r,
      visit ignores relative rec w patterns root dir items acc = Some r.
Proof.
  induction items as [|item rest IH]; intros Hrec acc;
    cbn [visit]; [now exists acc|].
  assert (Hrest : forall acc, exists r,
            visit ignores relative rec w patterns root dir rest acc = Some r).
  { apply IH. intros i a Hi. apply Hrec. now right. }
  destruct (JS.startsWith item "."); [apply Hrest|].
  destruct (ignores patterns (relative root (path.join dir item)));
    [apply Hrest|].
  destruct (FS.stat w dir item) as [n|e] eqn:Hs; [|now exists acc].
  destruct (FS.isDirectory n) eqn:Hd; [|apply Hrest].
  destruct (Hrec item acc (or_introl eq_refl) (stat_directory _ _ _ _ Hs Hd))
    as [r1 ->].
  apply Hrest.
Qed.

Lemma walk_ends (bound : nat) :
  well_nested w bound ->
  forall fuel dir acc,
    (match tree w !! dir with
     | Some _ => bound + 2 - String.length dir
     | None => 1
     end <= fuel)%nat ->
    exists r, walk ignores relative fuel w patterns root dir acc = Some r.
Proof.
  intros Hw. induction fuel as [|fuel IH]; intros dir acc Hm.
  - exfalso. destruct (tree w !! dir) as [entries|] eqn:E; [|lia].
    pose proof (map_Forall_lookup_1 _ _ _ _ Hw E) as Hd. cbn beta in Hd.
    unfold deepens in Hd. apply andb_true_iff in Hd as [Hd _].
    apply Nat.leb_le in Hd. lia.
  - cbn [walk]. unfold FS.readdir.
    destruct (tree w !! dir) as [entries|] eqn:E; [|now eexists].
    pose proof (map_Forall_lookup_1 _ _ _ _ Hw E) as Hd. cbn beta in Hd.
    unfold deepens in Hd. apply andb_true_iff in Hd as [Hlen Hsub].
    apply Nat.leb_le in Hlen.
    apply (visit_ends (walk ignores relative fuel w patterns root) dir).
    intros item a _ Hs. apply IH.
    assert (Hlt : (String.length dir < String.length (path.join dir item))%nat).
    { unfold FS.stat, FS.lookup_child in Hs. rewrite E in Hs.
      destruct (assoc item entries) as [n|] eqn:Ha; [|discriminate].
      assert (n = Dir) as -> by (destruct n; congruence).
      apply assoc_Some_In in Ha.
      rewrite forallb_forall in Hsub. specialize (Hsub _ Ha).
      cbn [fst snd FS.isDirectory negb orb] in Hsub.
      now apply Nat.ltb_lt in Hsub. }
    destruct (tree w !! path.join dir item); lia.
Qed.

Lemma closed_grows (found found' : list string) (p : string) :
  incl found found' ->
  closed ignores relative w patterns root found p ->
  closed ignores relative w patterns root found' p.
Proof.
  intros Hi Hc items Hr Hs item Hk Hd. apply Hi. now apply (Hc items).
Qed.

Lemma visit_complete rec dir :
  completes ignores relative w patterns root rec ->
  forall items acc r,
    visit ignores relative rec w patterns root dir items acc = Some r ->
    incl acc r
    /\ (forall p, In p r -> In p acc \/ closed ignores relative w patterns root r p)
    /\ ((forall i e, In i items -> kept ignores relative patterns root dir i = true ->
           FS.stat w dir i <> Thrown e) ->
        forall item, In item items ->
          kept ignores relative patterns root dir item = true ->
          FS.stat w dir item = Returned Dir -> In (path.join dir item) r).
Proof.
  intros Hrec. induction items as [|item rest IH]; intros acc r H.
  - injection H as <-. split; [easy|]. split; [tauto|]. intros _ i [].
  - apply visit_cases in H
      as [[Hk H]|[Hk [(e & Hs & ->)|[(n & Hs & Hn & H)|(r1 & Hs & Hr & H)]]]].
    + destruct (IH _ _ H) as (Hi & Hp & Hall). split; [assumption|].
      split; [assumption|].
      intros Hok i [<-|Hin] Hki Hsi; [congruence|].
      apply Hall; try assumption. intros j e Hj. apply Hok. now right.
    + split; [easy|]. split; [tauto|].
      intros Hok. exfalso. apply (Hok item e); [now left|assumption|assumption].
    + destruct (IH _ _ H) as (Hi & Hp & Hall). split; [assumption|].
      split; [assumption|].
      intros Hok i [<-|Hin] Hki Hsi.
      * rewrite Hs in Hsi. injection Hsi as ->. discriminate.
      * apply Hall; try assumption. intros j e Hj. apply Hok. now right.
    + destruct (Hrec _ _ _ Hr) as (Hi1 & Hin1 & Hc1 & Hp1).
      destruct (IH _ _ H) as (Hi & Hp & Hall).
      split; [intros x Hx; apply Hi, Hi1, Hx|].
      split.
      * intros p Hpr. destruct (Hp p Hpr) as [Hin|Hc]; [|now right].
        destruct (Hp1 p Hin) as [Ha|Hc]; [now left|right].
        now apply (closed_grows r1).
      * intros Hok i [<-|Hin] Hki Hsi; [now apply Hi|].
        apply Hall; try assumption. intros j e Hj. apply Hok. now right.
Qed.

Lemma walk_complete (fuel : nat) :
  completes ignores relative w patterns root
    (walk ignores relative fuel w patterns root).
Proof.
  induction fuel as [|fuel IH]; intros dir acc r H; [discriminate|].
  cbn [walk] in H.
  destruct (set_add_extends dir acc) as [t0 E0].
  assert (Hi0 : incl acc (set_add dir acc))
    by (rewrite E0; intros x Hx; apply in_app_iff; now left).
  destruct (FS.readdir w dir) as [items|e] eqn:Hr.
  - destruct (visit_complete _ dir IH items _ r H) as (Hi & Hp & Hall).
    assert (Hc : closed ignores relative w patterns root r dir).
    { intros items' Hr' Hok item Hk Hs.
      rewrite Hr in Hr'. injection Hr' as <-.
      apply Hall; try assumption.
      unfold FS.readdir in Hr. unfold FS.stat, FS.lookup_child in Hs.
      destruct (tree w !! dir) as [entries|]; [|discriminate].
      injection Hr as <-.
      destruct (assoc item entries) as [n|] eqn:Ha; [|discriminate].
      apply assoc_Some_In in Ha. apply in_map_iff. now exists (item, n). }
    split; [intros x Hx; apply Hi, Hi0, Hx|].
    split; [apply Hi, set_add_In|]. split; [assumption|].
    intros p Hpr. destruct (Hp p Hpr) as [Hin|Hcp]; [|now right].
    apply set_add_inv in Hin as [->|Hin]; [now right|now left].
  - injection H as <-. split; [assumption|]. split; [apply set_add_In|].
    assert (Hc : closed ignores relative w patterns root (set_add dir acc) dir)
      by (intros items Hr'; congruence).
    split; [assumption|].
    intros p Hp. apply set_add_inv in Hp as [->|Hp]; [now right|now left].
Qed.

End WalkerFacts.

Lemma getDirectories_root ignores relative fuel w patterns root dirs :
  getDirectories ignores relative fuel w patterns root = Some dirs ->
  In root dirs.
Proof.
  intros H. unfold getDirectories in H.
  destruct (walk_complete ignores relative w patterns root fuel root [] dirs H)
    as (_ & Hin & _).
  exact Hin.
Qed.

(** X18: the directories [getDirectories] returns start with the project
    root and hold no directory twice; every other one is the path of an
    item of a returned directory, an item whose name starts with no dot,
    whose path relative to the root is not ignored, and on which [fs.stat]
    reports a directory. *)
Theorem getDirectories_shape ignores relative fuel w patterns root dirs :
  getDirectories ignores relative fuel w patterns root = Some dirs ->
  head dirs = Some root
  /\ List.NoDup dirs
  /\ forall d, In d dirs -> reached ignores relative w patterns root dirs d.
Proof.
  intros H. unfold getDirectories in H.
  destruct (walk_shape ignores relative w patterns root fuel root [] dirs H)
    as ((Hnd & Hr) & tail & E).
  - split; [constructor|]. intros d [].
  - now left.
  - split; [now rewrite E|]. now split.
Qed.

Lemma getDirectories_shape_witness :
  exists dirs,
    walkWithDefaults 5 nested_world "/proj" = Some dirs
    /\ head dirs = Some "/proj" /\ List.NoDup dirs.
Proof.
  assert (H : exists dirs, walkWithDefaults 5 nested_world "/proj" = Some dirs)
    by (vm_compute; eexists; reflexivity).
  destruct H as [dirs H]. exists dirs. split; [exact H|].
  destruct (getDirectories_shape _ _ _ _ _ _ _ H) as (Hh & Hnd & _).
  now split.
Defined.

(** X19: in a tree where the path of a subdirectory is longer than its
    parent's and no path of a listed directory is longer than [bound], the
    walk comes to its end, and with the same directories for every budget
    from [bound + 2] on. *)
Theorem getDirectories_terminates ignores relative w patterns root bound :
  well_nested w bound ->
  exists dirs, forall fuel,
    (bound + 2 <= fuel)%nat ->
    getDirectories ignores relative fuel w patterns root = Some dirs.
Proof.
  intros Hw.
  destruct (walk_ends ignores relative w patterns root bound Hw
              (bound + 2) root []) as [dirs H].
  { destruct (tree w !! root); lia. }
  exists dirs. intros fuel Hle. unfold getDirectories.
  now apply (walk_mono ignores relative w patterns root (bound + 2)).
Qed.

Lemma getDirectories_terminates_witness :
  exists dirs, forall fuel,
    (22 <= fuel)%nat -> walkWithDefaults fuel nested_world "/proj" = Some dirs.
Proof.
  apply (getDirectories_terminates ignores_path path_relative nested_world
           defaultIgnorePatterns "/proj" 20).
  unfold well_nested. refine (bool_decide_unpack _ _). vm_compute. exact I.
Defined.

(** X20: the result is closed under kept subdirectories: when a returned
    directory can be listed and [fs.stat] fails on none of its kept items,
    each of its kept items that is a directory is returned too. *)
Theorem getDirectories_complete ignores relative fuel w patterns root dirs
    parent items item :
  getDirectories ignores relative fuel w patterns root = Some dirs ->
  In parent dirs ->
  FS.readdir w parent = Returned items ->
  (forall i e, In i items ->
     kept ignores relative patterns root parent i = true ->
     FS.stat w parent i <> Thrown e) ->
  kept ignores relative patterns root parent item = true ->
  FS.stat w parent item = Returned Dir ->
  In (path.join parent item) dirs.
Proof.
  intros H Hin Hr Hok Hk Hs. unfold getDirectories in H.
  destruct (walk_complete ignores relative w patterns root fuel root [] dirs H)
    as (_ & _ & _ & Hp).
  destruct (Hp parent Hin) as [[]|Hc].
  now apply (Hc items).
Qed.

Lemma getDirectories_complete_witness :
  exists dirs,
    walkWithDefaults 5 nested_world "/proj" = Some dirs
    /\ In "/proj/src/lib" dirs.
Proof.
  assert (H : exists dirs, walkWithDefaults 5 nested_world "/proj" = Some dirs)
    by (vm_compute; eexists; reflexivity).
  destruct H as [dirs H]. exists dirs. split; [exact H|].
  assert (Hsrc : In (path.join "/proj" "src") dirs).
  { apply (getDirectories_complete _ _ _ _ _ _ _ "/proj"
             [".git"; "node_modules"; "src"; "README.md"] "src" H).
    - exact (getDirectories_root _ _ _ _ _ _ _ H).
    - vm_compute. reflexivity.
    - intros i e [<-|[<-|[<-|[<-|[]]]]]; vm_compute; discriminate.
    - vm_compute. reflexivity.
    - vm_compute. reflexivity. }
  apply (getDirectories_complete _ _ _ _ _ _ _ "/proj/src"
           ["lib"; "index.ts"] "lib" H).
  - exact Hsrc.
  - vm_compute. reflexivity.
  - intros i e [<-|[<-|[]]]; vm_compute; discriminate.
  - vm_compute. reflexivity.
  - vm_compute. reflexivity.
Defined.

Lemma analyzeDirectory_unlistable ignores gen w d config e :
  FS.readdir w d = Thrown e ->
  analyzeDirectory ignores gen w d config = Thrown e.
Proof.
  intros H. unfold analyzeDirectory, buildAnalysis. now rewrite H.
Qed.

Lemma readdir_frame (w w' : World) (d : string) :
  tree w' !! d = tree w !! d -> FS.readdir w' d = FS.readdir w d.
Proof. intros H. unfold FS.readdir. now rewrite H. Qed.

Lemma analyzeEach_unlistable ignores gen config d e (dirs : list string) :
  forall w,
    In d dirs -> FS.readdir w d = Thrown e ->
    exists e', analyzeEach ignores gen w config dirs = Thrown e'.
Proof.
  induction dirs as [|dir rest IH]; intros w Hin Hd; [contradiction|].
  cbn [analyzeEach].
  destruct (analyzeDirectory ignores gen w dir config) as [[a w1]|e1] eqn:E;
    cbn [bind snd]; [|now exists e1].
  destruct (string_dec d dir) as [->|Hne].
  - rewrite (analyzeDirectory_unlistable _ _ _ _ _ _ Hd) in E. discriminate.
  - destruct Hin as [->|Hin]; [congruence|].
    apply IH; [assumption|].
    destruct (analyzeDirectory_frame _ _ _ _ _ _ _ E) as (Ht & _).
    rewrite (readdir_frame w w1 d (Ht d Hne)). exact Hd.
Qed.

(** X21: a directory the walk could not list is still among the
    directories [analyzeProject] analyses, and ends it with an error. *)
Theorem analyzeProject_unlistable ignores relative gen fuel w root config
    dirs d e :
  getDirectories ignores relative fuel w (ignorePatterns config) root
  = Some dirs ->
  In d dirs ->
  FS.readdir w d = Thrown e ->
  exists e', analyzeProject ignores relative gen fuel w root config
             = Some (Thrown e').
Proof.
  intros H Hin Hd. unfold analyzeProject. rewrite H.
  destruct (analyzeEach_unlistable ignores gen config d e dirs w Hin Hd)
    as [e' ->].
  now exists e'.
Qed.

Lemma analyzeProject_unlistable_witness :
  exists e',
    analyzeProject ignores_path path_relative
      Documentation.generateDocumentation 5 locked_world "/proj"
      (defaultConfig quick)
    = Some (Thrown e').
Proof.
  apply (analyzeProject_unlistable ignores_path path_relative
           Documentation.generateDocumentation 5 locked_world "/proj"
           (defaultConfig quick) ["/proj"; "/proj/src"; "/proj/locked"]
           "/proj/locked" (ENOENT "/proj/locked")).
  - vm_compute. reflexivity.
  - simpl. tauto.
  - vm_compute. reflexivity.
Defined.

(** X22: when [analyzeProject] returns, the project root and every
    directory of the walk hold a [claude.md]; the listing of no other
    directory has changed, and no child other than a [claude.md] has. *)
Theorem analyzeProject_documents ignores relative gen fuel w root config w' :
  analyzeProject ignores relative gen fuel w root config = Some (Returned w') ->
  exists dirs,
    getDirectories ignores relative fuel w (ignorePatterns config) root
    = Some dirs
    /\ documented w' root
    /\ (forall d, In d dirs -> documented w' d)
    /\ (forall d, ~ In d dirs -> tree w' !! d = tree w !! d)
    /\ (forall d c, c <> "claude.md" ->
          FS.lookup_child w' d c = FS.lookup_child w d c).
Proof.
  unfold analyzeProject.
  destruct (getDirectories ignores relative fuel w (ignorePatterns config) root)
    as [dirs|] eqn:E; [|discriminate].
  intros [= H]. exists dirs. split; [reflexivity|].
  destruct (analyzeEach_frame _ _ _ _ _ _ H) as (Ht & Hc & _ & Hd & _).
  pose proof (getDirectories_root ignores relative fuel w
                (ignorePatterns config) root dirs E) as Hroot.
  split; [now apply Hd|]. now repeat split.
Qed.

Lemma analyzeProject_documents_witness :
  exists w' dirs,
    analyzeProject ignores_path path_relative
      Documentation.generateDocumentation 5 nested_world "/proj"
      (defaultConfig quick)
    = Some (Returned w')
    /\ walkWithDefaults 5 nested_world "/proj" = Some dirs
    /\ documented w' "/proj".
Proof.
  assert (H : exists w',
             analyzeProject ignores_path path_relative
               Documentation.generateDocumentation 5 nested_world "/proj"
               (defaultConfig quick)
             = Some (Returned w'))
    by (vm_compute; eexists; reflexivity).
  destruct H as [w' H]. exists w'.
  destruct (analyzeProject_documents _ _ _ _ _ _ _ _ H)
    as (dirs & Hd & Hroot & _).
  exists dirs. now repeat split.
Defined.

(** * Further properties: what the mode of analysis can change *)

Lemma insert_sorted_undescribed (x : FileAnalysis) (l : list FileAnalysis) :
  map undescribed (insert_sorted by_importance x l)
  = insert_sorted by_importance (undescribed x) (map undescribed l).
Proof.
  induction l as [|y l IH]; [reflexivity|].
  simpl. change (by_importance (undescribed x) (undescribed y))
    with (by_importance x y).
  destruct (by_importance x y <=? 0)%Z; simpl; [reflexivity|now rewrite IH].
Qed.

Lemma sort_undescribed (l : list FileAnalysis) :
  map undescribed (sort by_importance l)
  = sort by_importance (map undescribed l).
Proof.
  induction l as [|x l IH]; [reflexivity|].
  simpl. now rewrite insert_sorted_undescribed, IH.
Qed.

Lemma rankKeyFiles_undescribed (l1 l2 : list FileAnalysis) :
  map undescribed l1 = map undescribed l2 ->
  map undescribed (rankKeyFiles l1) = map undescribed (rankKeyFiles l2).
Proof.
  intros H. unfold rankKeyFiles.
  now rewrite <- !List.firstn_map, !sort_undescribed, H.
Qed.

Lemma analyzeFile_text_only w1 w2 c1 c2 ai1 ai2 dir file acc1 acc2 :
  tree w1 = tree w2 -> same_files acc1 acc2 ->
  alike same_files (analyzeFile w1 c1 ai1 dir acc1 file)
    (analyzeFile w2 c2 ai2 dir acc2 file).
Proof.
  intros Ht (Hf & Hd & Hp). unfold analyzeFile, FS.stat, FS.readFile, FS.lookup_child.
  rewrite Ht. destruct (tree w2 !! dir) as [entries|]; [|reflexivity].
  destruct (assoc file entries) as [[content t| |]|]; cbn [bind FS.isFile alike];
    try reflexivity; try (now repeat split).
  destruct (parseSourceFile (path.join dir file) _) as [parsed|]; cbn [alike].
  - unfold same_files, enrich. cbn [fileAnalyses allDependencies parsedFiles fst snd].
    rewrite !List.map_app, Hf, Hd, Hp. now repeat split.
  - unfold same_files. cbn [fileAnalyses allDependencies parsedFiles].
    rewrite !List.map_app, Hf. now repeat split.
Qed.

Lemma analyzeFiles_text_only w1 w2 c1 c2 ai1 ai2 dir (files : list string) :
  tree w1 = tree w2 ->
  forall acc1 acc2,
    same_files acc1 acc2 ->
    alike same_files (analyzeFiles w1 c1 ai1 dir acc1 files)
      (analyzeFiles w2 c2 ai2 dir acc2 files).
Proof.
  intros Ht. induction files as [|file rest IH]; intros acc1 acc2 Hs;
    cbn [analyzeFiles]; [exact Hs|].
  pose proof (analyzeFile_text_only w1 w2 c1 c2 ai1 ai2 dir file acc1 acc2 Ht Hs)
    as H.
  destruct (analyzeFile w1 c1 ai1 dir acc1 file) as [s1|e1];
    destruct (analyzeFile w2 c2 ai2 dir acc2 file) as [s2|e2];
    cbn [alike bind] in *; try contradiction; [now apply IH|exact H].
Qed.

(** X23: the mode of analysis and the AI service change texts only: two
    analyses of the same tree under the same ignore patterns end alike,
    and when they return, their records have the same path, the same key
    files up to the descriptions, the same dependencies and the same
    recent changes. *)
Theorem mode_changes_text_only ignores w1 w2 dir c1 c2 :
  tree w1 = tree w2 -> git_log w1 = git_log w2 ->
  ignorePatterns c1 = ignorePatterns c2 ->
  alike same_structure (buildAnalysis ignores w1 dir c1)
    (buildAnalysis ignores w2 dir c2).
Proof.
  intros Ht Hg Hi. unfold buildAnalysis, FS.readdir, filterFiles.
  rewrite Ht, Hi.
  destruct (tree w2 !! dir) as [entries|]; cbn [bind alike]; [|reflexivity].
  match goal with
  | |- context [analyzeFiles w1 c1 ?ai1 dir empty_scan ?files] =>
      match goal with
      | |- context [analyzeFiles w2 c2 ?ai2 dir empty_scan files] =>
          pose proof (analyzeFiles_text_only w1 w2 c1 c2 ai1 ai2 dir files Ht
                        empty_scan empty_scan
                        (conj eq_refl (conj eq_refl eq_refl))) as H;
          destruct (analyzeFiles w1 c1 ai1 dir empty_scan files) as [s1|e1];
          destruct (analyzeFiles w2 c2 ai2 dir empty_scan files) as [s2|e2]
      end
  end; cbn [alike bind] in *; try contradiction; [|exact H].
  destruct H as (Hf & Hd & _).
  unfold same_structure. cbn [da_path keyFiles dependencies recentChanges].
  split; [reflexivity|]. split; [now apply rankKeyFiles_undescribed|].
  split; [exact Hd|]. now apply collectRecentChanges_same_tree.
Qed.

Lemma mode_changes_text_only_witness :
  alike same_structure
    (buildAnalysis Ignore.ignores ranking_world "/proj/lib" (defaultConfig quick))
    (buildAnalysis Ignore.ignores
       (with_client ranking_world (Some chatty_service)) "/proj/lib"
       (defaultConfig deep)).
Proof.
  apply (mode_changes_text_only Ignore.ignores ranking_world
           (with_client ranking_world (Some chatty_service)) "/proj/lib"
           (defaultConfig quick) (defaultConfig deep)); reflexivity.
Defined.

(** * Further properties: the document read back *)

Lemma analyzeDirectory_document ignores gen w dir config a w' :
  analyzeDirectory ignores gen w dir config = Returned (a, w') ->
  FS.lookup_child w' dir "claude.md" = Some (File (Some (gen a config)) (now w)).
Proof.
  intros H. apply analyzeDirectory_inv in H as [_ Hw].
  apply writeFile_inv in Hw as (entries & Hdir & _ & ->).
  apply written_child.
Qed.

(** X24: the directory view shows the document of the last analysis: after
    [analyzeDirectory] has returned a record, [generateDirectoryContext]
    on the same directory returns the heading, the document rendered from
    that record, unchanged, and the file tree. *)
Theorem context_shows_document ignores gen w dir config a w' structure :
  analyzeDirectory ignores gen w dir config = Returned (a, w') ->
  getFileStructure w' dir 2 = Returned structure ->
  generateDirectoryContext w' dir
  = Returned ("# Context for " +:+ path.basename dir +:+ nl +:+ nl +:+
              gen a config +:+ nl +:+ nl +:+ "## File Structure" +:+ nl +:+
              structure +:+ nl).
Proof.
  intros H Hs. apply analyzeDirectory_document in H.
  unfold generateDirectoryContext, FS.pathExists, readFileOrThrow, FS.readFile.
  rewrite H. cbn [bind]. rewrite Hs. reflexivity.
Qed.

Lemma context_shows_document_witness :
  exists a w' structure,
    analyzeWithDefaults fresh_world "/proj/feature" = Returned (a, w')
    /\ generateDirectoryContext w' "/proj/feature"
       = Returned ("# Context for feature" +:+ nl +:+ nl +:+
                   Documentation.generateDocumentation a (defaultConfig smart)
                   +:+ nl +:+ nl +:+ "## File Structure" +:+ nl +:+
                   structure +:+ nl).
Proof.
  assert (H : exists r, analyzeWithDefaults fresh_world "/proj/feature" = Returned r)
    by (vm_compute; eexists; reflexivity).
  destruct H as [[a w'] H].
  assert (Hs : exists s, getFileStructure w' "/proj/feature" 2 = Returned s).
  { revert H. unfold analyzeWithDefaults. intros H.
    apply analyzeDirectory_inv in H as [_ Hw].
    apply writeFile_inv in Hw as (entries & Hdir & _ & ->).
    injection Hdir as <-. vm_compute. eexists. reflexivity. }
  destruct Hs as [structure Hs].
  exists a, w', structure. split; [exact H|].
  exact (context_shows_document _ _ _ _ _ _ _ _ H Hs).
Defined.

(** * Further properties: the imports *)

Lemma import_of_match_well_formed (m : string * Regex.caps) :
  List.Forall well_formed_import (import_of_match m).
Proof.
  unfold import_of_match.
  destruct (JS.truthy (Regex.cap_str 1 (snd m)));
    [repeat constructor|].
  destruct (JS.truthy (Regex.cap_str 2 (snd m)));
    [repeat constructor|].
  destruct (JS.truthy (Regex.cap_str 3 (snd m))); [|constructor].
  constructor; [|constructor]. unfold well_formed_import. cbn [imp_type specifiers].
  apply List.Forall_forall. intros s Hs. apply List.filter_In in Hs as [_ Hs].
  now destruct s.
Qed.

Lemma add_default_import_cases (acc : list ImportInfo) (m : string * Regex.caps) :
  (add_default_import acc m = acc
   /\ exists imp, In imp acc /\ default_from (Regex.cap_str 2 (snd m)) imp)
  \/ add_default_import acc m
     = acc ++ [ {| source := Regex.cap_str 2 (snd m);
                   specifiers := [Regex.cap_str 1 (snd m)];
                   imp_type := imp_default |} ].
Proof.
  unfold add_default_import.
  destruct (existsb (is_default_import_of (Regex.cap_str 2 (snd m))) acc) eqn:E;
    [left|now right].
  split; [reflexivity|].
  apply existsb_exists in E as (imp & Hin & H). exists imp. split; [exact Hin|].
  unfold is_default_import_of in H. apply andb_true_iff in H as [Hs Ht].
  apply String.eqb_eq in Hs. split; [exact Hs|].
  now destruct (imp_type imp).
Qed.

Lemma fold_default_imports (ms : list (string * Regex.caps)) : forall acc,
  exists extra,
    fold_left add_default_import ms acc = acc ++ extra
    /\ List.Forall (fun imp => imp_type imp = imp_default
                             /\ length (specifiers imp) = 1%nat) extra
    /\ (forall m, In m ms ->
          exists imp, In imp (acc ++ extra)
            /\ default_from (Regex.cap_str 2 (snd m)) imp).
Proof.
  induction ms as [|m ms IH]; intros acc; cbn [fold_left].
  - exists []. rewrite app_nil_r. repeat split; [constructor|]. intros m [].
  - destruct (add_default_import_cases acc m) as [[E (i1 & Hin1 & Hd1)]|E];
      rewrite E; clear E.
    + destruct (IH acc) as (extra & -> & Hf & Hall).
      exists extra. repeat split; try assumption.
      intros m' [<-|Hm']; [|now apply Hall].
      exists i1. rewrite in_app_iff. split; [now left|exact Hd1].
    + set (new := {| source := Regex.cap_str 2 (snd m);
                     specifiers := [Regex.cap_str 1 (snd m)];
                     imp_type := imp_default |}).
      destruct (IH (acc ++ [new])) as (extra & -> & Hf & Hall).
      exists (new :: extra). rewrite <- app_assoc. split; [reflexivity|].
      split; [constructor; [now split|exact Hf]|].
      intros m' [<-|Hm'].
      * exists new. rewrite in_app_iff. split; [right; now left|now split].
      * destruct (Hall m' Hm') as (imp & Hin & Hd).
        exists imp. split; [|exact Hd]. now rewrite <- app_assoc in Hin.
Qed.

(** X25: [parseImports] lists the imports of the first expression first, in
    the order of the text, then default imports only; every entry is well
    formed (one binding for a namespace or default import, no empty name
    in a named import), and for every match of the expression for default
    imports the result holds a default import from the source of the
    match. *)
Theorem parseImports_shape (content : string) :
  exists extra,
    parseImports content
    = concat (map import_of_match (Regex.matchAll Patterns.importRegex content))
      ++ extra
    /\ List.Forall (fun imp => imp_type imp = imp_default) extra
    /\ List.Forall well_formed_import (parseImports content)
    /\ (forall m, In m (Regex.matchAll Patterns.defaultImportRegex content) ->
          exists imp, In imp (parseImports content)
            /\ default_from (Regex.cap_str 2 (snd m)) imp).
Proof.
  unfold parseImports.
  destruct (fold_default_imports
              (Regex.matchAll Patterns.defaultImportRegex content)
              (concat (map import_of_match
                         (Regex.matchAll Patterns.importRegex content))))
    as (extra & -> & Hf & Hall).
  exists extra. split; [reflexivity|].
  split; [revert Hf; apply List.Forall_impl; tauto|].
  split; [|exact Hall].
  apply List.Forall_app. split.
  - apply List.Forall_forall. intros imp Hin.
    apply in_concat in Hin as (l & Hl & Hin).
    apply in_map_iff in Hl as (m & <- & _).
    pose proof (import_of_match_well_formed m) as Hm.
    rewrite List.Forall_forall in Hm. now apply Hm.
  - revert Hf. apply List.Forall_impl. intros imp [Ht Hl].
    unfold well_formed_import. now rewrite Ht.
Qed.

(** * Further properties: the nearest repository *)

Lemma ancestor_fixed (k : nat) (p : string) :
  p = path.dirname p -> ancestor k p = p.
Proof.
  intros E. unfold ancestor. induction k as [|k IH]; [reflexivity|].
  rewrite Nat.iter_succ, IH. now symmetry.
Qed.

Lemma ancestor_succ (k : nat) (p : string) :
  ancestor (S k) p = ancestor k (path.dirname p).
Proof. unfold ancestor. now rewrite Nat.iter_succ_r. Qed.

Lemma climb_positive (p : string) : (1 <= climb p)%nat.
Proof. unfold climb. destruct (String.eqb p "."); lia. Qed.

Lemma findGitRoot_reaches (w : World) (k : nat) : forall fuel gitRoot,
  (climb gitRoot <= fuel)%nat ->
  (forall j, (j < k)%nat ->
     FS.pathExists w (ancestor j gitRoot) ".git" = false) ->
  FS.pathExists w (ancestor k gitRoot) ".git" = true ->
  findGitRoot fuel w gitRoot = ancestor k gitRoot.
Proof.
  induction k as [|k IH]; intros fuel gitRoot Hf Hbelow Hk.
  - destruct fuel as [|fuel]; [pose proof (climb_positive gitRoot); lia|].
    cbn [findGitRoot]. change (ancestor 0 gitRoot) with gitRoot in *.
    rewrite Hk. now destruct (String.eqb gitRoot (path.dirname gitRoot)).
  - destruct fuel as [|fuel]; [pose proof (climb_positive gitRoot); lia|].
    cbn [findGitRoot].
    pose proof (Hbelow 0%nat ltac:(lia)) as H0.
    change (ancestor 0 gitRoot) with gitRoot in H0.
    destruct (String.eqb_spec gitRoot (path.dirname gitRoot)) as [E|Hne].
    + rewrite (ancestor_fixed (S k) gitRoot E) in Hk. congruence.
    + rewrite H0, ancestor_succ. apply IH.
      * assert (path.dirname gitRoot <> gitRoot) as Hne' by congruence.
        apply climb_decreases in Hne'. lia.
      * intros j Hj. rewrite <- ancestor_succ. apply Hbelow. lia.
      * now rewrite <- ancestor_succ.
Qed.

(** X26: the recent changes are the five latest commits of the nearest
    repository: when the directory [k] levels up holds a [.git] entry and
    no directory between holds one, the changes of the record are made
    from the first five commits git reports there. *)
Theorem recentChanges_nearest_repository ignores w dir config a k :
  buildAnalysis ignores w dir config = Returned a ->
  (forall j, (j < k)%nat -> FS.pathExists w (ancestor j dir) ".git" = false) ->
  FS.pathExists w (ancestor k dir) ".git" = true ->
  recentChanges a
  = map change_of_commit (getRecentCommits w (ancestor k dir) 5).
Proof.
  intros H Hbelow Hk.
  apply buildAnalysis_inv in H as (_ & _ & _ & _ & _ & Hr & _).
  rewrite Hr. unfold collectRecentChanges.
  rewrite (findGitRoot_reaches w k _ dir); try assumption.
  - now rewrite Hk.
  - unfold climb. destruct (String.eqb dir "."); lia.
Qed.

Lemma recentChanges_nearest_repository_witness :
  exists a,
    buildAnalysis Ignore.ignores git_world "/proj/src/lib" (defaultConfig quick)
    = Returned a
    /\ recentChanges a = map change_of_commit (map sample_commit (seq 1 5)).
Proof.
  assert (H : exists a,
             buildAnalysis Ignore.ignores git_world "/proj/src/lib"
               (defaultConfig quick) = Returned a)
    by (vm_compute; eexists; reflexivity).
  destruct H as [a H]. exists a. split; [exact H|].
  rewrite (recentChanges_nearest_repository _ _ _ _ _ 2 H).
  - reflexivity.
  - intros j Hj. destruct j as [|[|j]]; [reflexivity|reflexivity|lia].
  - reflexivity.
Defined.

(** * Further properties: the purpose under the AI collaborator *)

(** X27: in smart or deep mode with an API key the heuristic purpose of
    the directory never reaches the record: the purpose is the one the
    service answered in JSON when that is not empty, and otherwise one of
    the two fixed texts of the AI analyzer. *)
Theorem ai_purpose_replaces_heuristic ignores w dir config client a :
  api_client w = Some client ->
  is_quick (mode config) = false ->
  buildAnalysis ignores w dir config = Returned a ->
  purpose a = "AI-powered analysis available with proper API key"
  \/ purpose a = "AI analysis unavailable"
  \/ exists model prompt text p arch imps,
       messages_create client (now w) model 1000 prompt
       = reply_text text (Some (p, arch, imps))
       /\ p <> "" /\ purpose a = p.
Proof.
  intros Hc Hq. unfold buildAnalysis. rewrite Hq, Hc.
  destruct (FS.readdir w dir) as [names|e] eqn:Hn; cbn [bind]; [|discriminate].
  destruct (analyzeFiles w config (Some (Some client)) dir empty_scan _)
    as [scan|e] eqn:Hs; cbn [bind]; [|discriminate].
  cbn [AIAnalyzer.isAvailable negb andb AIAnalyzer.analyzeDirectory].
  intros [= <-]. cbn [purpose].
  destruct (messages_create client (now w) _ 1000 _)
    as [| |text [[[p arch] imps]|]] eqn:E; cbn [ai_purpose];
    try (left; reflexivity).
  destruct p as [|c p].
  - right. left. reflexivity.
  - right. right. eexists _, _, text, (String c p), arch, imps.
    split; [exact E|]. split; [discriminate|reflexivity].
Qed.

Lemma ai_purpose_replaces_heuristic_witness :
  exists a,
    buildAnalysis Ignore.ignores
      (with_client ranking_world (Some chatty_service)) "/proj/lib"
      (defaultConfig smart) = Returned a
    /\ (purpose a = "AI-powered analysis available with proper API key"
        \/ purpose a = "AI analysis unavailable"
        \/ exists model prompt text p arch imps,
             messages_create chatty_service
               (now (with_client ranking_world (Some chatty_service)))
               model 1000 prompt
             = reply_text text (Some (p, arch, imps))
             /\ p <> "" /\ purpose a = p).
Proof.
  assert (H : exists a,
             buildAnalysis Ignore.ignores
               (with_client ranking_world (Some chatty_service)) "/proj/lib"
               (defaultConfig smart) = Returned a)
    by (vm_compute; eexists; reflexivity).
  destruct H as [a H]. exists a. split; [exact H|].
  exact (ai_purpose_replaces_heuristic Ignore.ignores
           (with_client ranking_world (Some chatty_service)) "/proj/lib"
           (defaultConfig smart) chatty_service a eq_refl eq_refl H).
Defined.
